(** * Recurrence and synchronisation engine of the kanban/agenda planner

    A shallow embedding of [backend/dominio.py], [backend/persistencia.py]
    and [backend/servicos.py], of the computations of the week and of the
    calendar in [componentes_ui.py], and of the parts of the Python
    runtime they call ([datetime.date], [datetime.strptime], [re], [str]).

    Conventions.
    - A Python [str] is a list of Unicode code points ([N]); the texts
      handed to the store are texts UTF-8 encodes (no lone surrogate).
    - A Python [int] is a [Z]; where SQLite holds it, its 64 bits are
      written out.
    - A call that may raise returns a [result]; [try]/[except] is a match
      on it.
    - The current day ([date.today()]) is an explicit argument [hoje]. *)

From Stdlib Require Import ZArith NArith String Ascii List Bool Lia Arith.
From Stdlib Require Import Permutation Sorted.
Import ListNotations.
Open Scope Z_scope.

(* ================================================================== *)
(** * Exceptions *)
(* ================================================================== *)

Inductive exc : Type :=
| ValueError
| TypeError
| AttributeError
| OverflowError
| ErroRepositorio.

Inductive result (A : Type) : Type :=
| Ok (a : A)
| Raise (e : exc).

Arguments Ok {A} a.
Arguments Raise {A} e.

Definition bind {A B : Type} (r : result A) (f : A -> result B) : result B :=
  match r with
  | Ok a => f a
  | Raise e => Raise e
  end.

Notation "x <- r ;; k" := (bind r (fun x => k))
  (at level 61, r at next level, right associativity).

(* ================================================================== *)
(** * [datetime.date] *)
(* ================================================================== *)

Module Datetime.

Record date : Type := mkdate { year : Z; month : Z; day : Z }.

Definition MINYEAR : Z := 1.
Definition MAXYEAR : Z := 9999.
Definition _MAXORDINAL : Z := 3652059.

Definition _DAYS_IN_MONTH : list Z :=
  [-1; 31; 28; 31; 30; 31; 30; 31; 31; 30; 31; 30; 31].

Definition _DAYS_BEFORE_MONTH : list Z :=
  [-1; 0; 31; 59; 90; 120; 151; 181; 212; 243; 273; 304; 334].

(** [l[i]] for the two month tables (only read at 1..12). *)
Definition item (l : list Z) (i : Z) : Z := nth (Z.to_nat i) l 0.

Definition b2z (b : bool) : Z := if b then 1 else 0.

Definition _is_leap (y : Z) : bool :=
  (y mod 4 =? 0) && (negb (y mod 100 =? 0) || (y mod 400 =? 0)).

Definition _days_before_year (y0 : Z) : Z :=
  let y := y0 - 1 in
  y * 365 + y / 4 - y / 100 + y / 400.

Definition _days_in_month (y m : Z) : Z :=
  if (m =? 2) && _is_leap y then 29 else item _DAYS_IN_MONTH m.

Definition _days_before_month (y m : Z) : Z :=
  item _DAYS_BEFORE_MONTH m + b2z ((2 <? m) && _is_leap y).

Definition _ymd2ord (y m d : Z) : Z :=
  _days_before_year y + _days_before_month y m + d.

Definition _DI400Y : Z := 146097.
Definition _DI100Y : Z := 36524.
Definition _DI4Y : Z := 1461.

(** Month and day of the [n]-th day (from 0) of a year, as the tail of
    [_ord2ymd] computes them. *)
Definition _month_day (leapyear : bool) (n : Z) : Z * Z :=
  let month := Z.shiftr (n + 50) 5 in
  let preceding := item _DAYS_BEFORE_MONTH month + b2z ((2 <? month) && leapyear) in
  if n <? preceding then
    let month' := month - 1 in
    let preceding' :=
      preceding - (item _DAYS_IN_MONTH month' + b2z ((month' =? 2) && leapyear)) in
    (month', n - preceding' + 1)
  else (month, n - preceding + 1).

Definition _ord2ymd (n0 : Z) : date :=
  let n := n0 - 1 in
  let n400 := n / _DI400Y in
  let n := n mod _DI400Y in
  let n100 := n / _DI100Y in
  let n := n mod _DI100Y in
  let n4 := n / _DI4Y in
  let n := n mod _DI4Y in
  let n1 := n / 365 in
  let n := n mod 365 in
  let year := n400 * 400 + 1 + n100 * 100 + n4 * 4 + n1 in
  if (n1 =? 4) || (n100 =? 4) then mkdate (year - 1) 12 31
  else
    let leapyear := (n1 =? 3) && (negb (n4 =? 24) || (n100 =? 3)) in
    let '(m, d) := _month_day leapyear n in
    mkdate year m d.

(** The invariant of every [date] object ([_check_date_fields]). *)
Definition date_ok (d : date) : bool :=
  (MINYEAR <=? year d) && (year d <=? MAXYEAR) &&
  (1 <=? month d) && (month d <=? 12) &&
  (1 <=? day d) && (day d <=? _days_in_month (year d) (month d)).

Definition toordinal (d : date) : Z := _ymd2ord (year d) (month d) (day d).

Definition fromordinal (n : Z) : date := _ord2ymd n.

(** [date(y, m, d)]: the constructor checks its fields. *)
Definition new_date (y m d : Z) : result date :=
  let r := mkdate y m d in
  if date_ok r then Ok r else Raise ValueError.

(** Monday is 0, Sunday is 6. *)
Definition weekday (d : date) : Z := (toordinal d + 6) mod 7.

(** Comparison is on the triple (year, month, day). *)
Definition date_cmp (a b : date) : comparison :=
  match year a ?= year b with
  | Eq => match month a ?= month b with
          | Eq => day a ?= day b
          | c => c
          end
  | c => c
  end.

Definition date_ltb (a b : date) : bool :=
  match date_cmp a b with Lt => true | _ => false end.

Definition date_leb (a b : date) : bool :=
  match date_cmp a b with Gt => false | _ => true end.

Definition date_eqb (a b : date) : bool :=
  match date_cmp a b with Eq => true | _ => false end.

(** [d + timedelta(days=k)]. *)
Definition date_add (d : date) (k : Z) : result date :=
  let o := toordinal d + k in
  if (0 <? o) && (o <=? _MAXORDINAL) then Ok (fromordinal o)
  else Raise OverflowError.

(** [(a - b).days]. *)
Definition date_sub (a b : date) : Z := toordinal a - toordinal b.

End Datetime.

(* ================================================================== *)
(** * [str] *)
(* ================================================================== *)

Module Str.

(** A character is its code point; a [str] is the list of its characters. *)
Abbreviation char := N (only parsing).
Abbreviation str := (list N) (only parsing).

(** A literal of the source, written in ASCII. *)
Definition lit (s : string) : str := map N_of_ascii (list_ascii_of_string s).

Fixpoint str_eqb (a b : str) : bool :=
  match a, b with
  | [], [] => true
  | x :: a', y :: b' => N.eqb x y && str_eqb a' b'
  | _, _ => false
  end.

Definition is_ascii (c : char) : bool := N.ltb c 128%N.

(** The interpreter's character database outside ASCII.  Nothing is
    assumed about it: every definition below reads it only at code
    points from 128 on. *)
Class Unicode : Type := {
  (** [Py_UNICODE_ISSPACE] *)
  uni_isspace : char -> bool;
  (** [Py_UNICODE_ISDECIMAL] *)
  uni_isdecimal : char -> bool;
  (** whether [re.IGNORECASE] lets the text character (second argument)
      stand for the ASCII letter of the pattern (first argument) *)
  uni_ignorecase : char -> char -> bool;
  (** [str.lower()] of a string that is not pure ASCII *)
  uni_lower : str -> str
}.

Definition in_range (lo hi c : char) : bool := N.leb lo c && N.leb c hi.

Definition ascii_isspace (c : char) : bool :=
  in_range 9%N 13%N c || in_range 28%N 32%N c.

Definition ascii_isdigit (c : char) : bool := in_range 48%N 57%N c.

Definition ascii_isupper (c : char) : bool := in_range 65%N 90%N c.

Definition ascii_isalpha (c : char) : bool :=
  in_range 65%N 90%N c || in_range 97%N 122%N c.

Definition ascii_lower (c : char) : char :=
  if ascii_isupper c then (c + 32)%N else c.

Section WithUnicode.
Context {U : Unicode}.

Definition isspace (c : char) : bool :=
  if is_ascii c then ascii_isspace c else uni_isspace c.

Definition isdecimal (c : char) : bool :=
  if is_ascii c then ascii_isdigit c else uni_isdecimal c.

(** [str.lower()] *)
Definition lower (s : str) : str :=
  if forallb is_ascii s then map ascii_lower s else uni_lower s.

Fixpoint lstrip (s : str) : str :=
  match s with
  | c :: s' => if isspace c then lstrip s' else s
  | [] => []
  end.

Definition rstrip (s : str) : str := rev (lstrip (rev s)).

(** [str.strip()] *)
Definition strip (s : str) : str := rstrip (lstrip s).

End WithUnicode.

Definition digit_char (d : Z) : char := (48 + Z.to_N d)%N.

Fixpoint digits_of (fuel : nat) (n : Z) (acc : str) : str :=
  match fuel with
  | O => acc
  | S fuel' =>
      let acc' := digit_char (n mod 10) :: acc in
      if n <? 10 then acc' else digits_of fuel' (n / 10) acc'
  end.

(** [str(n)] for an [int]. *)
Definition str_of_int (n : Z) : str :=
  let a := Z.abs n in
  let ds := digits_of (S (Z.to_nat (Z.log2 a))) a [] in
  if n <? 0 then 45%N :: ds else ds.

(** ["%0<w>d" % n] for a non-negative [n]. *)
Definition zfill (w : nat) (n : Z) : str :=
  let ds := str_of_int n in
  repeat 48%N (w - length ds) ++ ds.

Definition digit_val (c : char) : Z := Z.of_N c - 48.

Fixpoint int_of_digits (s : str) (acc : Z) : Z :=
  match s with
  | [] => acc
  | c :: s' => int_of_digits s' (10 * acc + digit_val c)
  end.

(** [int(s)] where [s] is a non-empty run of ASCII digits, the only
    texts the source passes to [int]; any other text raises here. *)
Definition py_int (s : str) : result Z :=
  match s with
  | [] => Raise ValueError
  | _ => if forallb ascii_isdigit s then Ok (int_of_digits s 0)
         else Raise ValueError
  end.

(** A character database to run the definitions on: exact on the code
    points below 256 (two more blanks, no more decimal digits, no other
    spelling of an ASCII letter, the capital letters from 192 to 222
    except the multiplication sign), silent beyond. *)
Definition latin1_lower (c : char) : char :=
  if is_ascii c then ascii_lower c
  else if in_range 192%N 222%N c && negb (N.eqb c 215%N) then (c + 32)%N
  else c.

Definition latin1 : Unicode :=
  {| uni_isspace := fun c => N.eqb c 133%N || N.eqb c 160%N;
     uni_isdecimal := fun _ => false;
     uni_ignorecase := fun _ _ => false;
     uni_lower := map latin1_lower |}.

End Str.

(* ================================================================== *)
(** * [date.isoformat] and [date.fromisoformat] *)
(* ================================================================== *)

Module Iso.
Import Datetime Str.

(** ["%04d-%02d-%02d" % (year, month, day)] *)
Definition isoformat (d : date) : str :=
  zfill 4 (year d) ++ lit "-" ++ zfill 2 (month d) ++ lit "-" ++ zfill 2 (day d).

(** [date.fromisoformat] on the extended format [YYYY-MM-DD] (ASCII
    digits), the shape [_PADRAO_DATA] lets through; any other text, and
    any field out of range, is a [ValueError]. *)
Definition fromisoformat (s : str) : result date :=
  match s with
  | [y1; y2; y3; y4; h1; m1; m2; h2; d1; d2] =>
      if forallb ascii_isdigit [y1; y2; y3; y4; m1; m2; d1; d2]
         && N.eqb h1 45%N && N.eqb h2 45%N
      then new_date (int_of_digits [y1; y2; y3; y4] 0)
                    (int_of_digits [m1; m2] 0)
                    (int_of_digits [d1; d2] 0)
      else Raise ValueError
  | _ => Raise ValueError
  end.

End Iso.

(* ================================================================== *)
(** * [re]: a backtracking matcher for the patterns of the source *)
(* ================================================================== *)

Module Re.
Import Str.

Inductive atom : Type :=
| Chr (c : char)          (** a literal character *)
| NotChr (c : char)       (** [[^c]] *)
| Range (lo hi : char)    (** [[lo-hi]], over characters without case *)
| Space                   (** [\s] *)
| Digit.                  (** [\d] *)

Inductive regex : Type :=
| Eps
| Atom (a : atom)
| Bol                     (** [^] *)
| Seq (r1 r2 : regex)
| Alt (r1 r2 : regex)
| Star (r : regex)        (** greedy [*] *)
| Group (r : regex).      (** the capturing group 1 *)

(** [r+] *)
Definition Plus (r : regex) : regex := Seq r (Star r).

(** [r{n}] *)
Fixpoint Repeat (n : nat) (r : regex) : regex :=
  match n with
  | O => Eps
  | S O => r
  | S n' => Seq r (Repeat n' r)
  end.

Fixpoint Word (s : str) : regex :=
  match s with
  | [] => Eps
  | [c] => Atom (Chr c)
  | c :: s' => Seq (Atom (Chr c)) (Word s')
  end.

(** A run of literal characters. *)
Definition Lit (s : string) : regex := Word (lit s).

(** A compiled pattern: the expression and the [re.IGNORECASE] flag. *)
Record Pattern : Type := compile { expr : regex; ignorecase : bool }.

(** Where the matcher stands: the index in the subject, what is left of
    the subject from there, and the text of group 1 if it has matched. *)
Record cfg : Type := mkcfg { pos : nat; rest : str; grp : option str }.

Record Match : Type := mkmatch { m_start : nat; m_end : nat; group1 : option str }.

Section Matcher.
Context {U : Unicode}.

Definition chr_ok (ic : bool) (p c : char) : bool :=
  if ic && ascii_isalpha p then
    if is_ascii c then N.eqb (ascii_lower c) (ascii_lower p)
    else uni_ignorecase p c
  else N.eqb c p.

Definition atom_ok (ic : bool) (a : atom) (c : char) : bool :=
  match a with
  | Chr p => chr_ok ic p c
  | NotChr p => negb (chr_ok ic p c)
  | Range lo hi => in_range lo hi c
  | Space => isspace c
  | Digit => isdecimal c
  end.

Definition step (c : cfg) (xs : str) : cfg :=
  mkcfg (S (pos c)) xs (grp c).

Definition capture (c c' : cfg) : cfg :=
  mkcfg (pos c') (rest c') (Some (firstn (pos c' - pos c) (rest c))).

Section Loop.
Context {R : Type}.
Variable body : (cfg -> option R) -> cfg -> option R.
Variable k : cfg -> option R.

(** Greedy iteration: one more round of [body] if it succeeds and moves
    forward, the continuation otherwise. *)
Fixpoint star_loop (fuel : nat) (c : cfg) : option R :=
  match fuel with
  | O => k c
  | S fuel' =>
      match body (fun c' => if Nat.ltb (pos c) (pos c') then star_loop fuel' c'
                            else None) c with
      | Some v => Some v
      | None => k c
      end
  end.

End Loop.

(** [m ic r k c]: the first way, in the order a backtracking matcher
    tries them, of matching [r] at [c] and then succeeding with [k]. *)
Fixpoint m {R : Type} (ic : bool) (r : regex) (k : cfg -> option R) (c : cfg)
  : option R :=
  match r with
  | Eps => k c
  | Atom a =>
      match rest c with
      | x :: xs => if atom_ok ic a x then k (step c xs) else None
      | [] => None
      end
  | Bol => if Nat.eqb (pos c) 0 then k c else None
  | Seq r1 r2 => m ic r1 (m ic r2 k) c
  | Alt r1 r2 =>
      match m ic r1 k c with
      | Some v => Some v
      | None => m ic r2 k c
      end
  | Star r1 => star_loop (m ic r1) k (S (length (rest c))) c
  | Group r1 => m ic r1 (fun c' => k (capture c c')) c
  end.

(** A match of the pattern that starts exactly at [pos]. *)
Definition match_at (p : Pattern) (i : nat) (s : str) : option Match :=
  m (ignorecase p) (expr p)
    (fun c' => Some (mkmatch i (pos c') (grp c')))
    (mkcfg i s None).

Fixpoint search_from (p : Pattern) (i : nat) (s : str) : option Match :=
  match match_at p i s with
  | Some mt => Some mt
  | None =>
      match s with
      | [] => None
      | _ :: s' => search_from p (S i) s'
      end
  end.

(** [p.search(s)]: the leftmost match. *)
Definition search (p : Pattern) (s : str) : option Match := search_from p 0 s.

(** [p.sub('', s)]: every non-overlapping match, leftmost first, is
    cut out. *)
Fixpoint sub_from (fuel : nat) (p : Pattern) (i : nat) (s : str) : str :=
  match fuel with
  | O => s
  | S fuel' =>
      let keep_one :=
        match s with
        | [] => []
        | x :: s' => x :: sub_from fuel' p (S i) s'
        end in
      match match_at p i s with
      | Some mt =>
          if Nat.ltb i (m_end mt)
          then sub_from fuel' p (m_end mt) (skipn (m_end mt - i) s)
          else keep_one
      | None => keep_one
      end
  end.

Definition sub_empty (p : Pattern) (s : str) : str :=
  sub_from (S (length s)) p 0 s.

End Matcher.

End Re.

(* ================================================================== *)
(** * [backend/dominio.py] *)
(* ================================================================== *)

Module Dominio.
Import Datetime Str Iso Re.

Inductive StatusTarefa : Type := FAZER | FAZENDO | FEITO.

Definition valor_status (s : StatusTarefa) : str :=
  match s with
  | FAZER => lit "Fazer"
  | FAZENDO => lit "Fazendo"
  | FEITO => lit "Feito"
  end.

Inductive DiaDaSemana : Type := SEGUNDA | TERCA | QUARTA | QUINTA | SEXTA.

(** [DiaDaSemana.value]; the cedilla of [Terça] is code point 231. *)
Definition valor_dia (d : DiaDaSemana) : str :=
  match d with
  | SEGUNDA => lit "Segunda-Feira"
  | TERCA => lit "Ter" ++ [231%N] ++ lit "a-Feira"
  | QUARTA => lit "Quarta-Feira"
  | QUINTA => lit "Quinta-Feira"
  | SEXTA => lit "Sexta-Feira"
  end.

Inductive Periodicidade : Type := UNICA | DIARIA | SEMANAL | QUINZENAL | MENSAL.

(** [Periodicidade.codigo] *)
Definition codigo (p : Periodicidade) : str :=
  match p with
  | UNICA => lit "unica"
  | DIARIA => lit "diaria"
  | SEMANAL => lit "semanal"
  | QUINZENAL => lit "quinzenal"
  | MENSAL => lit "mensal"
  end.

(** [Periodicidade.from_codigo]: the first member with that code,
    [SEMANAL] when there is none. *)
Definition from_codigo (c : str) : Periodicidade :=
  match find (fun periodicidade => str_eqb (codigo periodicidade) c)
             [UNICA; DIARIA; SEMANAL; QUINZENAL; MENSAL] with
  | Some periodicidade => periodicidade
  | None => SEMANAL
  end.

Inductive Prioridade : Type := P0 | P1 | P2 | P3.

(** [Prioridade.nivel] *)
Definition nivel (p : Prioridade) : Z :=
  match p with
  | P0 => 0
  | P1 => 1
  | P2 => 2
  | P3 => 3
  end.

(** [Prioridade.from_nivel]: the first member of that level, [P3] when
    there is none. *)
Definition from_nivel (n : Z) : Prioridade :=
  match find (fun p => nivel p =? n) [P0; P1; P2; P3] with
  | Some p => p
  | None => P3
  end.

Definition converter_string_para_dia (dia_str : str) : option DiaDaSemana :=
  find (fun dia => str_eqb (valor_dia dia) dia_str)
       [SEGUNDA; TERCA; QUARTA; QUINTA; SEXTA].

Definition converter_string_para_status (status_str : str)
  : option StatusTarefa :=
  find (fun status => str_eqb (valor_status status) status_str)
       [FAZER; FAZENDO; FEITO].

Module TarefaDTO.
Record t : Type := mk {
  titulo : str;
  dia : str;
  status : str;
  id : option Z;
  horario : str;
  prioridade : Z;
  origem : str;
  atividade_origem_id : option Z;
  data_criacao : option str
}.
End TarefaDTO.

(** [obter_dia_semana_atual], with the clock read once as [hoje]. *)
Definition obter_dia_semana_atual (hoje : date) : option DiaDaSemana :=
  let dia_numero := weekday hoje in
  if dia_numero =? 0 then Some SEGUNDA
  else if dia_numero =? 1 then Some TERCA
  else if dia_numero =? 2 then Some QUARTA
  else if dia_numero =? 3 then Some QUINTA
  else if dia_numero =? 4 then Some SEXTA
  else None.

Record MetadadosAtividade : Type := mkMetadados {
  titulo : str;
  prioridade : Z;
  periodicidade : str;
  data_criacao : option date
}.

Definition ch (a : ascii) : char := N_of_ascii a.

(** [\[P([0-3])\]], IGNORECASE *)
Definition _PADRAO_PRIORIDADE : Pattern :=
  compile (Seq (Lit "[P")
          (Seq (Group (Atom (Range (ch "0") (ch "3"))))
               (Lit "]")))
          true.

(** [\[(unica|diaria|semanal|quinzenal|mensal)\]], IGNORECASE *)
Definition _PADRAO_PERIODICIDADE : Pattern :=
  compile (Seq (Lit "[")
          (Seq (Group (Alt (Lit "unica")
                      (Alt (Lit "diaria")
                      (Alt (Lit "semanal")
                      (Alt (Lit "quinzenal")
                           (Lit "mensal"))))))
               (Lit "]")))
          true.

(** [\[(\d{4}-\d{2}-\d{2})\]] *)
Definition _PADRAO_DATA : Pattern :=
  compile (Seq (Lit "[")
          (Seq (Group (Seq (Repeat 4 (Atom Digit))
                      (Seq (Lit "-")
                      (Seq (Repeat 2 (Atom Digit))
                      (Seq (Lit "-")
                           (Repeat 2 (Atom Digit)))))))
               (Lit "]")))
          false.

(** [^\s*\[(\d{2}:\d{2})\]\s*] *)
Definition _PADRAO_HORARIO : Pattern :=
  compile (Seq Bol
          (Seq (Star (Atom Space))
          (Seq (Lit "[")
          (Seq (Group (Seq (Repeat 2 (Atom Digit))
                      (Seq (Lit ":")
                           (Repeat 2 (Atom Digit)))))
          (Seq (Lit "]")
               (Star (Atom Space)))))))
          false.

(** [^\s*] then one or more of the group [\[ [^\]]+ \] \s*], that is
    r'^\s*(\[[^\]]+\]\s* )+' without the blank *)
Definition _PADRAO_METADADOS : Pattern :=
  compile (Seq Bol
          (Seq (Star (Atom Space))
               (Plus (Group (Seq (Lit "[")
                            (Seq (Plus (Atom (NotChr (ch "]"))))
                            (Seq (Lit "]")
                                 (Star (Atom Space)))))))))
          false.

Section Extrator.
Context {U : Unicode}.

(** [correspondencia.group(1)] handed to a function that needs a [str]:
    [None] is a [TypeError] ([AttributeError] for a method call). *)
Definition group1_or (e : exc) (mt : Match) : result str :=
  match group1 mt with
  | Some g => Ok g
  | None => Raise e
  end.

Definition extrair_prioridade (texto : str) : result Z :=
  match texto with
  | [] => Ok 3
  | _ =>
      match search _PADRAO_PRIORIDADE texto with
      | Some correspondencia =>
          g <- group1_or TypeError correspondencia ;;
          py_int g
      | None => Ok 3
      end
  end.

Definition extrair_periodicidade (texto : str) : result str :=
  match texto with
  | [] => Ok (lit "semanal")
  | _ =>
      match search _PADRAO_PERIODICIDADE texto with
      | Some correspondencia =>
          g <- group1_or AttributeError correspondencia ;;
          Ok (lower g)
      | None => Ok (lit "semanal")
      end
  end.

Definition extrair_data_criacao (texto : str) : result (option date) :=
  match texto with
  | [] => Ok None
  | _ =>
      match search _PADRAO_DATA texto with
      | Some correspondencia =>
          match (g <- group1_or TypeError correspondencia ;; fromisoformat g) with
          | Ok d => Ok (Some d)
          | Raise ValueError => Ok None
          | Raise e => Raise e
          end
      | None => Ok None
      end
  end.

(** [extrair_horario]: [group(1)] of the match, as it is. *)
Definition extrair_horario (texto : str) : option str :=
  match texto with
  | [] => None
  | _ =>
      match search _PADRAO_HORARIO texto with
      | Some correspondencia => group1 correspondencia
      | None => None
      end
  end.

Definition extrair_titulo_limpo (texto : str) : str :=
  match texto with
  | [] => []
  | _ =>
      let texto_limpo := sub_empty _PADRAO_HORARIO texto in
      let texto_limpo := sub_empty _PADRAO_METADADOS texto_limpo in
      strip texto_limpo
  end.

Definition extrair_metadados (texto : str) : result MetadadosAtividade :=
  let titulo := extrair_titulo_limpo texto in
  prioridade <- extrair_prioridade texto ;;
  periodicidade <- extrair_periodicidade texto ;;
  data_criacao <- extrair_data_criacao texto ;;
  Ok (mkMetadados titulo prioridade periodicidade data_criacao).

End Extrator.

(** [formatar_atividade]: [data_criacao or date.today()] *)
Definition formatar_atividade (hoje : date) (titulo : str) (prioridade : Z)
    (periodicidade : str) (data_criacao : option date) : str :=
  let data_str :=
    isoformat (match data_criacao with Some d => d | None => hoje end) in
  lit "[P" ++ str_of_int prioridade ++ lit "][" ++ periodicidade
  ++ lit "][" ++ data_str ++ lit "] " ++ titulo.

(** [MetadadosAtividade.para_texto_formatado] *)
Definition para_texto_formatado (hoje : date) (self : MetadadosAtividade) : str :=
  let data_str :=
    match data_criacao self with
    | Some d => isoformat d
    | None => isoformat hoje
    end in
  lit "[P" ++ str_of_int (prioridade self) ++ lit "][" ++ periodicidade self
  ++ lit "][" ++ data_str ++ lit "] " ++ titulo self.

Definition prioridade_enum (self : MetadadosAtividade) : Prioridade :=
  from_nivel (prioridade self).

Definition periodicidade_enum (self : MetadadosAtividade) : Periodicidade :=
  from_codigo (periodicidade self).

(** Lines 410-414 of [atividade_valida_para_data]: the first day, from
    the creation date on, that falls on the weekday of the target. *)
Definition primeira_ocorrencia (data_alvo data_criacao : date) : result date :=
  let dias_ate_dia_semana := (weekday data_alvo - weekday data_criacao) mod 7 in
  if (dias_ate_dia_semana =? 0) && (weekday data_criacao =? weekday data_alvo)
  then Ok data_criacao
  else date_add data_criacao dias_ate_dia_semana.

(** The local function [semana_do_mes]. *)
Definition semana_do_mes (d : date) : result Z :=
  primeiro_dia <- new_date (year d) (month d) 1 ;;
  primeiro_mesmo_dia_semana <-
    date_add primeiro_dia ((weekday d - weekday primeiro_dia) mod 7) ;;
  Ok (date_sub d primeiro_mesmo_dia_semana / 7).

Definition atividade_valida_para_data (hoje data_alvo : date)
    (periodicidade : str) (data_criacao : option date) : result bool :=
  let data_criacao := match data_criacao with Some d => d | None => hoje end in
  if date_ltb data_alvo data_criacao then Ok false
  else
    primeira_ocorrencia <- primeira_ocorrencia data_alvo data_criacao ;;
    if str_eqb periodicidade (lit "unica") then
      Ok (date_eqb data_alvo primeira_ocorrencia)
    else if str_eqb periodicidade (lit "diaria") then
      Ok (date_leb data_criacao data_alvo && (weekday data_alvo <? 5))
    else if str_eqb periodicidade (lit "semanal") then
      Ok (date_leb primeira_ocorrencia data_alvo)
    else if str_eqb periodicidade (lit "quinzenal") then
      if date_ltb data_alvo primeira_ocorrencia then Ok false
      else
        let semanas_diff := date_sub data_alvo primeira_ocorrencia / 7 in
        Ok (semanas_diff mod 2 =? 0)
    else if str_eqb periodicidade (lit "mensal") then
      if date_ltb data_alvo primeira_ocorrencia then Ok false
      else
        a <- semana_do_mes primeira_ocorrencia ;;
        b <- semana_do_mes data_alvo ;;
        Ok (a =? b)
    else Ok false.

End Dominio.

(* ================================================================== *)
(** * [backend/persistencia.py] *)
(* ================================================================== *)

Module Persistencia.
Import Datetime Str Iso Dominio.

(** A cell of the table [agenda]: (rotulo_horario, coluna, atividade);
    the text column may hold NULL. *)
Definition Celula : Type := (str * Z * option str)%type.

(** The database file.  [tarefas] and [agenda] are the rows of the two
    tables, in the order a scan of the table meets them; [ultimo_id] is
    the AUTOINCREMENT counter.  [falha] says which connections fail
    ([sqlite3.Error], turned into [ErroRepositorio] by [obter_conexao_bd]
    and rolled back); [relogio] counts the connections opened so far. *)
Record BD : Type := mkBD {
  tarefas : list TarefaDTO.t;
  agenda : list Celula;
  ultimo_id : Z;
  relogio : nat;
  falha : nat -> bool
}.

Definition avancar (bd : BD) : BD :=
  mkBD (tarefas bd) (agenda bd) (ultimo_id bd) (S (relogio bd)) (falha bd).

(** [with obter_conexao_bd(...) as conexao: ...].  An exception of the
    body passes through the context manager ([sqlite3.Error] as
    [ErroRepositorio], after a rollback; any other as it is, the
    connection being closed without a commit): what the body wrote is
    lost. *)
Definition com_conexao {A : Type} (corpo : BD -> result (A * BD)) (bd : BD)
  : result A * BD :=
  if falha bd (relogio bd) then (Raise ErroRepositorio, avancar bd)
  else
    match corpo (avancar bd) with
    | Ok (a, bd') => (Ok a, bd')
    | Raise e => (Raise e, avancar bd)
    end.

(** The integers of SQLite are signed 64-bit. *)
Definition _SQLITE_INT_MIN : Z := - 9223372036854775808.
Definition _SQLITE_INT_MAX : Z := 9223372036854775807.

Definition sqlite_int (n : Z) : bool :=
  (_SQLITE_INT_MIN <=? n) && (n <=? _SQLITE_INT_MAX).

(** An [int] given for a [?] of a statement: [sqlite3] raises
    OverflowError for one that SQLite cannot hold. *)
Definition vincular_int (n : Z) : result Z :=
  if sqlite_int n then Ok n else Raise OverflowError.

(** An [Optional[int]]: [None] is bound as NULL. *)
Definition vincular_int_opcional (n : option Z) : result (option Z) :=
  match n with
  | Some i => i' <- vincular_int i ;; Ok (Some i')
  | None => Ok None
  end.

(** [s or padrao] for an optional text. *)
Definition texto_ou (s : option str) (padrao : str) : str :=
  match s with
  | Some [] | None => padrao
  | Some t => t
  end.

(** [adicionar]: INSERIR_TAREFA, returns [cursor.lastrowid].  The
    parameters are bound first; the row then gets the id after the last
    one given, and none when that was the largest there is (SQLITE_FULL,
    a [sqlite3.OperationalError]). *)
Definition adicionar (hoje : date) (tarefa : TarefaDTO.t) : BD -> result Z * BD :=
  com_conexao (fun bd =>
    prioridade <- vincular_int (TarefaDTO.prioridade tarefa) ;;
    atividade_origem_id <-
      vincular_int_opcional (TarefaDTO.atividade_origem_id tarefa) ;;
    if ultimo_id bd <? _SQLITE_INT_MAX then
      let novo_id := ultimo_id bd + 1 in
      let linha :=
        TarefaDTO.mk (TarefaDTO.titulo tarefa) (TarefaDTO.dia tarefa)
          (TarefaDTO.status tarefa) (Some novo_id) (TarefaDTO.horario tarefa)
          prioridade (TarefaDTO.origem tarefa) atividade_origem_id
          (Some (texto_ou (TarefaDTO.data_criacao tarefa) (isoformat hoje))) in
      Ok (novo_id,
          mkBD (tarefas bd ++ [linha]) (agenda bd) novo_id (relogio bd) (falha bd))
    else Raise ErroRepositorio).

(** ORDER BY prioridade ASC: the rows of equal priority stay in the
    order of the scan. *)
Fixpoint inserir_ordenado (x : TarefaDTO.t) (l : list TarefaDTO.t)
  : list TarefaDTO.t :=
  match l with
  | [] => [x]
  | y :: l' =>
      if TarefaDTO.prioridade x <=? TarefaDTO.prioridade y then x :: l
      else y :: inserir_ordenado x l'
  end.

Definition ordenar_por_prioridade (l : list TarefaDTO.t) : list TarefaDTO.t :=
  fold_right inserir_ordenado [] l.

(** [obter_por_dia]: SELECIONAR_TAREFAS_POR_DIA *)
Definition obter_por_dia (dia : str) : BD -> result (list TarefaDTO.t) * BD :=
  com_conexao (fun bd =>
    Ok (ordenar_por_prioridade
          (filter (fun t => str_eqb (TarefaDTO.dia t) dia) (tarefas bd)),
        bd)).

(** [carregar_dados_horarios]: SELECIONAR_TODAS_AGENDAS *)
Definition carregar_dados_horarios : BD -> result (list Celula) * BD :=
  com_conexao (fun bd => Ok (agenda bd, bd)).

(** [salvar_celula_horario]: INSERT OR REPLACE on the key
    (rotulo_horario, coluna). *)
Definition salvar_celula_horario (rotulo_horario : str) (coluna : Z)
    (atividade : str) : BD -> result unit * BD :=
  com_conexao (fun bd =>
    coluna <- vincular_int coluna ;;
    let outras :=
      filter (fun c : Celula =>
                let '(h, col, _) := c in
                negb (str_eqb h rotulo_horario && (col =? coluna)))
             (agenda bd) in
    Ok (tt,
        mkBD (tarefas bd) (outras ++ [(rotulo_horario, coluna, Some atividade)])
             (ultimo_id bd) (relogio bd) (falha bd))).

(** [WHERE id = ?] *)
Definition id_igual (id_tarefa : Z) (t : TarefaDTO.t) : bool :=
  match TarefaDTO.id t with
  | Some i => i =? id_tarefa
  | None => false
  end.

(** [atualizar_status]: ATUALIZAR_TAREFA sets [dia] and [status] of the
    rows with that id. *)
Definition atualizar_status (id_tarefa : Z) (novo_dia novo_status : str)
  : BD -> result unit * BD :=
  com_conexao (fun bd =>
    id_tarefa <- vincular_int id_tarefa ;;
    let atualizar (t : TarefaDTO.t) :=
      if id_igual id_tarefa t then
        TarefaDTO.mk (TarefaDTO.titulo t) novo_dia novo_status (TarefaDTO.id t)
          (TarefaDTO.horario t) (TarefaDTO.prioridade t) (TarefaDTO.origem t)
          (TarefaDTO.atividade_origem_id t) (TarefaDTO.data_criacao t)
      else t in
    Ok (tt,
        mkBD (map atualizar (tarefas bd)) (agenda bd) (ultimo_id bd) (relogio bd)
             (falha bd))).

(** [deletar]: DELETAR_TAREFA; the AUTOINCREMENT counter is kept. *)
Definition deletar (id_tarefa : Z) : BD -> result unit * BD :=
  com_conexao (fun bd =>
    id_tarefa <- vincular_int id_tarefa ;;
    Ok (tt,
        mkBD (filter (fun t => negb (id_igual id_tarefa t)) (tarefas bd))
             (agenda bd) (ultimo_id bd) (relogio bd) (falha bd))).

(** The file with the table [definicoes_horario], the labels of the rows
    of the grid; [rotulo_horario] is its primary key. *)
Record BDGrade : Type := mkBDGrade {
  bd_de : BD;
  definicoes_horario : list str
}.

Definition com_conexao_grade {A : Type} (corpo : BDGrade -> A * BDGrade)
    (g : BDGrade) : result A * BDGrade :=
  let g1 := mkBDGrade (avancar (bd_de g)) (definicoes_horario g) in
  if falha (bd_de g) (relogio (bd_de g)) then (Raise ErroRepositorio, g1)
  else let '(a, g') := corpo g1 in (Ok a, g').

(** [obter_horarios_definidos]: SELECIONAR_DEFINICOES_HORARIO *)
Definition obter_horarios_definidos : BDGrade -> result (list str) * BDGrade :=
  com_conexao_grade (fun g => (definicoes_horario g, g)).

(** INSERT OR IGNORE on the primary key. *)
Definition inserir_ou_ignorar (rotulo : str) (l : list str) : list str :=
  if existsb (str_eqb rotulo) l then l else l ++ [rotulo].

(** [adicionar_horario_definido]: INSERIR_DEFINICAO_HORARIO *)
Definition adicionar_horario_definido (novo_horario : str)
  : BDGrade -> result unit * BDGrade :=
  com_conexao_grade (fun g =>
    (tt, mkBDGrade (bd_de g)
           (inserir_ou_ignorar novo_horario (definicoes_horario g)))).

(** [remover_horario_definido]: DELETAR_DEFINICAO_HORARIO, then
    DELETAR_AGENDA_POR_HORARIO, in one transaction. *)
Definition remover_horario_definido (horario : str)
  : BDGrade -> result unit * BDGrade :=
  com_conexao_grade (fun g =>
    let bd := bd_de g in
    let outras :=
      filter (fun c : Celula => let '(h, _, _) := c in negb (str_eqb h horario))
             (agenda bd) in
    (tt,
     mkBDGrade
       (mkBD (tarefas bd) outras (ultimo_id bd) (relogio bd) (falha bd))
       (filter (fun h => negb (str_eqb h horario)) (definicoes_horario g)))).

Definition HORARIO_INICIO_PADRAO : Z := 7.
Definition HORARIO_FIM_PADRAO : Z := 23.

(** [range(a, b)] *)
Definition range (a b : Z) : list Z :=
  map (fun i => a + Z.of_nat i) (seq 0 (Z.to_nat (b - a))).

(** [_popular_horarios_padrao]: the rows ["07:00"] to ["22:00"], on an
    empty table only. *)
Definition _popular_horarios_padrao (g : BDGrade) : BDGrade :=
  if Z.of_nat (length (definicoes_horario g)) =? 0 then
    let horarios_padrao :=
      map (fun h => zfill 2 h ++ lit ":00")
          (range HORARIO_INICIO_PADRAO HORARIO_FIM_PADRAO) in
    mkBDGrade (bd_de g)
      (fold_left (fun l h => inserir_ou_ignorar h l) horarios_padrao
                 (definicoes_horario g))
  else g.

(** [_inicializar_tabelas] on a file that has its tables. *)
Definition _inicializar_tabelas : BDGrade -> result unit * BDGrade :=
  com_conexao_grade (fun g => (tt, _popular_horarios_padrao g)).

End Persistencia.

(* ================================================================== *)
(** * [backend/servicos.py] *)
(* ================================================================== *)

Module Servicos.
Import Datetime Str Iso Re Dominio Persistencia.

(** An entry of [resultado['erros']]. *)
Inductive Erro : Type :=
| FalhaAoCriarTarefa (atividade : str)
| ErroAoProcessarAtividade (atividade : str) (e : exc)
| ErroNaSincronizacao (e : exc).

Record Resultado : Type := mkResultado {
  criadas : Z;
  ignoradas : Z;
  erros : list Erro
}.

Section Servico.
Context {U : Unicode}.

(** [ServicoTarefas.criar_tarefa]: every exception ends in [None]. *)
Definition criar_tarefa (hoje : date) (titulo : str) (dia : DiaDaSemana)
    (status : StatusTarefa) (prioridade : Z) (origem : str)
    (atividade_origem_id : option Z) (bd : BD) : option Z * BD :=
  match titulo, strip titulo with
  | [], _ | _, [] => (None, bd)
  | _, _ =>
      let dto :=
        TarefaDTO.mk (strip titulo) (valor_dia dia) (valor_status status) None
          [] prioridade origem atividade_origem_id (Some (isoformat hoje)) in
      match adicionar hoje dto bd with
      | (Ok id_tarefa, bd') => (Some id_tarefa, bd')
      | (Raise _, bd') => (None, bd')
      end
  end.

Definition _obter_indice_dia (dia : DiaDaSemana) : option Z :=
  match dia with
  | SEGUNDA => Some 0
  | TERCA => Some 1
  | QUARTA => Some 2
  | QUINTA => Some 3
  | SEXTA => Some 4
  end.

Definition _extrair_prioridade (texto : str) : result Z :=
  extrair_prioridade texto.

(** [f"[{horario}] {atividade}"] *)
Definition titulo_esperado (horario atividade : str) : str :=
  lit "[" ++ horario ++ lit "] " ++ atividade.

Definition opt_str_eqb (a : option str) (b : str) : bool :=
  match a with
  | Some s => str_eqb s b
  | None => false
  end.

(** The [for tarefa in tarefas_do_dia] loop of [_tarefa_ja_existe_hoje]. *)
Fixpoint procurar_duplicata (titulo_esperado data_hoje : str)
    (tarefas_do_dia : list TarefaDTO.t) : bool :=
  match tarefas_do_dia with
  | [] => false
  | tarefa :: resto =>
      if str_eqb (TarefaDTO.titulo tarefa) titulo_esperado then
        if opt_str_eqb (TarefaDTO.data_criacao tarefa) data_hoje then true
        else if str_eqb (TarefaDTO.origem tarefa) (lit "agenda") then true
        else procurar_duplicata titulo_esperado data_hoje resto
      else procurar_duplicata titulo_esperado data_hoje resto
  end.

Definition _tarefa_ja_existe_hoje (dia : DiaDaSemana) (horario atividade : str)
    (data_hoje : str) (bd : BD) : bool * BD :=
  match obter_por_dia (valor_dia dia) bd with
  | (Ok tarefas_do_dia, bd') =>
      (procurar_duplicata (titulo_esperado horario atividade) data_hoje
         tarefas_do_dia, bd')
  | (Raise _, bd') => (false, bd')
  end.

(** Truth value of a [str]. *)
Definition verdadeiro (s : str) : bool :=
  match s with
  | [] => false
  | _ => true
  end.

(** [[(horario, atividade) for horario, coluna, atividade in dados_grade
      if coluna == indice_dia and atividade and atividade.strip()]] *)
Definition atividades_hoje (indice_dia : Z) (dados_grade : list Celula)
  : list (str * str) :=
  flat_map (fun c : Celula =>
              let '(horario, coluna, atividade) := c in
              match atividade with
              | Some a =>
                  if (coluna =? indice_dia) && verdadeiro a
                     && verdadeiro (strip a)
                  then [(horario, a)] else []
              | None => []
              end)
           dados_grade.

Definition mais_criada (r : Resultado) : Resultado :=
  mkResultado (criadas r + 1) (ignoradas r) (erros r).

Definition mais_ignorada (r : Resultado) : Resultado :=
  mkResultado (criadas r) (ignoradas r + 1) (erros r).

Definition mais_erro (e : Erro) (r : Resultado) : Resultado :=
  mkResultado (criadas r) (ignoradas r) (erros r ++ [e]).

(** The body of [for horario, atividade in atividades_hoje]. *)
Definition processar_atividade (hoje : date) (dia_atual : DiaDaSemana)
    (data_hoje : str) (item : str * str) (st : Resultado * BD)
  : Resultado * BD :=
  let '(horario, atividade) := item in
  let '(resultado, bd) := st in
  let '(existe, bd) :=
    _tarefa_ja_existe_hoje dia_atual horario atividade data_hoje bd in
  if existe then (mais_ignorada resultado, bd)
  else
    match _extrair_prioridade atividade with
    | Raise e => (mais_erro (ErroAoProcessarAtividade atividade e) resultado, bd)
    | Ok prioridade =>
        let titulo := titulo_esperado horario atividade in
        let '(id_tarefa, bd) :=
          criar_tarefa hoje titulo dia_atual FAZER prioridade (lit "agenda")
            None bd in
        match id_tarefa with
        | Some i =>
            if i =? 0 then (mais_erro (FalhaAoCriarTarefa atividade) resultado, bd)
            else (mais_criada resultado, bd)
        | None => (mais_erro (FalhaAoCriarTarefa atividade) resultado, bd)
        end
    end.

Definition sincronizar_agenda_para_kanban (hoje : date) (bd : BD)
  : Resultado * BD :=
  let resultado := mkResultado 0 0 [] in
  match obter_dia_semana_atual hoje with
  | None => (resultado, bd)
  | Some dia_atual =>
      match _obter_indice_dia dia_atual with
      | None => (resultado, bd)
      | Some indice_dia =>
          let data_hoje := isoformat hoje in
          match carregar_dados_horarios bd with
          | (Raise e, bd') => (mais_erro (ErroNaSincronizacao e) resultado, bd')
          | (Ok dados_grade, bd') =>
              fold_left
                (fun st item => processar_atividade hoje dia_atual data_hoje item st)
                (atividades_hoje indice_dia dados_grade)
                (resultado, bd')
          end
      end
  end.

End Servico.

(** ** [ServicoTarefas], the other operations *)

(** [mover_tarefa]: every exception ends in [False]. *)
Definition mover_tarefa (id_tarefa : Z) (novo_dia : DiaDaSemana)
    (novo_status : StatusTarefa) (bd : BD) : bool * BD :=
  match atualizar_status id_tarefa (valor_dia novo_dia)
          (valor_status novo_status) bd with
  | (Ok _, bd') => (true, bd')
  | (Raise _, bd') => (false, bd')
  end.

Definition deletar_tarefa (id_tarefa : Z) (bd : BD) : bool * BD :=
  match deletar id_tarefa bd with
  | (Ok _, bd') => (true, bd')
  | (Raise _, bd') => (false, bd')
  end.

Definition obter_tarefas_do_dia (dia : DiaDaSemana) (bd : BD)
  : list TarefaDTO.t * BD :=
  match obter_por_dia (valor_dia dia) bd with
  | (Ok tarefas_do_dia, bd') => (tarefas_do_dia, bd')
  | (Raise _, bd') => ([], bd')
  end.

(** ** [ServicoHorarios] *)

(** What [_strptime] compiles the directive [%H] to:
    [(?P<H>2[0-3]|[0-1]\d|\d)]. *)
Definition _HORA : regex :=
  Alt (Seq (Lit "2") (Atom (Range (ch "0") (ch "3"))))
 (Alt (Seq (Atom (Range (ch "0") (ch "1"))) (Atom Digit))
      (Atom Digit)).

(** The directive [%M]: [(?P<M>[0-5]\d|\d)]. *)
Definition _MINUTO : regex :=
  Alt (Seq (Atom (Range (ch "0") (ch "5"))) (Atom Digit))
      (Atom Digit).

(** The expression of FORMATO_HORA, ["%H:%M"], compiled with
    IGNORECASE; group 1 is the hour, the minute is what the match
    holds after the colon. *)
Definition _FORMATO_HORA : Pattern :=
  compile (Seq (Group _HORA) (Seq (Lit ":") _MINUTO)) true.

(** The value of a decimal digit outside ASCII ([Py_UNICODE_TODECIMAL]);
    nothing is assumed about it. *)
Class Decimal : Type := { uni_todecimal : char -> Z }.

(** A sort key of [_chave_ordenacao_horario]: a time of day on
    1900-01-01, or [datetime.max]. *)
Inductive ChaveHorario : Type :=
| Hora (hora minuto : Z)
| Max.

Definition chave_ltb (a b : ChaveHorario) : bool :=
  match a, b with
  | Hora h1 m1, Hora h2 m2 => (h1 <? h2) || ((h1 =? h2) && (m1 <? m2))
  | Hora _ _, Max => true
  | Max, _ => false
  end.

(** [horario_str.split(' ')[0]] *)
Fixpoint antes_do_espaco (s : str) : str :=
  match s with
  | [] => []
  | c :: s' => if N.eqb c 32%N then [] else c :: antes_do_espaco s'
  end.

(** A key of the dict [obter_dados_grade] returns: (horario, dia_indice). *)
Definition Chave : Type := (str * Z)%type.

Definition chave_eqb (a b : Chave) : bool :=
  str_eqb (fst a) (fst b) && (snd a =? snd b).

(** [d[k] = v] on a dict, kept in the order its keys came in. *)
Fixpoint dict_set {V : Type} (k : Chave) (v : V) (d : list (Chave * V))
  : list (Chave * V) :=
  match d with
  | [] => [(k, v)]
  | (k', v') :: d' =>
      if chave_eqb k' k then (k', v) :: d' else (k', v') :: dict_set k v d'
  end.

(** [d.get(k)] *)
Fixpoint dict_get {V : Type} (k : Chave) (d : list (Chave * V)) : option V :=
  match d with
  | [] => None
  | (k', v') :: d' => if chave_eqb k' k then Some v' else dict_get k d'
  end.

Section ServicoHorarios.
Context {U : Unicode} {D : Decimal}.

Definition valor_decimal (c : char) : Z :=
  if is_ascii c then digit_val c else uni_todecimal c.

(** [int(s)] on a run of decimal digits. *)
Definition int_decimal (s : str) : Z :=
  fold_left (fun acc c => 10 * acc + valor_decimal c) s 0.

(** [datetime.strptime(s, FORMATO_HORA)]: the expression must match at
    the start of [s] and leave nothing of it; the result is the hour
    and the minute of a time on 1900-01-01. *)
Definition strptime (s : str) : result (Z * Z) :=
  match match_at _FORMATO_HORA 0 s with
  | Some found =>
      if Nat.eqb (m_end found) (length s) then
        g <- group1_or TypeError found ;;
        Ok (int_decimal g, int_decimal (skipn (S (length g)) s))
      else Raise ValueError
  | None => Raise ValueError
  end.

Definition _validar_formato_horario (horario : str) : result bool :=
  match strptime horario with
  | Ok _ => Ok true
  | Raise ValueError => Ok false
  | Raise e => Raise e
  end.

Definition _chave_ordenacao_horario (horario_str : str) : result ChaveHorario :=
  let parte_hora := strip (antes_do_espaco horario_str) in
  match strptime parte_hora with
  | Ok (h, m) => Ok (Hora h m)
  | Raise ValueError => Ok Max
  | Raise e => Raise e
  end.

(** [sorted(horarios, key=...)]: the keys are computed first, then the
    items are put in order, those of equal keys as they came. *)
Fixpoint inserir_por_chave (x : ChaveHorario * str)
    (l : list (ChaveHorario * str)) : list (ChaveHorario * str) :=
  match l with
  | [] => [x]
  | y :: l' =>
      if chave_ltb (fst y) (fst x) then y :: inserir_por_chave x l'
      else x :: l
  end.

Fixpoint chaves (horarios : list str) : result (list (ChaveHorario * str)) :=
  match horarios with
  | [] => Ok []
  | h :: resto =>
      k <- _chave_ordenacao_horario h ;;
      ks <- chaves resto ;;
      Ok ((k, h) :: ks)
  end.

Definition sorted_por_horario (horarios : list str) : result (list str) :=
  ks <- chaves horarios ;;
  Ok (map snd (fold_right inserir_por_chave [] ks)).

(** [obter_horarios_ordenados]: every exception ends in [[]]. *)
Definition obter_horarios_ordenados (g : BDGrade) : list str * BDGrade :=
  match obter_horarios_definidos g with
  | (Ok horarios, g') =>
      match sorted_por_horario horarios with
      | Ok ordenados => (ordenados, g')
      | Raise _ => ([], g')
      end
  | (Raise _, g') => ([], g')
  end.

(** [adicionar_horario]: every exception ends in [False]. *)
Definition adicionar_horario (horario : str) (g : BDGrade) : bool * BDGrade :=
  match _validar_formato_horario horario with
  | Ok true =>
      match adicionar_horario_definido horario g with
      | (Ok _, g') => (true, g')
      | (Raise _, g') => (false, g')
      end
  | Ok false | Raise _ => (false, g)
  end.

End ServicoHorarios.

Definition remover_horario (horario : str) (g : BDGrade) : bool * BDGrade :=
  match remover_horario_definido horario g with
  | (Ok _, g') => (true, g')
  | (Raise _, g') => (false, g')
  end.

Definition salvar_atividade (horario : str) (dia_indice : Z) (atividade : str)
    (bd : BD) : bool * BD :=
  match salvar_celula_horario horario dia_indice atividade bd with
  | (Ok _, bd') => (true, bd')
  | (Raise _, bd') => (false, bd')
  end.

(** [obter_dados_grade]: [{(d[0], d[1]): d[2] for d in dados}], [{}] on
    any exception. *)
Definition obter_dados_grade (bd : BD) : list (Chave * option str) * BD :=
  match carregar_dados_horarios bd with
  | (Ok dados, bd') =>
      (fold_left (fun d (c : Celula) =>
                    let '(h, coluna, atividade) := c in
                    dict_set (h, coluna) atividade d)
                 dados [],
       bd')
  | (Raise _, bd') => ([], bd')
  end.

End Servicos.

(* ================================================================== *)
(** * [componentes_ui.py]: the week of the grid and the calendar *)
(* ================================================================== *)

Module ComponentesUI.
Import Datetime Str Iso Dominio Persistencia Servicos.

(** A list comprehension whose items may raise. *)
Fixpoint mapM {A B : Type} (f : A -> result B) (l : list A) : result (list B) :=
  match l with
  | [] => Ok []
  | x :: l' =>
      y <- f x ;;
      ys <- mapM f l' ;;
      Ok (y :: ys)
  end.

(** [VisualizacaoHorarios._obter_datas_semana]: Monday to Friday of the
    week of today, [semana_offset] weeks away. *)
Definition _obter_datas_semana (hoje : date) (semana_offset : Z)
  : result (list date) :=
  let dias_desde_segunda := weekday hoje in
  segunda <- date_add hoje (- dias_desde_segunda) ;;
  segunda <- date_add segunda (7 * semana_offset) ;;
  mapM (fun i => date_add segunda i) (range 0 5).

(** [a < b] on [str]. *)
Fixpoint str_ltb (a b : str) : bool :=
  match a, b with
  | _, [] => false
  | [], _ :: _ => true
  | x :: a', y :: b' => N.ltb x y || (N.eqb x y && str_ltb a' b')
  end.

(** [l.sort(key=lambda x: x[0])]: by the time label, the items of equal
    labels as they came. *)
Fixpoint inserir_por_horario {A : Type} (x : str * A) (l : list (str * A))
  : list (str * A) :=
  match l with
  | [] => [x]
  | y :: l' =>
      if str_ltb (fst y) (fst x) then y :: inserir_por_horario x l' else x :: l
  end.

Definition sort_por_horario {A : Type} (l : list (str * A)) : list (str * A) :=
  fold_right inserir_por_horario [] l.

(** The dict [atividades_por_dia]: the column of the grid to its
    activities, each with the label of its row. *)
Definition PorDia : Type := list (Z * list (str * MetadadosAtividade)).

(** [if coluna not in d: d[coluna] = []], then [d[coluna].append(x)]. *)
Fixpoint por_dia_append (coluna : Z) (x : str * MetadadosAtividade) (d : PorDia)
  : PorDia :=
  match d with
  | [] => [(coluna, [x])]
  | (c, l) :: d' =>
      if c =? coluna then (c, l ++ [x]) :: d'
      else (c, l) :: por_dia_append coluna x d'
  end.

Section Calendario.
Context {U : Unicode}.

(** The first loop of [DialogoCalendarioMensal._carregar_atividades]. *)
Definition guardar_atividade (acc : result PorDia)
    (item : Chave * option str) : result PorDia :=
  d <- acc ;;
  let '((horario, coluna), texto) := item in
  match texto with
  | Some t =>
      if verdadeiro t && verdadeiro (strip t) then
        metadados <- extrair_metadados t ;;
        Ok (por_dia_append coluna (horario, metadados) d)
      else Ok d
  | None => Ok d
  end.

(** [_carregar_atividades], up to the marking of the calendar: the dict
    [atividades_por_dia] it leaves. *)
Definition _carregar_atividades (bd : BD) : result PorDia * BD :=
  let '(dados_grade, bd') := obter_dados_grade bd in
  (d <- fold_left guardar_atividade dados_grade (Ok []) ;;
   Ok (map (fun cl : Z * list (str * MetadadosAtividade) =>
              (fst cl, sort_por_horario (snd cl))) d),
   bd').

(** The inner loop of [_ao_clicar_data]. *)
Definition coletar_valida (hoje data : date) (coluna : Z)
    (acc : result (list (str * MetadadosAtividade)))
    (item : str * MetadadosAtividade)
  : result (list (str * MetadadosAtividade)) :=
  atividades_validas <- acc ;;
  let '(horario, metadados) := item in
  if str_eqb (periodicidade metadados) (lit "diaria") then
    v <- atividade_valida_para_data hoje data (periodicidade metadados)
           (data_criacao metadados) ;;
    Ok (if v then atividades_validas ++ [(horario, metadados)]
        else atividades_validas)
  else if coluna =? weekday data then
    v <- atividade_valida_para_data hoje data (periodicidade metadados)
           (data_criacao metadados) ;;
    Ok (if v then atividades_validas ++ [(horario, metadados)]
        else atividades_validas)
  else Ok atividades_validas.

(** [DialogoCalendarioMensal._ao_clicar_data]: the activities it lists
    for the date, in the order of the list. *)
Definition _ao_clicar_data (hoje data : date) (atividades_por_dia : PorDia)
  : result (list (str * MetadadosAtividade)) :=
  let dia_semana := weekday data in
  if 5 <=? dia_semana then Ok []
  else
    atividades_validas <-
      fold_left (fun acc (cl : Z * list (str * MetadadosAtividade)) =>
                   fold_left (coletar_valida hoje data (fst cl)) (snd cl) acc)
                atividades_por_dia (Ok []) ;;
    Ok (sort_por_horario atividades_validas).

End Calendario.

End ComponentesUI.

(* ================================================================== *)
(** * Vocabulary of the statements and of their proofs *)
(* ================================================================== *)

Module Spec.
Import Datetime Str Iso Re Dominio Persistencia Servicos ComponentesUI.

(** ** Calendar *)

(** What [_month_day] must satisfy for the [n]-th day of a year. *)
Definition month_day_check (leap : bool) (n : Z) : bool :=
  let '(m, d) := _month_day leap n in
  (1 <=? m) && (m <=? 12) && (1 <=? d) &&
  (d <=? (if (m =? 2) && leap then 29 else item _DAYS_IN_MONTH m)) &&
  (item _DAYS_BEFORE_MONTH m + b2z ((2 <? m) && leap) + d =? n + 1).

(** A zero-filled field is made of ASCII digits and reads back as the
    number it was printed from. *)
Definition zfill4_check (y : Z) : bool :=
  match zfill 4 y with
  | [a; b; c; d] =>
      forallb ascii_isdigit [a; b; c; d] && (int_of_digits [a; b; c; d] 0 =? y)
  | _ => false
  end.

Definition zfill2_check (n : Z) : bool :=
  match zfill 2 n with
  | [a; b] => forallb ascii_isdigit [a; b] && (int_of_digits [a; b] 0 =? n)
  | _ => false
  end.

Ltac month_cases m Hm :=
  assert (m = 1 \/ m = 2 \/ m = 3 \/ m = 4 \/ m = 5 \/ m = 6 \/
          m = 7 \/ m = 8 \/ m = 9 \/ m = 10 \/ m = 11 \/ m = 12) as Hm by lia;
  repeat (destruct Hm as [Hm | Hm]); subst m.

(** ** Matcher *)

(** [c'] stands further on in the subject of [c]. *)
Definition ahead (c c' : cfg) : Prop :=
  exists pre, rest c = pre ++ rest c' /\ pos c' = (pos c + length pre)%nat.

(** Expressions every match of which sets group 1. *)
Fixpoint captures (r : regex) : bool :=
  match r with
  | Group _ => true
  | Seq r1 r2 => captures r1 || captures r2
  | Alt r1 r2 => captures r1 && captures r2
  | _ => false
  end.

Definition has_grp (c : cfg) : Prop := grp c <> None.

Fixpoint drop_while (ok : char -> bool) (s : str) : str :=
  match s with
  | x :: xs => if ok x then drop_while ok xs else s
  | [] => []
  end.

(** Where the matcher stands after the longest run of [ok] characters. *)
Fixpoint run (ok : char -> bool) (p : nat) (s : str) (g : option str) : cfg :=
  match s with
  | x :: xs => if ok x then run ok (S p) xs g else mkcfg p s g
  | [] => mkcfg p [] g
  end.

(** A starred single character, without fuel: the longest run first,
    then one character less at a time. *)
Fixpoint star_atom_spec {R : Type} (ok : char -> bool) (k : cfg -> option R)
    (p : nat) (s : str) (g : option str) : option R :=
  match s with
  | x :: xs =>
      if ok x then
        match star_atom_spec ok k (S p) xs g with
        | Some v => Some v
        | None => k (mkcfg p s g)
        end
      else k (mkcfg p s g)
  | [] => k (mkcfg p [] g)
  end.

(** ** Bracket groups *)

Definition notclose (x : char) : bool := negb (N.eqb x 93%N).

(** What follows the bracket group a text begins with, if it begins
    with one. *)
Definition bracket_group (s : str) : option str :=
  match s with
  | x :: y :: xs =>
      if N.eqb x 91%N && notclose y then
        match drop_while notclose xs with
        | _ :: zs => Some zs
        | [] => None
        end
      else None
  | _ => None
  end.

Definition after_group (c : cfg) : option cfg :=
  match rest c with
  | x :: y :: xs =>
      if N.eqb x 91%N && notclose y then
        let c2 := run notclose (S (S (pos c))) xs (grp c) in
        match rest c2 with
        | _ :: zs => Some (step c2 zs)
        | [] => None
        end
      else None
  | _ => None
  end.

(** The text begins with a bracket group: an opening bracket, one or
    more characters other than the closing bracket, a closing bracket. *)
Definition comeca_com_colchetes (s : str) : Prop :=
  exists corpo resto,
    corpo <> [] /\ ~ In 93%N corpo /\ s = 91%N :: corpo ++ 93%N :: resto.

(** The repeated group of [_PADRAO_METADADOS]. *)
Definition grupo : regex :=
  Group (Seq (Lit "[")
        (Seq (Plus (Atom (NotChr (ch "]"))))
        (Seq (Lit "]")
             (Star (Atom Space))))).

Section WithUnicode.
Context {U : Unicode}.

Fixpoint strip_groups (fuel : nat) (s : str) : str :=
  match fuel with
  | O => s
  | S fuel' =>
      match bracket_group s with
      | Some r => strip_groups fuel' (lstrip r)
      | None => s
      end
  end.

(** What [_PADRAO_METADADOS.sub('', s)] leaves of [s]. *)
Definition sem_metadados (s : str) : str :=
  match bracket_group (lstrip s) with
  | Some r => strip_groups (S (length (lstrip r))) (lstrip r)
  | None => s
  end.

(** What [extrair_data_criacao] answers, read off the first match of
    [_PADRAO_DATA]. *)
Definition data_do_texto (texto : str) : option date :=
  match search _PADRAO_DATA texto with
  | Some mt =>
      match group1 mt with
      | Some g => match fromisoformat g with Ok d => Some d | Raise _ => None end
      | None => None
      end
  | None => None
  end.

(** The loop of [sincronizar_agenda_para_kanban]. *)
Definition laco (hoje : date) (dia : DiaDaSemana) (itens : list (str * str))
    (st : Resultado * BD) : Resultado * BD :=
  fold_left (fun st item => processar_atividade hoje dia (isoformat hoje) item st)
            itens st.

(** The board holds the task a run creates for the cell. *)
Definition criada_para (hoje : date) (dia : DiaDaSemana) (h a : str)
    (ts : list TarefaDTO.t) : Prop :=
  exists t, In t ts /\
            TarefaDTO.dia t = valor_dia dia /\
            TarefaDTO.titulo t = strip (titulo_esperado h a) /\
            TarefaDTO.data_criacao t = Some (isoformat hoje).

End WithUnicode.

(** ** Store *)

(** A store whose connections never fail. *)
Definition sem_falhas (bd : BD) : Prop := forall n, falha bd n = false.

(** The board holds a task that [_tarefa_ja_existe_hoje] takes for the
    cell's. *)
Definition tem_duplicata (dia : DiaDaSemana) (horario atividade data_hoje : str)
    (ts : list TarefaDTO.t) : Prop :=
  exists t, In t ts /\
            TarefaDTO.dia t = valor_dia dia /\
            TarefaDTO.titulo t = titulo_esperado horario atividade /\
            (TarefaDTO.data_criacao t = Some data_hoje \/
             TarefaDTO.origem t = lit "agenda").

Definition nunca_falha : nat -> bool := fun _ => false.


(** A cell typed with a blank at its end. *)
Definition bd_espaco_final : BD :=
  mkBD [] [(lit "08:00", 0, Some (lit "Estudar "))] 0 0 nunca_falha.

(** Cells without a blank at their end. *)
Definition bd_limpo : BD :=
  mkBD []
       [(lit "08:00", 0, Some (lit "[P1][semanal][2024-01-01] Estudar"));
        (lit "09:00", 0, Some (lit "Ler"));
        (lit "10:00", 2, Some (lit "Correr"))]
       0 0 nunca_falha.

(** The task of the cell is on the board already; the grid is read, the
    next connection to the store fails, the one after it does not. *)
Definition bd_duplicado : BD :=
  mkBD [TarefaDTO.mk (lit "[08:00] Estudar") (valor_dia SEGUNDA) (lit "Fazer")
          (Some 1) [] 3 (lit "agenda") None (Some (lit "2024-01-01"))]
       [(lit "08:00", 0, Some (lit "Estudar"))] 1 0 (fun n => Nat.eqb n 1).

Section WithUnicode2.
Context {U : Unicode}.

(** The task a run creates for the cell [(h, a)] of today's column. *)
Definition tarefa_da_celula (hoje : date) (dia : DiaDaSemana) (h a : str)
    (t : TarefaDTO.t) : Prop :=
  TarefaDTO.titulo t = strip (titulo_esperado h a) /\
  TarefaDTO.dia t = valor_dia dia /\
  TarefaDTO.status t = valor_status FAZER /\
  TarefaDTO.origem t = lit "agenda" /\
  TarefaDTO.atividade_origem_id t = None /\
  TarefaDTO.data_criacao t = Some (isoformat hoje) /\
  extrair_prioridade a = Ok (TarefaDTO.prioridade t).

End WithUnicode2.

(** How many cells a run has accounted for. *)
Definition total (r : Resultado) : Z :=
  criadas r + ignoradas r + Z.of_nat (length (erros r)).

(** The grid loads, the duplicate check of the first cell succeeds, the
    insertion of its task fails. *)
Definition bd_falha_ao_criar : BD :=
  mkBD []
       [(lit "08:00", 0, Some (lit "Estudar"));
        (lit "09:00", 0, Some (lit "[P1] Ler"))]
       0 0 (fun n => Nat.eqb n 2).

Section WithUnicode3.
Context {U : Unicode}.

(** A time stamp at the head of a text: an opening bracket, two decimal
    digits, a colon, two decimal digits, a closing bracket.  The answer
    is the text between the brackets and what follows the stamp. *)
Definition carimbo (s : str) : option (str * str) :=
  match s with
  | x0 :: a :: b :: x1 :: c :: d :: x2 :: r =>
      if N.eqb x0 91%N && isdecimal a && isdecimal b && N.eqb x1 58%N
         && isdecimal c && isdecimal d && N.eqb x2 93%N
      then Some ([a; b; x1; c; d], r)
      else None
  | _ => None
  end.

(** The text without the bracket groups it begins with. *)
Definition sem_grupos (s : str) : str :=
  strip_groups (length (lstrip s)) (lstrip s).

End WithUnicode3.

(** [_PADRAO_HORARIO] past its leading blanks. *)
Definition corpo_horario : regex :=
  Seq (Atom (Chr 91%N))
 (Seq (Group (Seq (Seq (Atom Digit) (Atom Digit))
             (Seq (Atom (Chr 58%N))
                  (Seq (Atom Digit) (Atom Digit)))))
 (Seq (Atom (Chr 93%N))
      (Star (Atom Space)))).

(** The words of [_PADRAO_PERIODICIDADE]. *)
Definition palavras : regex :=
  Alt (Lit "unica")
 (Alt (Lit "diaria")
 (Alt (Lit "semanal")
 (Alt (Lit "quinzenal")
      (Lit "mensal")))).

(** A lower-case ASCII letter. *)
Definition minuscula (p : char) : bool :=
  ascii_isalpha p && N.eqb (ascii_lower p) p.

(** ** Board *)

(** An optional integer SQLite can hold. *)
Definition sqlite_int_opcional (n : option Z) : bool :=
  match n with
  | Some i => sqlite_int i
  | None => true
  end.

(** Every task of the board has an id, positive and not above the
    AUTOINCREMENT counter, and no two tasks share one. *)
Definition ids_validos (bd : BD) : Prop :=
  0 <= ultimo_id bd /\
  NoDup (map TarefaDTO.id (tarefas bd)) /\
  Forall (fun t => exists i, TarefaDTO.id t = Some i /\ 0 < i <= ultimo_id bd)
         (tarefas bd).

Definition do_dia (dia : DiaDaSemana) (t : TarefaDTO.t) : bool :=
  str_eqb (TarefaDTO.dia t) (valor_dia dia).

Definition por_prioridade (a b : TarefaDTO.t) : Prop :=
  TarefaDTO.prioridade a <= TarefaDTO.prioridade b.

(** The task with another day and status. *)
Definition movida (t : TarefaDTO.t) (dia : DiaDaSemana) (status : StatusTarefa)
  : TarefaDTO.t :=
  TarefaDTO.mk (TarefaDTO.titulo t) (valor_dia dia) (valor_status status)
    (TarefaDTO.id t) (TarefaDTO.horario t) (TarefaDTO.prioridade t)
    (TarefaDTO.origem t) (TarefaDTO.atividade_origem_id t)
    (TarefaDTO.data_criacao t).

(** A board of two tasks. *)
Definition bd_quadro : BD :=
  mkBD [TarefaDTO.mk (lit "Pagar contas") (valor_dia SEGUNDA) (lit "Fazer")
          (Some 1) [] 2 (lit "manual") None (Some (lit "2024-01-01"));
        TarefaDTO.mk (lit "[08:00] Estudar") (valor_dia SEGUNDA) (lit "Fazendo")
          (Some 2) [] 0 (lit "agenda") None (Some (lit "2024-01-01"))]
       [] 2 0 nunca_falha.

(** ** Grid *)

Definition chave_da_celula (c : Celula) : Chave :=
  let '(h, coluna, _) := c in (h, coluna).

(** The primary key of the table [agenda]. *)
Definition chaves_unicas (bd : BD) : Prop :=
  NoDup (map chave_da_celula (agenda bd)).

(** The dict [obter_dados_grade] builds from the rows it reads. *)
Definition dict_da_grade (dados : list Celula) (d : list (Chave * option str))
  : list (Chave * option str) :=
  fold_left (fun d (c : Celula) =>
               let '(h, coluna, atividade) := c in
               dict_set (h, coluna) atividade d)
            dados d.

(** A grid of three cells in two rows, with the rows of the cells and
    one more. *)
Definition grade_exemplo : BDGrade :=
  mkBDGrade bd_limpo [lit "08:00"; lit "09:00"; lit "10:00"; lit "11:00"].

(** ** Rows of the grid *)

Section WithUnicode4.
Context {U : Unicode} {D : Decimal}.

(** The sort key of a label. *)
Definition chave_de (h : str) : ChaveHorario :=
  match _chave_ordenacao_horario h with
  | Ok k => k
  | Raise _ => Max
  end.

(** A label does not sort after the next one. *)
Definition em_ordem (a b : str) : Prop :=
  chave_ltb (chave_de b) (chave_de a) = false.

(** The label of two digits, a colon and two digits for [h] and [m]. *)
Definition rotulo (h m : Z) : str := zfill 2 h ++ lit ":" ++ zfill 2 m.

(** What [strptime], [_validar_formato_horario] and
    [_chave_ordenacao_horario] answer for the label of [h] and [m]. *)
Definition confere_rotulo (h m : Z) : bool :=
  let valido := (h <=? 23) && (m <=? 59) in
  match strptime (rotulo h m), _validar_formato_horario (rotulo h m),
        _chave_ordenacao_horario (rotulo h m) with
  | Ok (h', m'), Ok true, Ok (Hora h'' m'') =>
      valido && (h' =? h) && (m' =? m) && (h'' =? h) && (m'' =? m)
  | Raise ValueError, Ok false, Ok Max => negb valido
  | _, _, _ => false
  end.

End WithUnicode4.

Definition ascii_decimal : Decimal := {| uni_todecimal := fun _ => 0 |}.

Definition nao_depois (a b : ChaveHorario * str) : Prop :=
  chave_ltb (fst b) (fst a) = false.

(** The rows an empty table is given. *)
Definition horarios_padrao : list str :=
  [lit "07:00"; lit "08:00"; lit "09:00"; lit "10:00";
   lit "11:00"; lit "12:00"; lit "13:00"; lit "14:00";
   lit "15:00"; lit "16:00"; lit "17:00"; lit "18:00";
   lit "19:00"; lit "20:00"; lit "21:00"; lit "22:00"].

(** ** Calendar *)

(** The activity is kept under the column in the dict. *)
Definition em_por_dia (coluna : Z) (x : str * MetadadosAtividade)
    (d : ComponentesUI.PorDia) : Prop :=
  exists l, In (coluna, l) d /\ In x l.

(** The creation date of decoded metadata, when there is one, is a date
    of the calendar. *)
Definition data_ok (md : MetadadosAtividade) : Prop :=
  match data_criacao md with
  | Some d => date_ok d = true
  | None => True
  end.

Section WithUnicode5.
Context {U : Unicode}.

(** The cell decodes to the activity kept under the column. *)
Definition da_celula (dados : list (Chave * option str)) (c : Z)
    (x : str * MetadadosAtividade) : Prop :=
  exists texto,
    In ((fst x, c), Some texto) dados /\ strip texto <> [] /\
    extrair_metadados texto = Ok (snd x).

End WithUnicode5.

(** The activity is one the calendar lists for the date, being kept
    under the column. *)
Definition valida_em (hoje data : date) (c : Z) (x : str * MetadadosAtividade)
  : Prop :=
  atividade_valida_para_data hoje data (periodicidade (snd x)) (data_criacao (snd x))
  = Ok true /\
  (periodicidade (snd x) = lit "diaria" \/ c = weekday data).

(** A grid with a daily activity in the Tuesday column and a weekly one
    in the Monday column. *)
Definition bd_calendario : BD :=
  mkBD []
       [(lit "08:00", 0, Some (lit "[P1][semanal][2024-01-01] Reuniao"));
        (lit "09:00", 1, Some (lit "[P2][diaria][2024-01-01] Ginastica"))]
       0 0 nunca_falha.

End Spec.

(* ****************************** Proofs ****************************** *)

(* ================================================================== *)
(** * The calendar *)
(* ================================================================== *)

Module DatetimeFacts.
Import Datetime Str Iso Re Dominio Persistencia Servicos Spec.
#[local] Arguments Z.mul : simpl never.
#[local] Arguments Z.add : simpl never.
#[local] Arguments Z.sub : simpl never.
#[local] Arguments Z.leb : simpl never.

Lemma dby_decomp a b c e :
  0 <= a -> 0 <= b <= 3 -> 0 <= c <= 24 -> 0 <= e <= 3 ->
  _days_before_year (400 * a + 100 * b + 4 * c + e + 1)
  = 146097 * a + 36524 * b + 1461 * c + 365 * e.
Proof.
  intros. unfold _days_before_year. cbv zeta.
  replace (400 * a + 100 * b + 4 * c + e + 1 - 1) with (400 * a + 100 * b + 4 * c + e) by lia.
  Z.div_mod_to_equations. lia.
Qed.

Lemma is_leap_decomp a b c e :
  0 <= a -> 0 <= b <= 3 -> 0 <= c <= 24 -> 0 <= e <= 3 ->
  _is_leap (400 * a + 100 * b + 4 * c + e + 1)
  = (e =? 3) && (negb (c =? 24) || (b =? 3)).
Proof.
  intros. unfold _is_leap.
  destruct (Z.eqb_spec e 3), (Z.eqb_spec c 24), (Z.eqb_spec b 3);
  repeat match goal with |- context [?x =? ?y] => destruct (Z.eqb_spec x y) end;
  simpl; try reflexivity; exfalso; Z.div_mod_to_equations; lia.
Qed.

Lemma dby_succ y :
  _days_before_year (y + 1) = _days_before_year y + 365 + b2z (_is_leap y).
Proof.
  unfold _days_before_year, _is_leap, b2z. cbv zeta.
  replace (y + 1 - 1) with y by lia.
  repeat match goal with |- context [?x =? ?y] => destruct (Z.eqb_spec x y) end;
  simpl; Z.div_mod_to_equations; lia.
Qed.

Lemma dby_mono y1 y2 : y1 <= y2 -> _days_before_year y1 <= _days_before_year y2.
Proof.
  intros. unfold _days_before_year. cbv zeta.
  Z.div_mod_to_equations. lia.
Qed.

(* bounded checks *)
Lemma forall_below (P : Z -> bool) (n : nat) :
  forallb P (map Z.of_nat (seq 0 n)) = true ->
  forall z, 0 <= z < Z.of_nat n -> P z = true.
Proof.
  intros H z Hz. rewrite forallb_forall in H. apply H.
  apply in_map_iff. exists (Z.to_nat z). split; [lia|].
  apply in_seq. lia.
Qed.

Lemma month_day_spec leap n :
  0 <= n <= 364 ->
  month_day_check leap n = true.
Proof.
  intros Hn. destruct leap.
  - apply (forall_below (month_day_check true) 365); [vm_compute; reflexivity | lia].
  - apply (forall_below (month_day_check false) 365); [vm_compute; reflexivity | lia].
Qed.

Lemma ord2ymd_spec n :
  1 <= n <= _MAXORDINAL ->
  date_ok (_ord2ymd n) = true /\ toordinal (_ord2ymd n) = n.
Proof.
  unfold _MAXORDINAL. intros Hn.
  unfold _ord2ymd. cbv zeta. unfold _DI400Y, _DI100Y, _DI4Y.
  set (n' := n - 1).
  pose proof (Z.div_mod n' 146097 ltac:(lia)) as E1.
  pose proof (Z.mod_pos_bound n' 146097 ltac:(lia)) as B1.
  set (a := n' / 146097) in *. set (r1 := n' mod 146097) in *.
  pose proof (Z.div_mod r1 36524 ltac:(lia)) as E2.
  pose proof (Z.mod_pos_bound r1 36524 ltac:(lia)) as B2.
  set (b := r1 / 36524) in *. set (r2 := r1 mod 36524) in *.
  pose proof (Z.div_mod r2 1461 ltac:(lia)) as E3.
  pose proof (Z.mod_pos_bound r2 1461 ltac:(lia)) as B3.
  set (c := r2 / 1461) in *. set (r3 := r2 mod 1461) in *.
  pose proof (Z.div_mod r3 365 ltac:(lia)) as E4.
  pose proof (Z.mod_pos_bound r3 365 ltac:(lia)) as B4.
  set (e := r3 / 365) in *. set (r4 := r3 mod 365) in *.
  assert (Hn' : 0 <= n' <= 3652058) by (unfold n'; lia).
  clearbody a r1 b r2 c r3 e r4.
  assert (Ha : 0 <= a <= 24) by lia.
  assert (Hb : 0 <= b <= 4) by lia.
  assert (Hc : 0 <= c <= 24) by lia.
  assert (He : 0 <= e <= 4) by lia.
  destruct (Z.eqb_spec e 4) as [He4|He4]; cbn [orb].
  - (* last day of a leap year *)
    assert (c <= 23) by lia. assert (b <= 3) by lia.
    replace (a * 400 + 1 + b * 100 + c * 4 + e - 1) with (400 * a + 100 * b + 4 * c + 3 + 1) by lia.
    unfold date_ok, toordinal, _ymd2ord, _days_in_month, _days_before_month; cbn [year month day].
    rewrite dby_decomp, is_leap_decomp by lia.
    replace (c =? 24) with false by (symmetry; apply Z.eqb_neq; lia).
    change (item _DAYS_BEFORE_MONTH 12) with 334.
    change (item _DAYS_IN_MONTH 12) with 31.
    change (3 =? 3) with true; change (24 =? 24) with true; change (12 =? 2) with false; change (2 <? 12) with true.
    cbn [andb orb negb b2z].
    unfold MINYEAR, MAXYEAR. split; [|lia].
    repeat (apply andb_true_iff; split); try reflexivity; apply Z.leb_le; lia.
  - destruct (Z.eqb_spec b 4) as [Hb4|Hb4].
    + assert (c = 0) by lia. assert (e = 0) by lia. subst b c e.
      replace (a * 400 + 1 + 4 * 100 + 0 * 4 + 0 - 1) with (400 * a + 100 * 3 + 4 * 24 + 3 + 1) by lia.
      unfold date_ok, toordinal, _ymd2ord, _days_in_month, _days_before_month; cbn [year month day].
      rewrite dby_decomp, is_leap_decomp by lia.
      change (item _DAYS_BEFORE_MONTH 12) with 334.
    change (item _DAYS_IN_MONTH 12) with 31.
    change (3 =? 3) with true; change (24 =? 24) with true; change (12 =? 2) with false; change (2 <? 12) with true.
    cbn [andb orb negb b2z].
    unfold MINYEAR, MAXYEAR. split; [|lia].
      repeat (apply andb_true_iff; split); try reflexivity; apply Z.leb_le; lia.
    + assert (Hb3 : b <= 3) by lia. assert (He3 : e <= 3) by lia.
      assert (Hr4 : 0 <= r4 <= 364) by lia.
      set (leap := (e =? 3) && (negb (c =? 24) || (b =? 3))).
      pose proof (month_day_spec leap r4 Hr4) as Hmd.
      unfold month_day_check in Hmd.
      destruct (_month_day leap r4) as [m d].
      repeat (apply andb_true_iff in Hmd; destruct Hmd as [Hmd ?]).
      replace (a * 400 + 1 + b * 100 + c * 4 + e) with (400 * a + 100 * b + 4 * c + e + 1) by lia.
      unfold date_ok, toordinal, _ymd2ord, _days_in_month, _days_before_month; cbn [year month day].
      rewrite dby_decomp, is_leap_decomp by lia. fold leap.
      unfold MINYEAR, MAXYEAR. split.
      * repeat (apply andb_true_iff; split); try assumption; apply Z.leb_le; lia.
      * apply Z.eqb_eq in H. lia.
Qed.

Lemma date_ok_fields d :
  date_ok d = true ->
  1 <= year d <= 9999 /\ 1 <= month d <= 12 /\
  1 <= day d <= _days_in_month (year d) (month d).
Proof.
  unfold date_ok, MINYEAR, MAXYEAR. intros H.
  repeat (apply andb_true_iff in H; destruct H as [H ?]).
  repeat match goal with H : (_ <=? _) = true |- _ => apply Z.leb_le in H end. lia.
Qed.

(** Day of the year is at most the year's length, and months are laid
    out one after the other. *)
Lemma dbm_next y m :
  1 <= m <= 11 ->
  _days_before_month y (m + 1) = _days_before_month y m + _days_in_month y m.
Proof.
  intros H. unfold _days_before_month, _days_in_month.
  month_cases m Hm; try lia; destruct (_is_leap y); reflexivity.
Qed.

Lemma dbm_last y :
  _days_before_month y 12 + _days_in_month y 12 = 365 + b2z (_is_leap y).
Proof.
  unfold _days_before_month, _days_in_month. destruct (_is_leap y); reflexivity.
Qed.

Lemma dim_pos y m : 1 <= m <= 12 -> 28 <= _days_in_month y m <= 31.
Proof.
  intros H. unfold _days_in_month.
  month_cases m Hm; destruct (_is_leap y); vm_compute; split; discriminate.
Qed.

Lemma dbm_mono y m1 m2 :
  1 <= m1 -> m1 < m2 -> m2 <= 12 ->
  _days_before_month y m1 + _days_in_month y m1 <= _days_before_month y m2.
Proof.
  intros H1 H12 H2.
  unfold _days_before_month, _days_in_month.
  month_cases m1 Hm1; month_cases m2 Hm2; try lia;
    destruct (_is_leap y); vm_compute; discriminate.
Qed.

Lemma dbm_bounds y m :
  1 <= m <= 12 ->
  0 <= _days_before_month y m /\
  _days_before_month y m + _days_in_month y m <= 365 + b2z (_is_leap y).
Proof.
  intros H. unfold _days_before_month, _days_in_month.
  month_cases m Hm; destruct (_is_leap y); vm_compute; split; discriminate.
Qed.

Lemma dby_nonneg y : 1 <= y -> 0 <= _days_before_year y.
Proof.
  intros. change 0 with (_days_before_year 1). now apply dby_mono.
Qed.

Lemma toordinal_bounds d :
  date_ok d = true -> 1 <= toordinal d <= _MAXORDINAL.
Proof.
  intros H. apply date_ok_fields in H. destruct H as (Hy & Hm & Hd).
  unfold toordinal, _ymd2ord.
  pose proof (dby_nonneg (year d) ltac:(lia)).
  pose proof (dbm_bounds (year d) (month d) Hm).
  pose proof (dby_succ (year d)).
  pose proof (dby_mono (year d + 1) 10000 ltac:(lia)).
  change (_days_before_year 10000) with 3652059 in *.
  unfold _MAXORDINAL. lia.
Qed.

Lemma toordinal_year_lt a b :
  date_ok a = true -> date_ok b = true ->
  year a < year b -> toordinal a < toordinal b.
Proof.
  intros Ha Hb Hlt.
  apply date_ok_fields in Ha, Hb.
  destruct Ha as (Hy & Hm & Hd), Hb as (Hy' & Hm' & Hd').
  unfold toordinal, _ymd2ord.
  pose proof (dbm_bounds (year a) (month a) Hm).
  pose proof (dbm_bounds (year b) (month b) Hm').
  pose proof (dby_succ (year a)).
  pose proof (dby_mono (year a + 1) (year b) ltac:(lia)).
  lia.
Qed.

Lemma toordinal_month_lt a b :
  date_ok a = true -> date_ok b = true ->
  year a = year b -> month a < month b -> toordinal a < toordinal b.
Proof.
  intros Ha Hb Hy Hlt.
  apply date_ok_fields in Ha, Hb.
  destruct Ha as (_ & Hm & Hd), Hb as (_ & Hm' & Hd').
  unfold toordinal, _ymd2ord. rewrite Hy in *.
  pose proof (dbm_mono (year b) (month a) (month b) ltac:(lia) Hlt ltac:(lia)).
  lia.
Qed.

Lemma toordinal_cmp a b :
  date_ok a = true -> date_ok b = true ->
  (toordinal a ?= toordinal b) = date_cmp a b.
Proof.
  intros Ha Hb. unfold date_cmp.
  destruct (Z.compare_spec (year a) (year b)) as [Ey|Ly|Gy].
  - destruct (Z.compare_spec (month a) (month b)) as [Em|Lm|Gm].
    + unfold toordinal, _ymd2ord. rewrite Ey, Em.
      destruct (Z.compare_spec (day a) (day b)).
      * apply Z.compare_eq_iff. lia.
      * apply Z.compare_lt_iff. lia.
      * apply Z.compare_gt_iff. lia.
    + apply Z.compare_lt_iff. now apply toordinal_month_lt.
    + apply Z.compare_gt_iff. apply toordinal_month_lt; auto.
  - apply Z.compare_lt_iff. now apply toordinal_year_lt.
  - apply Z.compare_gt_iff. now apply toordinal_year_lt.
Qed.

Lemma date_ltb_spec a b :
  date_ok a = true -> date_ok b = true ->
  date_ltb a b = true <-> toordinal a < toordinal b.
Proof.
  intros Ha Hb. unfold date_ltb. rewrite <- toordinal_cmp by assumption.
  destruct (Z.compare_spec (toordinal a) (toordinal b)); split; intros; (lia || congruence).
Qed.

Lemma date_ltb_false a b :
  date_ok a = true -> date_ok b = true ->
  date_ltb a b = false <-> toordinal b <= toordinal a.
Proof.
  intros Ha Hb. unfold date_ltb. rewrite <- toordinal_cmp by assumption.
  destruct (Z.compare_spec (toordinal a) (toordinal b)); split; intros; (lia || congruence).
Qed.

Lemma date_leb_spec a b :
  date_ok a = true -> date_ok b = true ->
  date_leb a b = true <-> toordinal a <= toordinal b.
Proof.
  intros Ha Hb. unfold date_leb. rewrite <- toordinal_cmp by assumption.
  destruct (Z.compare_spec (toordinal a) (toordinal b)); split; intros; (lia || congruence).
Qed.

Lemma date_cmp_eq a b : date_cmp a b = Eq -> a = b.
Proof.
  unfold date_cmp. destruct a as [y m d], b as [y' m' d']. cbn [year month day].
  destruct (Z.compare_spec y y'); try discriminate.
  destruct (Z.compare_spec m m'); try discriminate.
  destruct (Z.compare_spec d d'); try discriminate. intros _. congruence.
Qed.

Lemma date_eqb_spec a b :
  date_ok a = true -> date_ok b = true ->
  date_eqb a b = true <-> toordinal a = toordinal b.
Proof.
  intros Ha Hb. unfold date_eqb. rewrite <- toordinal_cmp by assumption.
  destruct (Z.compare_spec (toordinal a) (toordinal b)); split; intros; (lia || congruence).
Qed.

Lemma toordinal_inj a b :
  date_ok a = true -> date_ok b = true ->
  toordinal a = toordinal b -> a = b.
Proof.
  intros Ha Hb E. apply date_cmp_eq. rewrite <- toordinal_cmp by assumption.
  now apply Z.compare_eq_iff.
Qed.

Lemma fromordinal_toordinal d :
  date_ok d = true -> fromordinal (toordinal d) = d.
Proof.
  intros Hd. pose proof (toordinal_bounds d Hd) as Hb.
  destruct (ord2ymd_spec (toordinal d) Hb) as [Hok Hord].
  apply toordinal_inj; assumption.
Qed.

Lemma weekday_range d : 0 <= weekday d < 7.
Proof. unfold weekday. apply Z.mod_pos_bound. lia. Qed.

End DatetimeFacts.

(* ================================================================== *)
(** * The recurrence evaluator *)
(* ================================================================== *)

Module RecurrenceFacts.
Import Datetime Str Iso Re Dominio Persistencia Servicos Spec.
Import DatetimeFacts.
#[local] Arguments Z.mul : simpl never.
#[local] Arguments Z.add : simpl never.
#[local] Arguments Z.sub : simpl never.

Lemma str_eqb_eq a b : str_eqb a b = true <-> a = b.
Proof.
  revert b. induction a as [|x a IH]; intros [|y b]; cbn; split; try congruence; try discriminate.
  - intros H. apply andb_true_iff in H. destruct H as [H1 H2].
    apply N.eqb_eq in H1. apply IH in H2. congruence.
  - intros H. injection H as -> ->. rewrite N.eqb_refl. cbn. now apply IH.
Qed.

Lemma str_eqb_neq a b : a <> b -> str_eqb a b = false.
Proof.
  intros H. destruct (str_eqb a b) eqn:E; [|reflexivity].
  apply str_eqb_eq in E. contradiction.
Qed.

Lemma date_add_ok d k :
  date_ok d = true -> 1 <= toordinal d + k <= _MAXORDINAL ->
  exists r, date_add d k = Ok r /\ date_ok r = true /\ toordinal r = toordinal d + k.
Proof.
  intros Hd Hk. unfold date_add. cbv zeta.
  replace ((0 <? toordinal d + k) && (toordinal d + k <=? _MAXORDINAL)) with true.
  2:{ symmetry. apply andb_true_iff. split; [apply Z.ltb_lt | apply Z.leb_le]; lia. }
  destruct (ord2ymd_spec _ Hk) as [H1 H2].
  exists (fromordinal (toordinal d + k)). auto.
Qed.

(** The gap between the weekdays of two days is the gap between the days, modulo 7. *)
Lemma weekday_gap a b :
  (weekday a - weekday b) mod 7 = (toordinal a - toordinal b) mod 7.
Proof.
  unfold weekday. Z.div_mod_to_equations. lia.
Qed.

Lemma primeira_ocorrencia_spec d c :
  date_ok d = true -> date_ok c = true -> toordinal c <= toordinal d ->
  exists fo, primeira_ocorrencia d c = Ok fo /\ date_ok fo = true /\
             toordinal fo = toordinal c + (toordinal d - toordinal c) mod 7 /\
             toordinal fo <= toordinal d /\ weekday fo = weekday d.
Proof.
  intros Hd Hc Hle. unfold primeira_ocorrencia. cbv zeta.
  rewrite weekday_gap.
  pose proof (toordinal_bounds d Hd) as Bd.
  pose proof (toordinal_bounds c Hc) as Bc.
  assert (Hk : 0 <= (toordinal d - toordinal c) mod 7 <= toordinal d - toordinal c).
  { Z.div_mod_to_equations. lia. }
  destruct (((toordinal d - toordinal c) mod 7 =? 0) && (weekday c =? weekday d)) eqn:E.
  - apply andb_true_iff in E. destruct E as [E1 E2].
    apply Z.eqb_eq in E1, E2.
    exists c. rewrite E1. repeat split; auto; lia.
  - destruct (date_add_ok c ((toordinal d - toordinal c) mod 7) Hc ltac:(lia))
      as (r & Hr & Hok & Hord).
    exists r. repeat split; auto; try lia.
    unfold weekday. rewrite Hord. Z.div_mod_to_equations. lia.
Qed.

Lemma primeira_ocorrencia_minimal d c x :
  toordinal c <= toordinal x -> weekday x = weekday d ->
  toordinal c + (toordinal d - toordinal c) mod 7 <= toordinal x.
Proof.
  unfold weekday. intros H1 H2. Z.div_mod_to_equations. lia.
Qed.

Lemma new_date_first d :
  date_ok d = true ->
  new_date (year d) (month d) 1 = Ok (mkdate (year d) (month d) 1) /\
  date_ok (mkdate (year d) (month d) 1) = true /\
  toordinal d - toordinal (mkdate (year d) (month d) 1) = day d - 1.
Proof.
  intros Hd. pose proof (date_ok_fields d Hd) as (Hy & Hm & Hday).
  assert (Hok : date_ok (mkdate (year d) (month d) 1) = true).
  { unfold date_ok, MINYEAR, MAXYEAR. cbn [year month day].
    pose proof (dim_pos (year d) (month d) Hm).
    repeat (apply andb_true_iff; split); apply Z.leb_le; lia. }
  unfold new_date. cbv zeta. rewrite Hok. repeat split; auto.
  unfold toordinal, _ymd2ord. cbn [year month day]. lia.
Qed.

Lemma semana_do_mes_spec d :
  date_ok d = true -> semana_do_mes d = Ok ((day d - 1) / 7).
Proof.
  intros Hd. unfold semana_do_mes.
  destruct (new_date_first d Hd) as (Hnew & Hok & Hdiff).
  rewrite Hnew. cbn [bind].
  set (p := mkdate (year d) (month d) 1) in *.
  rewrite weekday_gap.
  pose proof (date_ok_fields d Hd) as (Hy & Hm & Hday).
  pose proof (toordinal_bounds d Hd) as Bd.
  pose proof (toordinal_bounds p Hok) as Bp.
  assert (Hk : 0 <= (toordinal d - toordinal p) mod 7 <= toordinal d - toordinal p).
  { Z.div_mod_to_equations. lia. }
  destruct (date_add_ok p ((toordinal d - toordinal p) mod 7) Hok ltac:(lia))
    as (r & Hr & Hokr & Hord).
  rewrite Hr. cbn [bind]. f_equal. unfold date_sub. rewrite Hord, Hdiff in *.
  replace (toordinal d - (toordinal p + (day d - 1) mod 7)) with (day d - 1 - (day d - 1) mod 7) by lia.
  Z.div_mod_to_equations. lia.
Qed.

(** C7: for a target date strictly before the creation date (the one
    given, or today when none is given) and any periodicidade, one of the
    five codes or not, [atividade_valida_para_data] answers false. *)
Theorem nunca_antes_da_criacao (hoje data_alvo : date) (periodicidade : str)
    (data_criacao : option date) :
  date_ltb data_alvo (match data_criacao with Some c => c | None => hoje end) = true ->
  atividade_valida_para_data hoje data_alvo periodicidade data_criacao = Ok false.
Proof.
  intros H. unfold atividade_valida_para_data. cbv zeta. now rewrite H.
Qed.

Lemma nunca_antes_da_criacao_witness :
  date_ltb (mkdate 2023 12 25) (mkdate 2024 1 1) = true /\
  atividade_valida_para_data (mkdate 2024 6 1) (mkdate 2023 12 25) (lit "semanal")
    (Some (mkdate 2024 1 1)) = Ok false.
Proof.
  split; [reflexivity|].
  apply (nunca_antes_da_criacao (mkdate 2024 6 1) (mkdate 2023 12 25) (lit "semanal")
           (Some (mkdate 2024 1 1))).
  reflexivity.
Defined.

(** C9: for a periodicidade that is none of the five codes and any two
    dates, [atividade_valida_para_data] returns false; it raises nothing,
    the first occurrence being computed without overflow. *)
Theorem periodicidade_desconhecida_nunca_valida (hoje data_alvo : date)
    (periodicidade : str) (data_criacao : option date) :
  date_ok data_alvo = true ->
  date_ok (match data_criacao with Some c => c | None => hoje end) = true ->
  (forall p : Periodicidade, periodicidade <> codigo p) ->
  atividade_valida_para_data hoje data_alvo periodicidade data_criacao = Ok false.
Proof.
  intros Hd Hc Hp. unfold atividade_valida_para_data. cbv zeta.
  set (c := match data_criacao with Some c => c | None => hoje end) in *.
  destruct (date_ltb data_alvo c) eqn:E; [reflexivity|].
  apply date_ltb_false in E; try assumption.
  destruct (primeira_ocorrencia_spec data_alvo c Hd Hc E) as (fo & Hfo & _).
  rewrite Hfo. cbn [bind].
  rewrite (str_eqb_neq periodicidade (lit "unica") (Hp UNICA)),
    (str_eqb_neq periodicidade (lit "diaria") (Hp DIARIA)),
    (str_eqb_neq periodicidade (lit "semanal") (Hp SEMANAL)),
    (str_eqb_neq periodicidade (lit "quinzenal") (Hp QUINZENAL)),
    (str_eqb_neq periodicidade (lit "mensal") (Hp MENSAL)).
  reflexivity.
Qed.

Lemma periodicidade_desconhecida_witness :
  atividade_valida_para_data (mkdate 2024 1 1) (mkdate 9999 12 31) (lit "anual")
    (Some (mkdate 9999 12 30)) = Ok false.
Proof.
  apply periodicidade_desconhecida_nunca_valida; try reflexivity.
  intros []; discriminate.
Defined.

(** C1, counterexample: created on Monday 2024-01-01, a weekly activity
    is due on Tuesday 2024-01-02, and the first occurrence computed for
    that target is the Tuesday itself. *)
Lemma semanal_outro_dia_da_semana :
  date_leb (mkdate 2024 1 1) (mkdate 2024 1 2) = true /\
  weekday (mkdate 2024 1 1) = 0 /\ weekday (mkdate 2024 1 2) = 1 /\
  atividade_valida_para_data (mkdate 2024 1 1) (mkdate 2024 1 2) (lit "semanal")
    (Some (mkdate 2024 1 1)) = Ok true /\
  primeira_ocorrencia (mkdate 2024 1 2) (mkdate 2024 1 1) = Ok (mkdate 2024 1 2).
Proof. repeat split; reflexivity. Qed.

(** C1, as amended: with periodicidade [semanal] the answer is true
    exactly when the target date is not before the creation date,
    whatever the weekday of the target; the first occurrence the code
    computes is the earliest date, from the creation date on, that falls
    on the weekday of the target. *)
Theorem semanal_valida_desde_a_criacao (hoje data_alvo data_criacao : date) :
  date_ok data_alvo = true -> date_ok data_criacao = true ->
  atividade_valida_para_data hoje data_alvo (lit "semanal") (Some data_criacao)
  = Ok (date_leb data_criacao data_alvo) /\
  (date_leb data_criacao data_alvo = true ->
   exists primeira,
     primeira_ocorrencia data_alvo data_criacao = Ok primeira /\
     date_ok primeira = true /\
     date_leb data_criacao primeira = true /\
     weekday primeira = weekday data_alvo /\
     forall x, date_ok x = true -> date_leb data_criacao x = true ->
               weekday x = weekday data_alvo -> date_leb primeira x = true).
Proof.
  intros Hd Hc. split.
  - unfold atividade_valida_para_data. cbv zeta.
    destruct (date_ltb data_alvo data_criacao) eqn:E.
    + apply date_ltb_spec in E; try assumption.
      f_equal. symmetry. destruct (date_leb data_criacao data_alvo) eqn:E'; [|reflexivity].
      apply date_leb_spec in E'; try assumption. lia.
    + apply date_ltb_false in E; try assumption.
      destruct (primeira_ocorrencia_spec data_alvo data_criacao Hd Hc E)
        as (fo & Hfo & Hok & Hord & Hle & Hwd).
      rewrite Hfo. cbn [bind].
      change (str_eqb (lit "semanal") (lit "unica")) with false.
      change (str_eqb (lit "semanal") (lit "diaria")) with false.
      change (str_eqb (lit "semanal") (lit "semanal")) with true.
      cbv iota. f_equal.
      transitivity true.
      * apply date_leb_spec; assumption.
      * symmetry. apply date_leb_spec; assumption.
  - intros Hle. apply date_leb_spec in Hle; try assumption.
    destruct (primeira_ocorrencia_spec data_alvo data_criacao Hd Hc Hle)
      as (fo & Hfo & Hok & Hord & Hle' & Hwd).
    exists fo. repeat split; auto.
    + apply date_leb_spec; auto.
      assert (0 <= (toordinal data_alvo - toordinal data_criacao) mod 7)
        by (apply Z.mod_pos_bound; lia). lia.
    + intros x Hx Hcx Hwx. apply date_leb_spec in Hcx; auto.
      apply date_leb_spec; auto. rewrite Hord.
      now apply primeira_ocorrencia_minimal.
Qed.

Lemma semanal_valida_desde_a_criacao_witness :
  atividade_valida_para_data (mkdate 2024 1 1) (mkdate 2024 1 10) (lit "semanal")
    (Some (mkdate 2024 1 1)) = Ok true.
Proof.
  exact (proj1 (semanal_valida_desde_a_criacao (mkdate 2024 1 1) (mkdate 2024 1 10)
                  (mkdate 2024 1 1) eq_refl eq_refl)).
Defined.

(** C8, counterexample: created on Wednesday 2024-01-03, in the first
    week of its month.  Monday 2024-02-05 is in the first week of its
    month too, and not before the creation date, yet the activity is not
    due: the first occurrence computed for that target is Monday
    2024-01-08, in the second week.  Monday 2024-02-12, in the second
    week of its month, is due. *)
Lemma mensal_outro_dia_da_semana :
  let criacao := mkdate 2024 1 3 in
  weekday criacao = 2 /\ (day criacao - 1) / 7 = 0 /\
  weekday (mkdate 2024 2 5) = 0 /\ (day (mkdate 2024 2 5) - 1) / 7 = 0 /\
  date_leb criacao (mkdate 2024 2 5) = true /\
  atividade_valida_para_data criacao (mkdate 2024 2 5) (lit "mensal") (Some criacao)
  = Ok false /\
  primeira_ocorrencia (mkdate 2024 2 5) criacao = Ok (mkdate 2024 1 8) /\
  weekday (mkdate 2024 2 12) = 0 /\ (day (mkdate 2024 2 12) - 1) / 7 = 1 /\
  atividade_valida_para_data criacao (mkdate 2024 2 12) (lit "mensal") (Some criacao)
  = Ok true.
Proof. cbv zeta. repeat split; reflexivity. Qed.

(** C8, as amended: created on 2024-01-03, the first Wednesday of
    January, a monthly activity is due on 2024-02-07, the first Wednesday
    of February, and not on 2024-02-14.  In general a monthly activity is
    due exactly when the target is not before the creation date and
    falls in the same week of its month (day - 1 over 7) as the first
    occurrence, which is the earliest date, from the creation date on,
    on the weekday of the target (not of the creation date). *)
Theorem mensal_mesma_semana_do_mes :
  atividade_valida_para_data (mkdate 2024 1 3) (mkdate 2024 2 7) (lit "mensal")
    (Some (mkdate 2024 1 3)) = Ok true /\
  atividade_valida_para_data (mkdate 2024 1 3) (mkdate 2024 2 14) (lit "mensal")
    (Some (mkdate 2024 1 3)) = Ok false /\
  forall hoje data_alvo data_criacao,
    date_ok data_alvo = true -> date_ok data_criacao = true ->
    exists b,
      atividade_valida_para_data hoje data_alvo (lit "mensal") (Some data_criacao) = Ok b /\
      (b = true <->
       date_leb data_criacao data_alvo = true /\
       exists primeira,
         date_ok primeira = true /\
         date_leb data_criacao primeira = true /\
         weekday primeira = weekday data_alvo /\
         (forall x, date_ok x = true -> date_leb data_criacao x = true ->
                    weekday x = weekday data_alvo -> date_leb primeira x = true) /\
         (day primeira - 1) / 7 = (day data_alvo - 1) / 7).
Proof.
  split; [reflexivity|]. split; [reflexivity|].
  intros hoje d c Hd Hc. unfold atividade_valida_para_data. cbv zeta.
  destruct (date_ltb d c) eqn:E.
  - exists false. split; [reflexivity|]. split; [discriminate|].
    intros (Hle & _).
    apply date_ltb_spec in E; auto. apply date_leb_spec in Hle; auto. lia.
  - apply date_ltb_false in E; auto.
    destruct (primeira_ocorrencia_spec d c Hd Hc E) as (fo & Hfo & Hok & Hord & Hle & Hwd).
    rewrite Hfo. cbn [bind].
    change (str_eqb (lit "mensal") (lit "unica")) with false.
    change (str_eqb (lit "mensal") (lit "diaria")) with false.
    change (str_eqb (lit "mensal") (lit "semanal")) with false.
    change (str_eqb (lit "mensal") (lit "quinzenal")) with false.
    change (str_eqb (lit "mensal") (lit "mensal")) with true.
    cbv iota.
    replace (date_ltb d fo) with false
      by (symmetry; apply date_ltb_false; auto).
    rewrite (semana_do_mes_spec fo Hok), (semana_do_mes_spec d Hd). cbn [bind].
    eexists. split; [reflexivity|].
    assert (Hcfo : toordinal c <= toordinal fo).
    { pose proof (Z.mod_pos_bound (toordinal d - toordinal c) 7 ltac:(lia)). lia. }
    split.
    + intros Hb. apply Z.eqb_eq in Hb.
      split; [apply date_leb_spec; auto|].
      exists fo. split; [exact Hok|]. split; [apply date_leb_spec; auto|].
      split; [exact Hwd|]. split; [|exact Hb].
      intros x Hx Hcx Hwx. apply date_leb_spec in Hcx; auto.
      apply date_leb_spec; auto. rewrite Hord.
      now apply primeira_ocorrencia_minimal.
    + intros (_ & p & Hp & Hcp & Hwp & Hmin & Hs).
      assert (p = fo) as ->.
      { apply toordinal_inj; auto.
        apply date_leb_spec in Hcp; auto.
        pose proof (primeira_ocorrencia_minimal d c p Hcp Hwp) as H1.
        assert (H2 : date_leb p fo = true).
        { apply Hmin; auto. apply date_leb_spec; auto. }
        apply date_leb_spec in H2; auto. lia. }
      now apply Z.eqb_eq.
Qed.

Lemma mensal_mesma_semana_do_mes_witness :
  exists b,
    atividade_valida_para_data (mkdate 2024 1 3) (mkdate 2024 3 4) (lit "mensal")
      (Some (mkdate 2024 1 3)) = Ok b /\
    (b = true <->
     date_leb (mkdate 2024 1 3) (mkdate 2024 3 4) = true /\
     exists primeira,
       date_ok primeira = true /\
       date_leb (mkdate 2024 1 3) primeira = true /\
       weekday primeira = weekday (mkdate 2024 3 4) /\
       (forall x, date_ok x = true -> date_leb (mkdate 2024 1 3) x = true ->
                  weekday x = weekday (mkdate 2024 3 4) -> date_leb primeira x = true) /\
       (day primeira - 1) / 7 = (day (mkdate 2024 3 4) - 1) / 7).
Proof.
  exact (proj2 (proj2 mensal_mesma_semana_do_mes) (mkdate 2024 1 3) (mkdate 2024 3 4)
           (mkdate 2024 1 3) eq_refl eq_refl).
Defined.

(** X3: Daily: due from the creation date on, Monday to Friday. *)
Theorem diaria_dias_uteis (hoje data_alvo data_criacao : date) :
  date_ok data_alvo = true -> date_ok data_criacao = true ->
  atividade_valida_para_data hoje data_alvo (lit "diaria") (Some data_criacao)
  = Ok (date_leb data_criacao data_alvo && (weekday data_alvo <? 5)).
Proof.
  intros Hd Hc. unfold atividade_valida_para_data. cbv zeta.
  destruct (date_ltb data_alvo data_criacao) eqn:E.
  - apply date_ltb_spec in E; try assumption.
    replace (date_leb data_criacao data_alvo) with false; [reflexivity|].
    symmetry. destruct (date_leb data_criacao data_alvo) eqn:E'; [|reflexivity].
    apply date_leb_spec in E'; try assumption. lia.
  - apply date_ltb_false in E; try assumption.
    destruct (primeira_ocorrencia_spec data_alvo data_criacao Hd Hc E) as (fo & Hfo & _).
    rewrite Hfo. reflexivity.
Qed.

Lemma diaria_dias_uteis_witness :
  atividade_valida_para_data (mkdate 2024 1 1) (mkdate 2024 1 6) (lit "diaria")
    (Some (mkdate 2024 1 1)) = Ok false.
Proof.
  exact (diaria_dias_uteis (mkdate 2024 1 1) (mkdate 2024 1 6) (mkdate 2024 1 1)
           eq_refl eq_refl).
Defined.

(** X4: Once: due on the seven days that begin with the creation date, each
    being the first occurrence of its own weekday. *)
Theorem unica_nos_sete_primeiros_dias (hoje data_alvo data_criacao : date) :
  date_ok data_alvo = true -> date_ok data_criacao = true ->
  atividade_valida_para_data hoje data_alvo (lit "unica") (Some data_criacao)
  = Ok ((toordinal data_criacao <=? toordinal data_alvo) &&
        (toordinal data_alvo <? toordinal data_criacao + 7)).
Proof.
  intros Hd Hc. unfold atividade_valida_para_data. cbv zeta.
  destruct (date_ltb data_alvo data_criacao) eqn:E.
  - apply date_ltb_spec in E; try assumption.
    replace (toordinal data_criacao <=? toordinal data_alvo) with false; [reflexivity|].
    symmetry. apply Z.leb_gt. lia.
  - apply date_ltb_false in E; try assumption.
    destruct (primeira_ocorrencia_spec data_alvo data_criacao Hd Hc E)
      as (fo & Hfo & Hok & Hord & Hle & Hwd).
    rewrite Hfo. cbn [bind].
    change (str_eqb (lit "unica") (lit "unica")) with true. cbv iota. f_equal.
    replace (toordinal data_criacao <=? toordinal data_alvo) with true
      by (symmetry; apply Z.leb_le; lia).
    cbn [andb].
    destruct (date_eqb data_alvo fo) eqn:Eq.
    + apply date_eqb_spec in Eq; try assumption. symmetry. apply Z.ltb_lt.
      rewrite Eq, Hord.
      pose proof (Z.mod_pos_bound (toordinal data_alvo - toordinal data_criacao) 7 ltac:(lia)).
      lia.
    + symmetry. apply Z.ltb_ge.
      destruct (Z_lt_le_dec (toordinal data_alvo) (toordinal data_criacao + 7)) as [Hlt|Hge];
        [|exact Hge].
      exfalso. assert (date_eqb data_alvo fo = true) as Ht; [|congruence].
      apply date_eqb_spec; try assumption. rewrite Hord.
      rewrite Z.mod_small; lia.
Qed.

Lemma unica_nos_sete_primeiros_dias_witness :
  atividade_valida_para_data (mkdate 2024 1 1) (mkdate 2024 1 8) (lit "unica")
    (Some (mkdate 2024 1 1)) = Ok false.
Proof.
  exact (unica_nos_sete_primeiros_dias (mkdate 2024 1 1) (mkdate 2024 1 8)
           (mkdate 2024 1 1) eq_refl eq_refl).
Defined.

(** X5: Biweekly: due from the creation date on, in the weeks at an even
    distance from the first occurrence. *)
Theorem quinzenal_semanas_pares (hoje data_alvo data_criacao : date) :
  date_ok data_alvo = true -> date_ok data_criacao = true ->
  atividade_valida_para_data hoje data_alvo (lit "quinzenal") (Some data_criacao)
  = Ok ((toordinal data_criacao <=? toordinal data_alvo) &&
        Z.even ((toordinal data_alvo - toordinal data_criacao) / 7)).
Proof.
  intros Hd Hc. unfold atividade_valida_para_data. cbv zeta.
  destruct (date_ltb data_alvo data_criacao) eqn:E.
  - apply date_ltb_spec in E; try assumption.
    replace (toordinal data_criacao <=? toordinal data_alvo) with false; [reflexivity|].
    symmetry. apply Z.leb_gt. lia.
  - apply date_ltb_false in E; try assumption.
    destruct (primeira_ocorrencia_spec data_alvo data_criacao Hd Hc E)
      as (fo & Hfo & Hok & Hord & Hle & Hwd).
    rewrite Hfo. cbn [bind].
    change (str_eqb (lit "quinzenal") (lit "unica")) with false.
    change (str_eqb (lit "quinzenal") (lit "diaria")) with false.
    change (str_eqb (lit "quinzenal") (lit "semanal")) with false.
    change (str_eqb (lit "quinzenal") (lit "quinzenal")) with true.
    cbv iota.
    replace (date_ltb data_alvo fo) with false by (symmetry; apply date_ltb_false; auto).
    replace (toordinal data_criacao <=? toordinal data_alvo) with true
      by (symmetry; apply Z.leb_le; lia).
    cbn [andb]. f_equal. unfold date_sub. rewrite Hord.
    set (n := toordinal data_alvo - toordinal data_criacao).
    replace (toordinal data_alvo - (toordinal data_criacao + n mod 7)) with (n - n mod 7) by lia.
    replace ((n - n mod 7) / 7) with (n / 7) by (Z.div_mod_to_equations; lia).
    rewrite Zeven_mod. reflexivity.
Qed.

Lemma quinzenal_semanas_pares_witness :
  atividade_valida_para_data (mkdate 2024 1 1) (mkdate 2024 1 15) (lit "quinzenal")
    (Some (mkdate 2024 1 1)) = Ok true.
Proof.
  exact (quinzenal_semanas_pares (mkdate 2024 1 1) (mkdate 2024 1 15)
           (mkdate 2024 1 1) eq_refl eq_refl).
Defined.

(** Biweekly from Monday 2024-01-01: the Mondays of January 2024
    alternate between due and not due. *)
Theorem quinzenal_exemplos :
  map (fun d => atividade_valida_para_data (mkdate 2024 1 1) (mkdate 2024 1 d)
                  (lit "quinzenal") (Some (mkdate 2024 1 1)))
      [1; 8; 15; 22; 29]
  = [Ok true; Ok false; Ok true; Ok false; Ok true].
Proof. reflexivity. Qed.

End RecurrenceFacts.

(* ================================================================== *)
(** * The matcher *)
(* ================================================================== *)

Module ReFacts.
Import Datetime Str Iso Re Dominio Persistencia Servicos Spec.
#[local] Arguments Nat.ltb : simpl never.
#[local] Arguments Nat.eqb : simpl never.
#[local] Arguments Nat.sub : simpl never.
#[local] Arguments atom_ok : simpl never.

Section EngineFacts.
Context {U : Unicode}.

Lemma ahead_refl c : ahead c c.
Proof. exists []. split; [reflexivity | cbn; lia]. Qed.

Lemma ahead_trans a b c : ahead a b -> ahead b c -> ahead a c.
Proof.
  intros (p1 & E1 & P1) (p2 & E2 & P2). exists (p1 ++ p2). split.
  - rewrite E1, E2. now rewrite app_assoc.
  - rewrite length_app. lia.
Qed.

Lemma ahead_step c x xs : rest c = x :: xs -> ahead c (step c xs).
Proof. intros E. exists [x]. split; [exact E | cbn; lia]. Qed.

Lemma ahead_capture c0 c c' : ahead c c' -> ahead c (capture c0 c').
Proof. intros (p & E & P). exists p. auto. Qed.

Lemma ahead_skipn c c' :
  ahead c c' -> skipn (pos c' - pos c) (rest c) = rest c'.
Proof.
  intros (p & E & P). rewrite E, P.
  replace (pos c + length p - pos c)%nat with (length p + 0)%nat by lia.
  rewrite skipn_app, skipn_all2 by lia.
  replace (length p + 0 - length p)%nat with 0%nat by lia. reflexivity.
Qed.

Lemma star_loop_inv {R} (body : (cfg -> option R) -> cfg -> option R) :
  (forall k c v, body k c = Some v ->
     exists c', k c' = Some v /\ ahead c c' /\ (has_grp c -> has_grp c')) ->
  forall fuel k c v, star_loop body k fuel c = Some v ->
     exists c', k c' = Some v /\ ahead c c' /\ (has_grp c -> has_grp c').
Proof.
  intros Hbody fuel. induction fuel as [|fuel IH]; intros k c v H; cbn in H.
  - exists c. split; [exact H|]. split; [apply ahead_refl | auto].
  - destruct (body _ c) as [w|] eqn:E.
    + injection H as ->. apply Hbody in E. destruct E as (c1 & E1 & A1 & G1).
      cbv beta in E1. destruct (Nat.ltb (pos c) (pos c1)); [|discriminate].
      apply IH in E1. destruct E1 as (c2 & E2 & A2 & G2).
      exists c2. split; [exact E2|]. split; [eapply ahead_trans; eauto | auto].
    + exists c. split; [exact H|]. split; [apply ahead_refl | auto].
Qed.

Lemma m_inv {R} ic r : forall (k : cfg -> option R) c v,
  m ic r k c = Some v ->
  exists c', k c' = Some v /\ ahead c c' /\
             (has_grp c -> has_grp c') /\ (captures r = true -> has_grp c').
Proof.
  induction r as [| a | | r1 IH1 r2 IH2 | r1 IH1 r2 IH2 | r IH | r IH];
    intros k c v H; cbn [m] in H.
  - exists c. split; [exact H|]. split; [apply ahead_refl|]. split; [auto | discriminate].
  - destruct (rest c) as [|x xs] eqn:E; [discriminate|].
    destruct (atom_ok ic a x); [|discriminate].
    exists (step c xs). split; [exact H|]. split; [now apply (ahead_step c x)|].
    split; [auto | discriminate].
  - destruct (Nat.eqb (pos c) 0); [|discriminate].
    exists c. split; [exact H|]. split; [apply ahead_refl|]. split; [auto | discriminate].
  - apply IH1 in H. destruct H as (c1 & H1 & A1 & G1 & C1).
    apply IH2 in H1. destruct H1 as (c2 & H2 & A2 & G2 & C2).
    exists c2. split; [exact H2|]. split; [eapply ahead_trans; eauto|].
    split; [auto|]. cbn. intros Hc. apply orb_true_iff in Hc. destruct Hc; auto.
  - cbn. destruct (m ic r1 k c) as [w|] eqn:E.
    + injection H as ->. apply IH1 in E. destruct E as (c1 & H1 & A1 & G1 & C1).
      exists c1. repeat split; auto. intros Hc. apply andb_true_iff in Hc. tauto.
    + apply IH2 in H. destruct H as (c1 & H1 & A1 & G1 & C1).
      exists c1. repeat split; auto. intros Hc. apply andb_true_iff in Hc. tauto.
  - apply (star_loop_inv (m ic r)) in H.
    + destruct H as (c' & H1 & A & G). exists c'. repeat split; auto. discriminate.
    + intros k' c' v' H'. apply IH in H'. destruct H' as (c1 & ? & ? & ? & _). eauto.
  - apply IH in H. destruct H as (c1 & H1 & A1 & G1 & C1).
    exists (capture c c1). split; [exact H1|]. split; [now apply ahead_capture|].
    split; intros _; unfold has_grp; cbn; discriminate.
Qed.

Lemma match_at_inv p i s mt :
  match_at p i s = Some mt ->
  m_start mt = i /\ (i <= m_end mt)%nat /\
  (exists pre, s = pre ++ skipn (m_end mt - i) s /\ length pre = (m_end mt - i)%nat) /\
  (captures (expr p) = true -> group1 mt <> None).
Proof.
  unfold match_at. intros H. apply m_inv in H.
  destruct H as (c' & E & A & _ & C). injection E as <-. cbn.
  pose proof (ahead_skipn _ _ A) as Hs. cbn in Hs.
  destruct A as (pre & E1 & E2). cbn in E1, E2.
  repeat split; auto; try lia.
  exists pre. rewrite Hs. split; [exact E1 | lia].
Qed.

Lemma search_from_inv p : forall s i mt,
  search_from p i s = Some mt ->
  (captures (expr p) = true -> group1 mt <> None).
Proof.
  induction s as [|x s IH]; intros i mt H; cbn in H.
  - destruct (match_at p i []) eqn:E; [|discriminate]. injection H as ->.
    now apply match_at_inv in E.
  - destruct (match_at p i (x :: s)) eqn:E.
    + injection H as ->. now apply match_at_inv in E.
    + eauto.
Qed.

End EngineFacts.

Section Patterns.
Context {U : Unicode}.

Lemma match_prioridade i s mt :
  match_at _PADRAO_PRIORIDADE i s = Some mt ->
  exists d, group1 mt = Some [d] /\ in_range 48%N 51%N d = true.
Proof.
  unfold match_at, _PADRAO_PRIORIDADE. cbn.
  destruct s as [|x1 [|x2 [|x3 [|x4 s']]]]; cbn;
    repeat match goal with
    | |- context [if ?b then _ else _] => destruct b eqn:?; try discriminate
    end; try discriminate.
  intros H. injection H as <-. cbn.
  exists x3. split.
  - replace (S (S (S i)) - S (S i))%nat with 1%nat by lia. reflexivity.
  - assumption.
Qed.

End Patterns.

Section StarFacts.
Context {U : Unicode}.

Lemma star_loop_S {R} (body : (cfg -> option R) -> cfg -> option R) k fuel c :
  star_loop body k (S fuel) c
  = match body (fun c' => if Nat.ltb (pos c) (pos c') then star_loop body k fuel c'
                          else None) c with
    | Some v => Some v
    | None => k c
    end.
Proof. reflexivity. Qed.

Lemma m_atom {R} ic a (k : cfg -> option R) c :
  m ic (Atom a) k c
  = match rest c with
    | x :: xs => if atom_ok ic a x then k (step c xs) else None
    | [] => None
    end.
Proof. reflexivity. Qed.

Lemma m_seq {R} ic r1 r2 (k : cfg -> option R) c :
  m ic (Seq r1 r2) k c = m ic r1 (m ic r2 k) c.
Proof. reflexivity. Qed.

Lemma m_group {R} ic r (k : cfg -> option R) c :
  m ic (Group r) k c = m ic r (fun c' => k (capture c c')) c.
Proof. reflexivity. Qed.

Lemma m_star {R} ic r (k : cfg -> option R) c :
  m ic (Star r) k c = star_loop (m ic r) k (S (length (rest c))) c.
Proof. reflexivity. Qed.

Lemma m_bol {R} ic (k : cfg -> option R) c :
  m ic Bol k c = if Nat.eqb (pos c) 0 then k c else None.
Proof. reflexivity. Qed.

Lemma star_atom_eq {R} ic a (k : cfg -> option R) :
  forall fuel p s g, (length s < fuel)%nat ->
  star_loop (m ic (Atom a)) k fuel (mkcfg p s g)
  = star_atom_spec (atom_ok ic a) k p s g.
Proof.
  induction fuel as [|fuel IH]; intros p s g Hlen; [lia|].
  rewrite star_loop_S, m_atom. cbn [rest].
  destruct s as [|x xs]; [reflexivity|].
  cbn [star_atom_spec]. destruct (atom_ok ic a x); [|reflexivity].
  unfold step. cbn [pos grp].
  replace (Nat.ltb p (S p)) with true by (symmetry; apply Nat.ltb_lt; lia).
  rewrite IH by (cbn in Hlen; lia). reflexivity.
Qed.

Lemma m_star_atom {R} ic a (k : cfg -> option R) c :
  m ic (Star (Atom a)) k c
  = star_atom_spec (atom_ok ic a) k (pos c) (rest c) (grp c).
Proof.
  rewrite m_star. destruct c as [p s g]. cbn [pos rest grp]. apply star_atom_eq. lia.
Qed.

Lemma star_atom_greedy {R} ok (k : cfg -> option R) v :
  forall s p g, k (run ok p s g) = Some v -> star_atom_spec ok k p s g = Some v.
Proof.
  induction s as [|x xs IH]; intros p g H; cbn in *; [exact H|].
  destruct (ok x); [|exact H]. now rewrite (IH _ _ H).
Qed.

Lemma star_atom_exact {R} ok (k : cfg -> option R) :
  (forall p x xs g, ok x = true -> k (mkcfg p (x :: xs) g) = None) ->
  forall s p g, star_atom_spec ok k p s g = k (run ok p s g).
Proof.
  intros Hk. induction s as [|x xs IH]; intros p g; cbn; [reflexivity|].
  destruct (ok x) eqn:E; [|reflexivity].
  rewrite IH. destruct (k (run ok (S p) xs g)); [reflexivity|]. now apply Hk.
Qed.

Lemma rest_run ok : forall s p g, rest (run ok p s g) = drop_while ok s.
Proof.
  induction s as [|x xs IH]; intros p g; cbn; [reflexivity|].
  destruct (ok x); [apply IH | reflexivity].
Qed.

Lemma grp_run ok : forall s p g, grp (run ok p s g) = g.
Proof.
  induction s as [|x xs IH]; intros p g; cbn; [reflexivity|].
  destruct (ok x); [apply IH | reflexivity].
Qed.

Lemma ahead_run ok : forall s p g, ahead (mkcfg p s g) (run ok p s g).
Proof.
  induction s as [|x xs IH]; intros p g; cbn; [apply ahead_refl|].
  destruct (ok x); [|apply ahead_refl].
  eapply ahead_trans; [|apply IH]. exists [x]. cbn. split; [reflexivity | lia].
Qed.

Lemma lstrip_drop_while s : lstrip s = drop_while isspace s.
Proof. induction s as [|x xs IH]; cbn; [reflexivity|]. now rewrite IH. Qed.

End StarFacts.

Section WithU.
Context {U : Unicode}.

Lemma padrao_metadados_eq :
  expr _PADRAO_METADADOS = Seq Bol (Seq (Star (Atom Space)) (Plus grupo)).
Proof. reflexivity. Qed.

Lemma drop_while_head ok s z zs : drop_while ok s = z :: zs -> ok z = false.
Proof.
  induction s as [|x xs IH]; cbn; [discriminate|].
  destruct (ok x) eqn:E; [exact IH|]. intros H. injection H as <- _. exact E.
Qed.

Lemma after_group_spec c :
  match after_group c with
  | Some c1 => bracket_group (rest c) = Some (rest c1) /\ ahead c c1 /\
               (pos c < pos c1)%nat /\ grp c1 = grp c
  | None => bracket_group (rest c) = None
  end.
Proof.
  unfold after_group, bracket_group. destruct c as [p s g]. cbn [rest pos grp].
  destruct s as [|x [|y xs]]; try reflexivity.
  destruct (N.eqb x 91 && notclose y); [|reflexivity]. cbv zeta.
  pose proof (rest_run notclose xs (S (S p)) g) as Hr.
  pose proof (grp_run notclose xs (S (S p)) g) as Hg.
  pose proof (ahead_run notclose xs (S (S p)) g) as Ha.
  destruct (run notclose (S (S p)) xs g) as [p2 s2 g2]. cbn [rest grp] in *.
  rewrite <- Hr. destruct s2 as [|z zs]; [reflexivity|].
  unfold step. cbn [pos rest grp]. repeat split; auto.
  - destruct Ha as (pre & E1 & E2). cbn [rest pos] in E1, E2.
    exists (x :: y :: pre ++ [z]). cbn [rest pos]. split.
    + rewrite E1. cbn. now rewrite <- app_assoc.
    + cbn. rewrite length_app. cbn. lia.
  - destruct Ha as (pre & E1 & E2). cbn [rest pos] in E1, E2. lia.
Qed.

Lemma m_grupo {R} (K : cfg -> option R) c :
  m false grupo K c
  = match after_group c with
    | Some c1 => m false (Star (Atom Space)) (fun c' => K (capture c c')) c1
    | None => None
    end.
Proof.
  unfold grupo, after_group. rewrite m_group, m_seq.
  change (Lit "[") with (Atom (Chr 91%N)). change (Lit "]") with (Atom (Chr 93%N)).
  change (ch "]") with 93%N.
  rewrite m_atom. destruct c as [p s g]. cbn [rest pos grp].
  destruct s as [|x xs]; [reflexivity|].
  change (atom_ok false (Chr 91%N) x) with (N.eqb x 91%N).
  destruct (N.eqb x 91%N); [|now destruct xs].
  unfold Plus. rewrite !m_seq, m_atom. unfold step. cbn [rest pos grp].
  destruct xs as [|y xs]; [reflexivity|].
  change (atom_ok false (NotChr 93%N) y) with (notclose y).
  cbn [andb]. destruct (notclose y); [|reflexivity]. cbv zeta.
  rewrite m_star_atom. cbn [rest pos grp].
  change (atom_ok false (NotChr 93%N)) with notclose.
  rewrite star_atom_exact.
  2:{ intros p' x' xs' g' Hx'. rewrite m_seq, m_atom. cbn [rest].
      change (atom_ok false (Chr 93%N) x') with (N.eqb x' 93%N).
      unfold notclose in Hx'. now destruct (N.eqb x' 93%N). }
  rewrite m_seq, m_atom.
  pose proof (rest_run notclose xs (S (S p)) g) as Hr.
  destruct (rest (run notclose (S (S p)) xs g)) as [|z zs] eqn:E; [reflexivity|].
  symmetry in Hr. apply drop_while_head in Hr.
  change (atom_ok false (Chr 93%N) z) with (N.eqb z 93%N).
  unfold notclose in Hr. destruct (N.eqb z 93%N); [reflexivity | discriminate].
Qed.

Lemma pos_run ok : forall s p g, (p <= pos (run ok p s g))%nat.
Proof.
  intros s p g. destruct (ahead_run ok s p g) as (pre & _ & E). cbn in E. lia.
Qed.

Lemma loop_grupo {R} (K : cfg -> option R) :
  (forall c, K c <> None) ->
  forall fuel c, exists c',
    star_loop (m false grupo) K fuel c = K c' /\ ahead c c' /\
    rest c' = strip_groups fuel (rest c).
Proof.
  intros HK. induction fuel as [|fuel IH]; intros c.
  - exists c. cbn. auto using ahead_refl.
  - rewrite star_loop_S, m_grupo. cbn [strip_groups].
    pose proof (after_group_spec c) as Hs.
    destruct (after_group c) as [c1|].
    + destruct Hs as (Hb & Ha & Hp & Hg). rewrite Hb.
      rewrite m_star_atom.
      set (c2 := run (atom_ok false Space) (pos c1) (rest c1) (grp c1)).
      destruct (IH (capture c c2)) as (c' & E & A & Er).
      exists c'.
      assert (Hc2 : ahead c1 c2).
      { unfold c2. destruct c1 as [p1 s1 g1]. apply ahead_run. }
      assert (Hpos : (pos c < pos c2)%nat).
      { destruct Hc2 as (pre & _ & E2). lia. }
      assert (Hrest : rest (capture c c2) = lstrip (rest c1)).
      { unfold c2. cbn [capture rest]. rewrite rest_run. symmetry. apply lstrip_drop_while. }
      split.
      * destruct (K c') as [v|] eqn:Ev; [|now apply HK in Ev].
        erewrite star_atom_greedy; [reflexivity|].
        fold c2. cbn [capture pos].
        replace (Nat.ltb (pos c) (pos c2)) with true
          by (symmetry; apply Nat.ltb_lt; exact Hpos).
        exact E.
      * split.
        -- eapply ahead_trans; [exact Ha|]. eapply ahead_trans; [exact Hc2|].
           destruct A as (pre & E1 & E2). exists pre. cbn [capture rest pos] in *. auto.
        -- rewrite Er, Hrest. reflexivity.
    + rewrite Hs. exists c. auto using ahead_refl.
Qed.

Lemma isspace_not_open x : isspace x = true -> N.eqb x 91%N = false.
Proof.
  intros H. destruct (N.eqb_spec x 91%N) as [->|]; [|reflexivity].
  discriminate H.
Qed.

Lemma match_metadados s :
  match bracket_group (lstrip s) with
  | Some r => exists mt, match_at _PADRAO_METADADOS 0 s = Some mt /\
                         skipn (m_end mt) s = strip_groups (S (length (lstrip r))) (lstrip r)
  | None => match_at _PADRAO_METADADOS 0 s = None
  end.
Proof.
  unfold match_at. rewrite padrao_metadados_eq.
  change (ignorecase _PADRAO_METADADOS) with false.
  set (K := fun c' : cfg => Some (mkmatch 0 (pos c') (grp c'))).
  rewrite m_seq, m_bol. cbn [pos]. change (Nat.eqb 0 0) with true. cbv iota.
  rewrite m_seq, m_star_atom. cbn [pos rest grp].
  set (c0 := run (atom_ok false Space) 0 s None).
  assert (Hc0 : ahead (mkcfg 0 s None) c0) by apply ahead_run.
  assert (Hr0 : rest c0 = lstrip s).
  { unfold c0. rewrite rest_run. symmetry. apply lstrip_drop_while. }
  assert (Hplus : m false (Plus grupo) K c0 =
                  match after_group c0 with
                  | Some c1 =>
                      m false (Star (Atom Space))
                        (fun c' => m false (Star grupo) K (capture c0 c')) c1
                  | None => None
                  end).
  { unfold Plus. rewrite m_seq, m_grupo. reflexivity. }
  pose proof (after_group_spec c0) as Hs. rewrite Hr0 in Hs.
  destruct (after_group c0) as [c1|].
  - destruct Hs as (Hb & Ha & Hp & Hg). rewrite Hb.
    set (c2 := run (atom_ok false Space) (pos c1) (rest c1) (grp c1)).
    assert (Hc2 : ahead c1 c2).
    { unfold c2. destruct c1 as [p1 s1 g1]. apply ahead_run. }
    assert (Hrest : rest (capture c0 c2) = lstrip (rest c1)).
    { unfold c2. cbn [capture rest]. rewrite rest_run. symmetry. apply lstrip_drop_while. }
    destruct (loop_grupo K ltac:(intros c; unfold K; discriminate)
                (S (length (rest (capture c0 c2)))) (capture c0 c2))
      as (c' & E & A & Er).
    exists (mkmatch 0 (pos c') (grp c')). split.
    + apply star_atom_greedy. fold c0. rewrite Hplus.
      rewrite m_star_atom. apply star_atom_greedy. fold c2.
      rewrite m_star. rewrite E. reflexivity.
    + cbn [m_end]. rewrite Hrest in Er. rewrite <- Er.
      assert (Hall : ahead (mkcfg 0 s None) c').
      { eapply ahead_trans; [exact Hc0|]. eapply ahead_trans; [exact Ha|].
        eapply ahead_trans; [exact Hc2|].
        destruct A as (pre & E1 & E2). exists pre. cbn [capture rest pos] in *. auto. }
      apply ahead_skipn in Hall. cbn [pos rest] in Hall.
      now rewrite Nat.sub_0_r in Hall.
  - rewrite Hs. rewrite star_atom_exact.
    + fold c0. rewrite Hplus. reflexivity.
    + intros p x xs g Hx. unfold Plus. rewrite m_seq, m_grupo.
      unfold after_group. cbn [rest].
      change (atom_ok false Space x) with (isspace x) in Hx.
      rewrite (isspace_not_open x Hx). now destruct xs.
Qed.

End WithU.

End ReFacts.

(* ================================================================== *)
(** * The metadata codec *)
(* ================================================================== *)

Module CodecFacts.
Import Datetime Str Iso Re Dominio Persistencia Servicos Spec.
Import DatetimeFacts RecurrenceFacts ReFacts.
#[local] Arguments Nat.ltb : simpl never.
#[local] Arguments Nat.eqb : simpl never.
#[local] Arguments Nat.sub : simpl never.

Section SubFacts.
Context {U : Unicode}.

Lemma match_at_bol_nonzero p r i s :
  expr p = Seq Bol r -> i <> 0%nat -> match_at p i s = None.
Proof.
  intros E Hi. unfold match_at. rewrite E, m_seq, m_bol. cbn [pos].
  destruct i; [congruence | reflexivity].
Qed.

Lemma sub_from_bol p r : expr p = Seq Bol r ->
  forall fuel i s, i <> 0%nat -> sub_from fuel p i s = s.
Proof.
  intros E. induction fuel as [|fuel IH]; intros i s Hi; [reflexivity|].
  cbn [sub_from]. rewrite (match_at_bol_nonzero p r i s E Hi).
  destruct s as [|x s']; [reflexivity|]. now rewrite IH.
Qed.

Lemma sub_empty_bol p r s : expr p = Seq Bol r ->
  sub_empty p s = match match_at p 0 s with
                  | Some mt => skipn (m_end mt) s
                  | None => s
                  end.
Proof.
  intros E. unfold sub_empty. cbn [sub_from].
  assert (Hk : match s with [] => [] | x :: s' => x :: sub_from (length s) p 1 s' end = s).
  { destruct s as [|x s']; [reflexivity|]. now rewrite (sub_from_bol p r E). }
  rewrite Hk. destruct (match_at p 0 s) as [mt|]; [|reflexivity].
  destruct (Nat.ltb_spec 0 (m_end mt)) as [Hlt|Hge].
  - rewrite (sub_from_bol p r E) by lia. now rewrite Nat.sub_0_r.
  - replace (m_end mt) with 0%nat by lia. reflexivity.
Qed.

Lemma sub_metadados s : sub_empty _PADRAO_METADADOS s = sem_metadados s.
Proof.
  rewrite (sub_empty_bol _ _ s padrao_metadados_eq). unfold sem_metadados.
  pose proof (match_metadados s) as H.
  destruct (bracket_group (lstrip s)) as [r|].
  - destruct H as (mt & -> & E). exact E.
  - now rewrite H.
Qed.

Lemma sub_horario_sem_digito x R :
  isdecimal x = false ->
  sub_empty _PADRAO_HORARIO (91%N :: x :: R) = 91%N :: x :: R.
Proof.
  intros Hx. erewrite sub_empty_bol by reflexivity.
  replace (match_at _PADRAO_HORARIO 0 (91%N :: x :: R)) with (@None Match); [reflexivity|].
  symmetry. unfold match_at. cbn. rewrite Hx. reflexivity.
Qed.

End SubFacts.

Lemma zfill4_spec y : 0 <= y <= 9999 -> zfill4_check y = true.
Proof.
  intros H. apply (forall_below zfill4_check (Z.to_nat 10000)); [vm_compute; reflexivity | lia].
Qed.

Lemma zfill2_spec n : 0 <= n <= 99 -> zfill2_check n = true.
Proof.
  intros H. apply (forall_below zfill2_check (Z.to_nat 100)); [vm_compute; reflexivity | lia].
Qed.

Lemma isoformat_shape d :
  date_ok d = true ->
  exists a b c e f g h i,
    isoformat d = [a; b; c; e; 45%N; f; g; 45%N; h; i] /\
    forallb ascii_isdigit [a; b; c; e; f; g; h; i] = true /\
    fromisoformat (isoformat d) = Ok d.
Proof.
  intros Hd. pose proof (date_ok_fields d Hd) as (Hy & Hm & Hday).
  pose proof (dim_pos (year d) (month d) Hm) as Hdim.
  pose proof (zfill4_spec (year d) ltac:(lia)) as H4.
  pose proof (zfill2_spec (month d) ltac:(lia)) as H2m.
  pose proof (zfill2_spec (day d) ltac:(lia)) as H2d.
  unfold zfill4_check in H4. unfold zfill2_check in H2m, H2d.
  unfold isoformat.
  destruct (zfill 4 (year d)) as [|a [|b [|c [|e [|]]]]]; try discriminate.
  destruct (zfill 2 (month d)) as [|f [|g [|]]]; try discriminate.
  destruct (zfill 2 (day d)) as [|h [|i [|]]]; try discriminate.
  apply andb_true_iff in H4, H2m, H2d.
  destruct H4 as [D4 V4], H2m as [Dm Vm], H2d as [Dd Vd].
  apply Z.eqb_eq in V4, Vm, Vd.
  exists a, b, c, e, f, g, h, i.
  change ([a; b; c; e] ++ lit "-" ++ [f; g] ++ lit "-" ++ [h; i])
    with [a; b; c; e; 45%N; f; g; 45%N; h; i].
  cbn [forallb] in *.
  repeat match goal with H : _ && _ = true |- _ => apply andb_true_iff in H; destruct H end.
  assert (Hall : ascii_isdigit a && (ascii_isdigit b && (ascii_isdigit c && (ascii_isdigit e &&
                 (ascii_isdigit f && (ascii_isdigit g && (ascii_isdigit h && (ascii_isdigit i && true))))))) = true).
  { repeat match goal with H : ascii_isdigit _ = true |- _ => rewrite H end. reflexivity. }
  split; [reflexivity|]. split; [exact Hall|].
  unfold fromisoformat. cbn [forallb]. rewrite Hall. cbn [andb N.eqb Pos.eqb].
  rewrite V4, Vm, Vd. unfold new_date. cbv zeta.
  destruct d as [y m' d']. cbn [year month day] in *. now rewrite Hd.
Qed.

Lemma digit_props x :
  ascii_isdigit x = true ->
  is_ascii x = true /\ N.eqb x 93%N = false /\ N.eqb x 91%N = false.
Proof.
  unfold ascii_isdigit, in_range, is_ascii. intros H.
  apply andb_true_iff in H. destruct H as [H1 H2].
  apply N.leb_le in H1, H2.
  repeat split; [apply N.ltb_lt | apply N.eqb_neq | apply N.eqb_neq]; lia.
Qed.

Section Codec.
Context {U : Unicode}.

Lemma isdecimal_digit x : ascii_isdigit x = true -> isdecimal x = true.
Proof.
  intros H. unfold isdecimal. destruct (digit_props x H) as (-> & _). exact H.
Qed.

Lemma notclose_digit x : ascii_isdigit x = true -> notclose x = true.
Proof.
  intros H. unfold notclose. destruct (digit_props x H) as (_ & -> & _). reflexivity.
Qed.

Lemma match_data_iso n a b c e f g h i R :
  forallb ascii_isdigit [a; b; c; e; f; g; h; i] = true ->
  match_at _PADRAO_DATA n (91%N :: [a; b; c; e; 45%N; f; g; 45%N; h; i] ++ 93%N :: R)
  = Some (mkmatch n (n + 12) (Some [a; b; c; e; 45%N; f; g; 45%N; h; i])).
Proof.
  intros H. cbn [forallb] in H.
  repeat match goal with H : _ && _ = true |- _ => apply andb_true_iff in H; destruct H end.
  unfold match_at. cbn.
  repeat match goal with
         | H : ascii_isdigit ?x = true |- _ => rewrite (isdecimal_digit x H); clear H
         end.
  f_equal. f_equal; [lia|].
  replace (S (S (S (S (S (S (S (S (S (S (S n)))))))))) - S n)%nat with 10%nat by lia.
  reflexivity.
Qed.

End Codec.

Lemma forallb_notclose (body : str) : forallb notclose body = true <-> ~ In 93%N body.
Proof.
  induction body as [|x xs IH]; cbn.
  - split; auto.
  - unfold notclose at 1. destruct (N.eqb_spec x 93%N) as [->|Hx]; cbn.
    + split; [discriminate | intros H; exfalso; apply H; now left].
    + rewrite IH. split; [intros H [E|E]; auto; congruence | tauto].
Qed.

Lemma drop_while_app_stop ok (pre : str) (z : char) (zs : str) :
  forallb ok pre = true -> ok z = false -> drop_while ok (pre ++ z :: zs) = z :: zs.
Proof.
  induction pre as [|x xs IH]; cbn; intros H Hz.
  - now rewrite Hz.
  - apply andb_true_iff in H. destruct H as [-> H]. auto.
Qed.

Lemma drop_while_split ok : forall s z zs,
  drop_while ok s = z :: zs ->
  exists pre, s = pre ++ z :: zs /\ forallb ok pre = true /\ ok z = false.
Proof.
  induction s as [|x xs IH]; cbn; intros z zs H; [discriminate|].
  destruct (ok x) eqn:E.
  - destruct (IH _ _ H) as (pre & -> & Hp & Hz).
    exists (x :: pre). cbn. rewrite E. auto.
  - injection H as -> ->. exists []. auto.
Qed.

Lemma bracket_group_intro (body R : str) :
  body <> [] -> forallb notclose body = true ->
  bracket_group (91%N :: body ++ 93%N :: R) = Some R.
Proof.
  intros Hne Hb. destruct body as [|y ys]; [congruence|].
  cbn in Hb. apply andb_true_iff in Hb. destruct Hb as [Hy Hys].
  unfold bracket_group. cbn [app]. rewrite Hy.
  change (N.eqb 91%N 91%N) with true. cbn [andb].
  now rewrite (drop_while_app_stop notclose ys 93%N R Hys eq_refl).
Qed.

Lemma bracket_group_inv (s r : str) :
  bracket_group s = Some r ->
  exists body, body <> [] /\ forallb notclose body = true /\
               s = 91%N :: body ++ 93%N :: r.
Proof.
  unfold bracket_group. destruct s as [|x [|y xs]]; try discriminate.
  destruct (N.eqb_spec x 91%N) as [->|]; [|discriminate]. cbn [andb].
  destruct (notclose y) eqn:Hy; [|discriminate].
  destruct (drop_while notclose xs) as [|z zs] eqn:E; [discriminate|].
  intros H. injection H as <-.
  destruct (drop_while_split _ _ _ _ E) as (pre & -> & Hp & Hz).
  exists (y :: pre). split; [discriminate|]. split.
  - cbn. now rewrite Hy.
  - unfold notclose in Hz. destruct (N.eqb_spec z 93%N) as [->|]; [reflexivity | discriminate].
Qed.

Lemma bracket_group_none_iff s :
  bracket_group s = None <-> ~ comeca_com_colchetes s.
Proof.
  split.
  - intros H (corpo & resto & Hne & Hin & ->).
    rewrite bracket_group_intro in H; [discriminate | assumption |].
    now apply forallb_notclose.
  - intros H. destruct (bracket_group s) as [r|] eqn:E; [|reflexivity].
    exfalso. apply H. destruct (bracket_group_inv s r E) as (body & Hne & Hb & ->).
    exists body, r. split; [assumption|]. split; [now apply forallb_notclose | reflexivity].
Qed.

Section Titulo.
Context {U : Unicode}.

Lemma lstrip_length s : (length (lstrip s) <= length s)%nat.
Proof.
  induction s as [|x xs IH]; cbn; [lia|]. destruct (isspace x); cbn; lia.
Qed.

Lemma lstrip_idem s : lstrip (lstrip s) = lstrip s.
Proof.
  induction s as [|x xs IH]; cbn; [reflexivity|].
  destruct (isspace x) eqn:E; [exact IH|]. cbn. now rewrite E.
Qed.

Lemma lstrip_head x xs : isspace x = false -> lstrip (x :: xs) = x :: xs.
Proof. intros H. cbn. now rewrite H. Qed.

Lemma bracket_group_shorter s r :
  bracket_group s = Some r -> (length r + 3 <= length s)%nat.
Proof.
  intros H. destruct (bracket_group_inv s r H) as (body & Hne & _ & ->).
  destruct body; [congruence|]. cbn. rewrite length_app. cbn. lia.
Qed.

Lemma strip_groups_fuel : forall f1 f2 s,
  (length s <= f1)%nat -> (length s <= f2)%nat ->
  strip_groups f1 s = strip_groups f2 s.
Proof.
  induction f1 as [|f1 IH]; intros f2 s H1 H2.
  - destruct s; [|cbn in H1; lia]. destruct f2; reflexivity.
  - destruct f2 as [|f2].
    + destruct s; [reflexivity | cbn in H2; lia].
    + cbn [strip_groups]. destruct (bracket_group s) as [r|] eqn:E; [|reflexivity].
      apply bracket_group_shorter in E. pose proof (lstrip_length r).
      apply IH; lia.
Qed.

Lemma strip_groups_none fuel s : bracket_group s = None -> strip_groups fuel s = s.
Proof. intros H. destruct fuel; cbn; [reflexivity | now rewrite H]. Qed.

Lemma strip_groups_step fuel (body R : str) :
  body <> [] -> forallb notclose body = true ->
  (length (91%N :: body ++ 93%N :: R) <= fuel)%nat ->
  strip_groups fuel (91%N :: body ++ 93%N :: R)
  = strip_groups (length (lstrip R)) (lstrip R).
Proof.
  intros Hne Hb Hf. destruct fuel as [|fuel]; [cbn in Hf; lia|].
  cbn [strip_groups]. rewrite (bracket_group_intro body R Hne Hb).
  apply strip_groups_fuel; [|lia].
  pose proof (lstrip_length R). cbn in Hf. rewrite length_app in Hf. cbn in Hf. lia.
Qed.

Lemma sem_metadados_cabecalho (b1 b2 b3 titulo : str) :
  b1 <> [] -> forallb notclose b1 = true ->
  b2 <> [] -> forallb notclose b2 = true ->
  b3 <> [] -> forallb notclose b3 = true ->
  sem_metadados (91%N :: b1 ++ 93%N :: 91%N :: b2 ++ 93%N :: 91%N :: b3
                 ++ 93%N :: 32%N :: titulo)
  = strip_groups (length (lstrip titulo)) (lstrip titulo).
Proof.
  intros N1 H1 N2 H2 N3 H3. unfold sem_metadados.
  rewrite lstrip_head by reflexivity.
  rewrite (bracket_group_intro b1 _ N1 H1).
  rewrite lstrip_head by reflexivity.
  rewrite (strip_groups_step _ b2 _ N2 H2) by lia.
  rewrite lstrip_head by reflexivity.
  rewrite (strip_groups_step _ b3 _ N3 H3) by lia.
  reflexivity.
Qed.

Lemma lstrip_app l m : lstrip l <> [] -> lstrip (l ++ m) = lstrip l ++ m.
Proof.
  induction l as [|x l IH]; cbn; [congruence|].
  destruct (isspace x); [exact IH | reflexivity].
Qed.

Lemma lstrip_app_blank l m : lstrip l = [] -> lstrip (l ++ m) = lstrip m.
Proof.
  induction l as [|x l IH]; cbn; [reflexivity|].
  destruct (isspace x); [exact IH | discriminate].
Qed.

Lemma lstrip_suffix s : exists pre, s = pre ++ lstrip s.
Proof.
  induction s as [|x s IH]; cbn.
  - now exists [].
  - destruct (isspace x); [|now exists []].
    destruct IH as (pre & E). exists (x :: pre). cbn. now f_equal.
Qed.

Lemma strip_groups_suffix : forall fuel s, exists pre, s = pre ++ strip_groups fuel s.
Proof.
  induction fuel as [|fuel IH]; intros s; cbn; [now exists []|].
  destruct (bracket_group s) as [r|] eqn:E; [|now exists []].
  destruct (bracket_group_inv s r E) as (body & _ & _ & ->).
  destruct (lstrip_suffix r) as (p1 & E1).
  destruct (IH (lstrip r)) as (p2 & E2).
  exists (91%N :: body ++ 93%N :: p1 ++ p2).
  cbn. f_equal. rewrite <- app_assoc. cbn. f_equal. f_equal.
  rewrite <- app_assoc, <- E2. exact E1.
Qed.

Lemma rstrip_suffix_length pre u :
  (length (rstrip u) <= length (rstrip (pre ++ u)))%nat.
Proof.
  unfold rstrip. rewrite !length_rev, rev_app_distr.
  destruct (lstrip (rev u)) as [|y ys] eqn:E; [cbn; lia|].
  rewrite lstrip_app by (rewrite E; discriminate). rewrite E, length_app. lia.
Qed.

Lemma strip_length_rstrip u : (length (strip u) <= length (rstrip u))%nat.
Proof.
  unfold strip. destruct (lstrip_suffix u) as (pre & E).
  rewrite E at 2. apply rstrip_suffix_length.
Qed.

Lemma rstrip_after_nonblank x z r :
  isspace z = false -> rstrip ((x ++ [z]) ++ r) = (x ++ [z]) ++ rstrip r.
Proof.
  intros Hz. unfold rstrip. rewrite rev_app_distr.
  destruct (lstrip (rev r)) as [|y ys] eqn:E.
  - rewrite lstrip_app_blank by exact E.
    rewrite rev_app_distr. cbn [rev app lstrip]. rewrite Hz.
    cbn [rev]. now rewrite rev_involutive, app_nil_r.
  - rewrite lstrip_app by (rewrite E; discriminate).
    now rewrite E, rev_app_distr, rev_involutive.
Qed.

End Titulo.

Section RoundTrip.
Context {U : Unicode}.

Lemma formatar_shape hoje titulo p per dc :
  formatar_atividade hoje titulo p per dc
  = 91%N :: (80%N :: str_of_int p) ++ 93%N :: 91%N :: per ++ 93%N :: 91%N ::
      isoformat (match dc with Some d => d | None => hoje end) ++ 93%N :: 32%N :: titulo.
Proof. reflexivity. Qed.

Lemma search_from_miss p i x s :
  match_at p i (x :: s) = None -> search_from p i (x :: s) = search_from p (S i) s.
Proof. intros H. cbn [search_from]. now rewrite H. Qed.

Lemma prioridade_header p S :
  0 <= p <= 3 ->
  extrair_prioridade (91%N :: (80%N :: str_of_int p) ++ 93%N :: S) = Ok p.
Proof.
  intros Hp. assert (p = 0 \/ p = 1 \/ p = 2 \/ p = 3) as [->|[->|[->| ->]]] by lia;
    reflexivity.
Qed.

Lemma periodicidade_header p per S :
  0 <= p <= 3 ->
  extrair_periodicidade
    (91%N :: (80%N :: str_of_int p) ++ 93%N :: 91%N :: codigo per ++ 93%N :: S)
  = Ok (codigo per).
Proof.
  intros Hp. assert (p = 0 \/ p = 1 \/ p = 2 \/ p = 3) as [->|[->|[->| ->]]] by lia;
    destruct per; reflexivity.
Qed.

Lemma data_header p per S :
  0 <= p <= 3 ->
  search _PADRAO_DATA
    (91%N :: (80%N :: str_of_int p) ++ 93%N :: 91%N :: codigo per ++ 93%N :: S)
  = search_from _PADRAO_DATA (6 + length (codigo per)) S.
Proof.
  intros Hp. assert (p = 0 \/ p = 1 \/ p = 2 \/ p = 3) as [->|[->|[->| ->]]] by lia;
    destruct per; reflexivity.
Qed.

End RoundTrip.

Lemma fromisoformat_raises g e : fromisoformat g = Raise e -> e = ValueError.
Proof.
  unfold fromisoformat, new_date.
  repeat match goal with
         | |- context [match ?l with [] => _ | _ :: _ => _ end] => destruct l; try congruence
         end.
  cbv zeta.
  repeat match goal with
         | |- context [if ?b then _ else _] => destruct b; try congruence
         end.
Qed.

Lemma py_int_digit03 d :
  in_range 48%N 51%N d = true -> exists n, py_int [d] = Ok n /\ 0 <= n <= 3.
Proof.
  unfold in_range. intros H. apply andb_true_iff in H. destruct H as [H1 H2].
  apply N.leb_le in H1, H2.
  exists (Z.of_N d - 48). split.
  - unfold py_int. cbn [forallb]. unfold ascii_isdigit, in_range.
    replace (N.leb 48 d) with true by (symmetry; apply N.leb_le; lia).
    replace (N.leb d 57) with true by (symmetry; apply N.leb_le; lia).
    cbn. unfold digit_val. f_equal; lia.
  - lia.
Qed.

Section Decode.
Context {U : Unicode}.

Lemma search_prioridade_inv : forall s i mt,
  search_from _PADRAO_PRIORIDADE i s = Some mt ->
  exists d, group1 mt = Some [d] /\ in_range 48%N 51%N d = true.
Proof.
  induction s as [|x s IH]; intros i mt H; cbn [search_from] in H.
  - destruct (match_at _PADRAO_PRIORIDADE i []) eqn:E; [|discriminate].
    injection H as ->. now apply match_prioridade in E.
  - destruct (match_at _PADRAO_PRIORIDADE i (x :: s)) eqn:E.
    + injection H as ->. now apply match_prioridade in E.
    + eauto.
Qed.

Lemma extrair_prioridade_total texto :
  exists n, extrair_prioridade texto = Ok n /\ 0 <= n <= 3 /\
            (search _PADRAO_PRIORIDADE texto = None -> n = 3).
Proof.
  unfold extrair_prioridade. destruct texto as [|x s].
  - exists 3. repeat split; auto; lia.
  - destruct (search _PADRAO_PRIORIDADE (x :: s)) as [mt|] eqn:E.
    + apply search_prioridade_inv in E. destruct E as (d & Hg & Hd).
      destruct (py_int_digit03 d Hd) as (n & Hn & Hr).
      exists n. unfold group1_or. rewrite Hg. cbn [bind]. rewrite Hn.
      repeat split; try lia. discriminate.
    + exists 3. repeat split; auto; lia.
Qed.

Lemma extrair_periodicidade_total texto :
  exists c, extrair_periodicidade texto = Ok c /\
            (search _PADRAO_PERIODICIDADE texto = None -> c = lit "semanal").
Proof.
  unfold extrair_periodicidade. destruct texto as [|x s].
  - eexists. split; [reflexivity | auto].
  - destruct (search _PADRAO_PERIODICIDADE (x :: s)) as [mt|] eqn:E.
    + pose proof (search_from_inv _ _ _ _ E eq_refl) as Hg.
      unfold group1_or. destruct (group1 mt) as [g|]; [|congruence].
      eexists. split; [reflexivity | discriminate].
    + eexists. split; [reflexivity | auto].
Qed.

Lemma extrair_data_criacao_total texto :
  extrair_data_criacao texto = Ok (data_do_texto texto).
Proof.
  unfold extrair_data_criacao, data_do_texto. destruct texto as [|x s]; [reflexivity|].
  destruct (search _PADRAO_DATA (x :: s)) as [mt|] eqn:E; [|reflexivity].
  pose proof (search_from_inv _ _ _ _ E eq_refl) as Hg.
  unfold group1_or. destruct (group1 mt) as [g|]; [|congruence]. cbn [bind].
  destruct (fromisoformat g) as [d|e] eqn:Ef; [reflexivity|].
  apply fromisoformat_raises in Ef. now subst e.
Qed.

(** C4: for every text [extrair_metadados] returns a value: the title
    is what [extrair_titulo_limpo] leaves, the priority lies in 0..3 and
    is 3 when no priority tag matches, the periodicidade is [semanal]
    when no tag matches, the creation date is absent when no date tag
    matches or the first one is no date of the calendar.  Three texts
    are run: the empty one, an impossible date, a priority out of 0..3
    with an unknown tag. *)
Theorem extrair_metadados_nunca_falha (texto : str) :
  (exists md,
     extrair_metadados texto = Ok md /\
     titulo md = extrair_titulo_limpo texto /\
     0 <= prioridade md <= 3 /\
     (search _PADRAO_PRIORIDADE texto = None -> prioridade md = 3) /\
     (search _PADRAO_PERIODICIDADE texto = None -> periodicidade md = lit "semanal") /\
     data_criacao md = data_do_texto texto /\
     (search _PADRAO_DATA texto = None -> data_criacao md = None)) /\
  extrair_metadados [] = Ok (mkMetadados [] 3 (lit "semanal") None) /\
  extrair_metadados (lit "[2024-13-99] x")
    = Ok (mkMetadados (lit "x") 3 (lit "semanal") None) /\
  extrair_metadados (lit "[P7][anual] y [P0")
    = Ok (mkMetadados (lit "y [P0") 3 (lit "semanal") None).
Proof.
  split; [|repeat split; reflexivity].
  unfold extrair_metadados. cbv zeta.
  destruct (extrair_prioridade_total texto) as (n & -> & Hn & Hn3).
  destruct (extrair_periodicidade_total texto) as (c & -> & Hc).
  rewrite extrair_data_criacao_total. cbn [bind].
  eexists. split; [reflexivity|]. cbn [titulo prioridade periodicidade data_criacao].
  repeat split; auto; try lia.
  intros H. unfold data_do_texto. now rewrite H.
Qed.

Lemma titulo_limpo_do_formatado (hoje : date) (tit : str) (p : Z)
    (per : Periodicidade) (d : date) :
  0 <= p <= 3 -> date_ok d = true ->
  extrair_titulo_limpo (formatar_atividade hoje tit p (codigo per) (Some d))
  = strip (strip_groups (length (lstrip tit)) (lstrip tit)).
Proof.
  intros Hp Hd. rewrite formatar_shape.
  destruct (isoformat_shape d Hd) as (a & b & c & e & f & g & h & i & Hiso & Hdig & _).
  unfold extrair_titulo_limpo. cbn [app].
  rewrite sub_horario_sem_digito by reflexivity.
  rewrite sub_metadados.
  change (91%N :: 80%N :: str_of_int p ++ 93%N :: ?R)
    with (91%N :: (80%N :: str_of_int p) ++ 93%N :: R).
  rewrite sem_metadados_cabecalho; [reflexivity | | | | | |].
  - discriminate.
  - assert (p = 0 \/ p = 1 \/ p = 2 \/ p = 3) as [->|[->|[->| ->]]] by lia; reflexivity.
  - destruct per; discriminate.
  - destruct per; reflexivity.
  - rewrite Hiso. discriminate.
  - rewrite Hiso. cbn [forallb] in *.
    repeat match goal with H : _ && _ = true |- _ => apply andb_true_iff in H; destruct H end.
    repeat match goal with
           | H : ascii_isdigit ?x = true |- _ => rewrite (notclose_digit x H); clear H
           end.
    reflexivity.
Qed.

Lemma metadados_do_formatado (hoje : date) (tit : str) (p : Z)
    (per : Periodicidade) (d : date) :
  0 <= p <= 3 -> date_ok d = true ->
  let texto := formatar_atividade hoje tit p (codigo per) (Some d) in
  extrair_metadados texto
  = Ok (mkMetadados (extrair_titulo_limpo texto) p (codigo per) (Some d)).
Proof.
  intros Hp Hd texto. unfold texto. rewrite formatar_shape.
  destruct (isoformat_shape d Hd) as (a & b & c & e & f & g & h & i & Hiso & Hdig & Hfrom).
  unfold extrair_metadados. cbv zeta.
  rewrite (prioridade_header p _ Hp), (periodicidade_header p per _ Hp). cbn [bind].
  replace (extrair_data_criacao _) with (Ok (Some d)); [reflexivity|].
  symmetry. set (S := isoformat d ++ _). unfold extrair_data_criacao.
  cbv beta iota. rewrite (data_header p per _ Hp).
  unfold S. rewrite Hiso.
  change (search_from _PADRAO_DATA ?n (91%N :: ?l ++ ?r))
    with (match match_at _PADRAO_DATA n (91%N :: l ++ r) with
          | Some mt => Some mt
          | None => search_from _PADRAO_DATA (Datatypes.S n) (l ++ r)
          end).
  rewrite (match_data_iso _ a b c e f g h i _ Hdig).
  unfold group1_or. cbn [group1 bind]. rewrite <- Hiso, Hfrom. reflexivity.
Qed.

(** C3, as amended: decoding an encoded activity gives back the
    priority, the code of the periodicidade and the creation date, for
    every title; it gives back the trimmed title when the title, past
    its leading blanks, does not begin with a bracket group. *)
Theorem ida_e_volta_dos_metadados (hoje : date) (tit : str) (p : Z)
    (per : Periodicidade) (d : date) :
  0 <= p <= 3 -> date_ok d = true ->
  let texto := formatar_atividade hoje tit p (codigo per) (Some d) in
  extrair_metadados texto
    = Ok (mkMetadados (extrair_titulo_limpo texto) p (codigo per) (Some d)) /\
  (~ comeca_com_colchetes (lstrip tit) -> extrair_titulo_limpo texto = strip tit).
Proof.
  intros Hp Hd texto. split; [now apply metadados_do_formatado|].
  intros Ht. apply bracket_group_none_iff in Ht.
  unfold texto. rewrite titulo_limpo_do_formatado by assumption.
  rewrite strip_groups_none by exact Ht.
  unfold strip. now rewrite lstrip_idem.
Qed.

(** X2: The encoded title comes back trimmed exactly when, past its leading
    blanks, it does not begin with a bracket group. *)
Theorem titulo_volta_sse_sem_colchetes (hoje : date) (tit : str) (p : Z)
    (per : Periodicidade) (d : date) :
  0 <= p <= 3 -> date_ok d = true ->
  extrair_titulo_limpo (formatar_atividade hoje tit p (codigo per) (Some d)) = strip tit
  <-> ~ comeca_com_colchetes (lstrip tit).
Proof.
  intros Hp Hd. rewrite titulo_limpo_do_formatado by assumption. split.
  - intros Heq (corpo & resto & Hne & Hin & Hl).
    assert (Hb : bracket_group (lstrip tit) = Some resto).
    { rewrite Hl. apply bracket_group_intro; [exact Hne | now apply forallb_notclose]. }
    assert (Hlen : (0 < length (lstrip tit))%nat) by (rewrite Hl; cbn; lia).
    destruct (length (lstrip tit)) as [|n] eqn:En; [lia|].
    cbn [strip_groups] in Heq. rewrite Hb in Heq.
    destruct (strip_groups_suffix n (lstrip resto)) as (p2 & E2).
    destruct (lstrip_suffix resto) as (p1 & E1).
    set (u := strip_groups n (lstrip resto)) in *.
    apply (f_equal (@length N)) in Heq.
    unfold strip at 2 in Heq. rewrite Hl in Heq.
    replace (91%N :: corpo ++ 93%N :: resto)
      with (((91%N :: corpo) ++ [93%N]) ++ resto) in Heq
      by (cbn; rewrite <- app_assoc; reflexivity).
    rewrite rstrip_after_nonblank in Heq by reflexivity.
    rewrite length_app in Heq.
    pose proof (strip_length_rstrip u) as H1.
    pose proof (rstrip_suffix_length (p1 ++ p2) u) as H2.
    replace ((p1 ++ p2) ++ u) with resto in H2
      by (rewrite <- app_assoc, <- E2; exact E1).
    rewrite length_app in Heq. cbn [length] in Heq. lia.
  - intros Ht. apply bracket_group_none_iff in Ht.
    rewrite strip_groups_none by exact Ht.
    unfold strip. now rewrite lstrip_idem.
Qed.

End Decode.

Lemma ida_e_volta_dos_metadados_witness :
  @extrair_metadados latin1
    (formatar_atividade (mkdate 2024 5 6) (lit "  Estudar [cap. 3]  ") 1 (codigo QUINZENAL)
       (Some (mkdate 2024 2 29)))
  = Ok (mkMetadados (lit "Estudar [cap. 3]") 1 (lit "quinzenal") (Some (mkdate 2024 2 29))).
Proof.
  pose proof (@ida_e_volta_dos_metadados latin1 (mkdate 2024 5 6)
                (lit "  Estudar [cap. 3]  ") 1 QUINZENAL (mkdate 2024 2 29)
                ltac:(lia) eq_refl) as [H1 H2].
  rewrite H1. rewrite H2; [reflexivity|].
  intros (corpo & resto & _ & _ & E). discriminate E.
Defined.

(** C3, counterexample: a title that begins with a bracket group comes
    back without it. *)
Lemma titulo_entre_colchetes_nao_volta :
  @extrair_metadados latin1
    (formatar_atividade (mkdate 2024 1 1) (lit "[URGENTE] pagar conta") 0 (lit "semanal")
       (Some (mkdate 2024 1 1)))
  = Ok (mkMetadados (lit "pagar conta") 0 (lit "semanal") (Some (mkdate 2024 1 1))) /\
  @strip latin1 (lit "[URGENTE] pagar conta") = lit "[URGENTE] pagar conta".
Proof. split; reflexivity. Qed.

Lemma titulo_volta_sse_sem_colchetes_witness :
  @extrair_titulo_limpo latin1
     (formatar_atividade (mkdate 2024 1 1) (lit " [a] b") 0 (codigo UNICA)
        (Some (mkdate 2024 1 1)))
   = @strip latin1 (lit " [a] b")
  <-> ~ comeca_com_colchetes (@lstrip latin1 (lit " [a] b")).
Proof.
  exact (@titulo_volta_sse_sem_colchetes latin1 (mkdate 2024 1 1) (lit " [a] b") 0 UNICA
           (mkdate 2024 1 1) ltac:(lia) eq_refl).
Defined.

End CodecFacts.

(* ================================================================== *)
(** * Synchronisation *)
(* ================================================================== *)

Module SyncFacts.
Import Datetime Str Iso Re Dominio Persistencia Servicos Spec.
Import DatetimeFacts RecurrenceFacts ReFacts CodecFacts.

Lemma In_inserir_ordenado t x l :
  In t (inserir_ordenado x l) <-> t = x \/ In t l.
Proof.
  induction l as [|y l IH]; cbn.
  - intuition congruence.
  - destruct (TarefaDTO.prioridade x <=? TarefaDTO.prioridade y); cbn.
    + intuition congruence.
    + rewrite IH. intuition congruence.
Qed.

Lemma In_ordenar_por_prioridade t l :
  In t (ordenar_por_prioridade l) <-> In t l.
Proof.
  induction l as [|y l IH]; cbn; [tauto|].
  rewrite In_inserir_ordenado, IH. intuition congruence.
Qed.

Lemma opt_str_eqb_eq a b : opt_str_eqb a b = true <-> a = Some b.
Proof.
  destruct a as [s|]; cbn.
  - rewrite str_eqb_eq. split; congruence.
  - split; discriminate.
Qed.

Lemma procurar_duplicata_spec te dh l :
  procurar_duplicata te dh l = true <->
  exists t, In t l /\ TarefaDTO.titulo t = te /\
            (TarefaDTO.data_criacao t = Some dh \/ TarefaDTO.origem t = lit "agenda").
Proof.
  induction l as [|x l IH]; cbn [procurar_duplicata].
  - split; [discriminate | intros (t & [] & _)].
  - destruct (str_eqb (TarefaDTO.titulo x) te) eqn:Et.
    + apply str_eqb_eq in Et.
      destruct (opt_str_eqb (TarefaDTO.data_criacao x) dh) eqn:Ed.
      * apply opt_str_eqb_eq in Ed. split; [|reflexivity].
        intros _. exists x. cbn. auto.
      * destruct (str_eqb (TarefaDTO.origem x) (lit "agenda")) eqn:Eo.
        -- apply str_eqb_eq in Eo. split; [|reflexivity].
           intros _. exists x. cbn. auto.
        -- rewrite IH. split.
           ++ intros (t & Hin & H). exists t. cbn. auto.
           ++ intros (t & [<-|Hin] & Ht & Hd); [|eauto].
              exfalso. destruct Hd as [Hd|Ho].
              ** apply opt_str_eqb_eq in Hd. congruence.
              ** apply str_eqb_eq in Ho. congruence.
    + rewrite IH. split.
      * intros (t & Hin & H). exists t. cbn. auto.
      * intros (t & [<-|Hin] & Ht & Hd); [|eauto].
        apply str_eqb_eq in Ht. congruence.
Qed.

Lemma procurar_no_dia te dh dia (ts : list TarefaDTO.t) :
  procurar_duplicata te dh
    (ordenar_por_prioridade
       (filter (fun t => str_eqb (TarefaDTO.dia t) (valor_dia dia)) ts)) = true <->
  exists t, In t ts /\
            TarefaDTO.dia t = valor_dia dia /\
            TarefaDTO.titulo t = te /\
            (TarefaDTO.data_criacao t = Some dh \/ TarefaDTO.origem t = lit "agenda").
Proof.
  rewrite procurar_duplicata_spec. split.
  - intros (t & Hin & Ht & Hd).
    apply In_ordenar_por_prioridade, filter_In in Hin. destruct Hin as [Hin Hdia].
    apply str_eqb_eq in Hdia. exists t. auto.
  - intros (t & Hin & Hdia & Ht & Hd). exists t. split; [|auto].
    apply In_ordenar_por_prioridade, filter_In. split; [exact Hin|].
    now apply str_eqb_eq.
Qed.

(** C6, as amended: the duplicate check answers true exactly when the
    read of the store succeeds and the store holds a task of today's
    weekday whose title is the candidate title [[horario] atividade] and
    which either was created today (whatever its origin, manual
    included) or has origin [agenda] (whatever its creation date). *)
Theorem criterio_de_duplicata (dia : DiaDaSemana) (horario atividade data_hoje : str)
    (bd : BD) :
  fst (_tarefa_ja_existe_hoje dia horario atividade data_hoje bd) = true <->
  falha bd (relogio bd) = false /\
  exists t, In t (tarefas bd) /\
            TarefaDTO.dia t = valor_dia dia /\
            TarefaDTO.titulo t = titulo_esperado horario atividade /\
            (TarefaDTO.data_criacao t = Some data_hoje \/
             TarefaDTO.origem t = lit "agenda").
Proof.
  unfold _tarefa_ja_existe_hoje, obter_por_dia, com_conexao.
  destruct (falha bd (relogio bd)); cbn [fst].
  - split; [discriminate | intros [H _]; discriminate].
  - rewrite procurar_no_dia. split; [auto | tauto].
Qed.

(** C6, counterexample: a task created by hand today, with the title of
    the cell, makes the duplicate check answer true. *)
Lemma tarefa_manual_de_hoje_conta_como_duplicata :
  let manual :=
    TarefaDTO.mk (lit "[08:00] Estudar") (valor_dia SEGUNDA) (lit "Fazer") (Some 1)
      [] 3 (lit "manual") None (Some (lit "2024-01-01")) in
  fst (_tarefa_ja_existe_hoje SEGUNDA (lit "08:00") (lit "Estudar") (lit "2024-01-01")
         (mkBD [manual] [] 1 0 (fun _ => false))) = true.
Proof. reflexivity. Qed.

Section Sync.
Context {U : Unicode}.

Lemma lstrip_app_nonspace l x : isspace x = false -> lstrip (l ++ [x]) <> [].
Proof.
  intros Hx. induction l as [|y l IH]; cbn.
  - rewrite Hx. discriminate.
  - destruct (isspace y); [exact IH | discriminate].
Qed.

Lemma strip_head_nonspace x s : isspace x = false -> strip (x :: s) <> [].
Proof.
  intros Hx. unfold strip. rewrite (lstrip_head x s Hx). unfold rstrip. cbn [rev].
  intros H. apply (f_equal (@rev N)) in H. rewrite rev_involutive in H. cbn in H.
  now apply (lstrip_app_nonspace (rev s) x Hx).
Qed.

Lemma texto_ou_same s : texto_ou (Some s) s = s.
Proof. destruct s; reflexivity. Qed.

Lemma vincular_prioridade p : 0 <= p <= 3 -> vincular_int p = Ok p.
Proof.
  intros Hp. unfold vincular_int, sqlite_int, _SQLITE_INT_MIN, _SQLITE_INT_MAX.
  replace ((-9223372036854775808 <=? p) && (p <=? 9223372036854775807)) with true;
    [reflexivity|].
  symmetry. apply andb_true_iff. split; apply Z.leb_le; lia.
Qed.

(** The task of a cell, as the store keeps it. *)
Lemma criar_tarefa_da_celula hoje dia h a p bd :
  0 <= p <= 3 ->
  criar_tarefa hoje (titulo_esperado h a) dia FAZER p (lit "agenda") None bd
  = if falha bd (relogio bd) then (None, avancar bd)
    else if ultimo_id bd <? _SQLITE_INT_MAX then
      (Some (ultimo_id bd + 1),
       mkBD (tarefas bd ++
             [TarefaDTO.mk (strip (titulo_esperado h a)) (valor_dia dia)
                (valor_status FAZER) (Some (ultimo_id bd + 1)) [] p (lit "agenda")
                None (Some (isoformat hoje))])
            (agenda bd) (ultimo_id bd + 1) (S (relogio bd)) (falha bd))
    else (None, avancar bd).
Proof.
  intros Hp. unfold criar_tarefa.
  pose proof (strip_head_nonspace 91%N (h ++ lit "] " ++ a) eq_refl) as Hne.
  change (91%N :: h ++ lit "] " ++ a) with (titulo_esperado h a) in Hne.
  destruct (titulo_esperado h a) as [|t0 ts] eqn:Et; [discriminate|].
  destruct (strip (t0 :: ts)) as [|s0 ss] eqn:Es; [congruence|].
  unfold adicionar, com_conexao.
  destruct (falha bd (relogio bd)); [reflexivity|].
  cbn [avancar tarefas agenda ultimo_id relogio falha TarefaDTO.titulo TarefaDTO.dia
       TarefaDTO.status TarefaDTO.horario TarefaDTO.prioridade TarefaDTO.origem
       TarefaDTO.atividade_origem_id TarefaDTO.data_criacao].
  rewrite (vincular_prioridade p Hp). cbn [bind vincular_int_opcional].
  destruct (ultimo_id bd <? _SQLITE_INT_MAX); [|reflexivity].
  now rewrite texto_ou_same.
Qed.

(** The loop body when the read of the duplicate check fails: the check
    answers false and the task of the cell is created. *)
Lemma passo_com_falha_na_verificacao hoje dia horario atividade r bd :
  falha bd (relogio bd) = true ->
  falha bd (S (relogio bd)) = false ->
  0 <= ultimo_id bd < _SQLITE_INT_MAX ->
  exists prioridade,
    _extrair_prioridade atividade = Ok prioridade /\
    processar_atividade hoje dia (isoformat hoje) (horario, atividade) (r, bd)
    = (mais_criada r,
       mkBD (tarefas bd ++
             [TarefaDTO.mk (strip (titulo_esperado horario atividade)) (valor_dia dia)
                (lit "Fazer") (Some (ultimo_id bd + 1)) [] prioridade (lit "agenda")
                None (Some (isoformat hoje))])
            (agenda bd) (ultimo_id bd + 1) (S (S (relogio bd))) (falha bd)).
Proof.
  intros Hf1 Hf2 Hid.
  assert (Hex : _tarefa_ja_existe_hoje dia horario atividade (isoformat hoje) bd
                = (false, avancar bd)).
  { unfold _tarefa_ja_existe_hoje, obter_por_dia, com_conexao. now rewrite Hf1. }
  destruct (extrair_prioridade_total atividade) as (p & Hp & Hr & _).
  exists p. split; [exact Hp|].
  unfold processar_atividade. rewrite Hex. unfold _extrair_prioridade. rewrite Hp.
  rewrite (criar_tarefa_da_celula hoje dia horario atividade p (avancar bd) Hr).
  cbn [avancar tarefas agenda ultimo_id relogio falha]. rewrite Hf2.
  replace (ultimo_id bd <? _SQLITE_INT_MAX) with true
    by (symmetry; apply Z.ltb_lt; lia).
  replace (ultimo_id bd + 1 =? 0) with false by (symmetry; apply Z.eqb_neq; lia).
  reflexivity.
Qed.

End Sync.

Section Laco.
Context {U : Unicode}.

Lemma existe_sem_falhas dia h a dh bd :
  falha bd (relogio bd) = false ->
  _tarefa_ja_existe_hoje dia h a dh bd
  = (procurar_duplicata (titulo_esperado h a) dh
       (ordenar_por_prioridade
          (filter (fun t => str_eqb (TarefaDTO.dia t) (valor_dia dia)) (tarefas bd))),
     avancar bd).
Proof.
  intros Hf. unfold _tarefa_ja_existe_hoje, obter_por_dia, com_conexao. now rewrite Hf.
Qed.

Lemma passo_ignora hoje dia h a r bd :
  falha bd (relogio bd) = false ->
  tem_duplicata dia h a (isoformat hoje) (tarefas bd) ->
  processar_atividade hoje dia (isoformat hoje) (h, a) (r, bd)
  = (mais_ignorada r, avancar bd).
Proof.
  intros Hf Hd. unfold processar_atividade.
  rewrite existe_sem_falhas by assumption.
  now rewrite (proj2 (procurar_no_dia _ (isoformat hoje) dia (tarefas bd)) Hd).
Qed.

Lemma passo_cria hoje dia h a r bd :
  falha bd (relogio bd) = false ->
  falha bd (S (relogio bd)) = false ->
  0 <= ultimo_id bd < _SQLITE_INT_MAX ->
  ~ tem_duplicata dia h a (isoformat hoje) (tarefas bd) ->
  exists p,
    processar_atividade hoje dia (isoformat hoje) (h, a) (r, bd)
    = (mais_criada r,
       mkBD (tarefas bd ++
             [TarefaDTO.mk (strip (titulo_esperado h a)) (valor_dia dia)
                (lit "Fazer") (Some (ultimo_id bd + 1)) [] p (lit "agenda")
                None (Some (isoformat hoje))])
            (agenda bd) (ultimo_id bd + 1) (S (S (relogio bd))) (falha bd)).
Proof.
  intros Hf1 Hf2 Hid Hd.
  destruct (extrair_prioridade_total a) as (p & Hp & Hr & _). exists p.
  unfold processar_atividade. rewrite existe_sem_falhas by assumption.
  destruct (procurar_duplicata _ _ _) eqn:E.
  { exfalso. apply Hd. now apply procurar_no_dia in E. }
  unfold _extrair_prioridade. rewrite Hp.
  rewrite (criar_tarefa_da_celula hoje dia h a p (avancar bd) Hr).
  cbn [avancar tarefas agenda ultimo_id relogio falha]. rewrite Hf2.
  replace (ultimo_id bd <? _SQLITE_INT_MAX) with true
    by (symmetry; apply Z.ltb_lt; lia).
  replace (ultimo_id bd + 1 =? 0) with false by (symmetry; apply Z.eqb_neq; lia).
  reflexivity.
Qed.

(** A store that gives no more ids: the task of the cell is reported as
    a failure. *)
Lemma passo_sem_ids hoje dia h a r bd :
  falha bd (relogio bd) = false ->
  falha bd (S (relogio bd)) = false ->
  _SQLITE_INT_MAX <= ultimo_id bd ->
  ~ tem_duplicata dia h a (isoformat hoje) (tarefas bd) ->
  processar_atividade hoje dia (isoformat hoje) (h, a) (r, bd)
  = (mais_erro (FalhaAoCriarTarefa a) r, avancar (avancar bd)).
Proof.
  intros Hf1 Hf2 Hid Hd.
  destruct (extrair_prioridade_total a) as (p & Hp & Hr & _).
  unfold processar_atividade. rewrite existe_sem_falhas by assumption.
  destruct (procurar_duplicata _ _ _) eqn:E.
  { exfalso. apply Hd. now apply procurar_no_dia in E. }
  unfold _extrair_prioridade. rewrite Hp.
  rewrite (criar_tarefa_da_celula hoje dia h a p (avancar bd) Hr).
  cbn [avancar tarefas agenda ultimo_id relogio falha]. rewrite Hf2.
  replace (ultimo_id bd <? _SQLITE_INT_MAX) with false
    by (symmetry; apply Z.ltb_ge; lia).
  reflexivity.
Qed.

(** Second run: every cell finds its task and is skipped. *)
Lemma laco_tudo_ignorado hoje dia : forall itens r bd,
  sem_falhas bd ->
  (forall h a, In (h, a) itens -> tem_duplicata dia h a (isoformat hoje) (tarefas bd)) ->
  laco hoje dia itens (r, bd)
  = (mkResultado (criadas r) (ignoradas r + Z.of_nat (length itens)) (erros r),
     mkBD (tarefas bd) (agenda bd) (ultimo_id bd) (relogio bd + length itens) (falha bd)).
Proof.
  induction itens as [|[h a] itens IH]; intros r bd Hsf Hall.
  - cbn. destruct r, bd. cbn. f_equal; f_equal; lia.
  - unfold laco. cbn [fold_left]. rewrite passo_ignora; [|apply Hsf | apply Hall; now left].
    fold (laco hoje dia itens (mais_ignorada r, avancar bd)).
    rewrite IH.
    + cbn [mais_ignorada avancar criadas ignoradas erros tarefas agenda ultimo_id relogio falha length].
      f_equal; f_equal; lia.
    + exact Hsf.
    + intros h' a' Hin. apply Hall. now right.
Qed.

Lemma laco_primeira_vez hoje dia : forall itens r bd r' bd',
  sem_falhas bd -> 0 <= ultimo_id bd ->
  laco hoje dia itens (r, bd) = (r', bd') ->
  sem_falhas bd' /\ 0 <= ultimo_id bd' /\ agenda bd' = agenda bd /\
  incl (tarefas bd) (tarefas bd') /\
  ignoradas r <= ignoradas r' /\ criadas r <= criadas r' /\
  (length (erros r) <= length (erros r'))%nat /\
  criadas r' + ignoradas r' + Z.of_nat (length (erros r'))
    = criadas r + ignoradas r + Z.of_nat (length (erros r)) + Z.of_nat (length itens) /\
  (ignoradas r' = ignoradas r -> erros r' = erros r ->
   forall h a, In (h, a) itens -> criada_para hoje dia h a (tarefas bd')).
Proof.
  induction itens as [|[h a] itens IH]; intros r bd r' bd' Hsf Hid H.
  - cbn in H. injection H as <- <-.
    cbn [length]. repeat split; auto using incl_refl; try lia. intros _ _ h a [].
  - unfold laco in H. cbn [fold_left] in H.
    destruct (processar_atividade hoje dia (isoformat hoje) (h, a) (r, bd)) as [r1 bd1] eqn:E1.
    fold (laco hoje dia itens (r1, bd1)) in H.
    assert (Hstep :
      (exists e, r1 = e r /\ (e = mais_ignorada \/ e = mais_erro (FalhaAoCriarTarefa a)) /\
                 (bd1 = avancar bd \/ bd1 = avancar (avancar bd))) \/
      (r1 = mais_criada r /\ sem_falhas bd1 /\ 0 <= ultimo_id bd1 /\ agenda bd1 = agenda bd /\
       incl (tarefas bd) (tarefas bd1) /\ criada_para hoje dia h a (tarefas bd1))).
    { destruct (procurar_duplicata (titulo_esperado h a) (isoformat hoje)
                  (ordenar_por_prioridade
                     (filter (fun t => str_eqb (TarefaDTO.dia t) (valor_dia dia)) (tarefas bd))))
        eqn:Ed.
      - left. exists mais_ignorada.
        rewrite passo_ignora in E1; [injection E1 as <- <-; auto | apply Hsf |].
        now apply procurar_no_dia in Ed.
      - assert (Hnd : ~ tem_duplicata dia h a (isoformat hoje) (tarefas bd)).
        { intros Hdup. apply procurar_no_dia in Hdup. congruence. }
        destruct (Z_lt_le_dec (ultimo_id bd) _SQLITE_INT_MAX) as [Hlt|Hge].
        + right.
          destruct (passo_cria hoje dia h a r bd (Hsf _) (Hsf _) (conj Hid Hlt) Hnd)
            as (p & Hp).
          rewrite Hp in E1. injection E1 as <- <-.
          cbn [tarefas agenda ultimo_id falha]. repeat split; auto; try lia.
          * intros t Hin. apply in_or_app. now left.
          * eexists. split; [apply in_or_app; right; left; reflexivity|].
            cbn. auto.
        + left. exists (mais_erro (FalhaAoCriarTarefa a)).
          rewrite (passo_sem_ids hoje dia h a r bd (Hsf _) (Hsf _) Hge Hnd) in E1.
          injection E1 as <- <-. auto. }
    destruct Hstep as [(e & -> & He & Hbd) | (-> & Hsf1 & Hid1 & Hag1 & Hinc1 & Hcr1)].
    + assert (Hbd1 : sem_falhas bd1 /\ ultimo_id bd1 = ultimo_id bd /\
                     agenda bd1 = agenda bd /\ tarefas bd1 = tarefas bd).
      { destruct Hbd as [-> | ->]; repeat split; try reflexivity; exact Hsf. }
      destruct Hbd1 as (Hsf1 & Hid1 & Hag1 & Htar1).
      apply IH in H; [|exact Hsf1 | lia].
      destruct H as (S1 & I1 & A1 & Inc & Ig & Cr & Er & Tot & Hall).
      rewrite Hag1 in A1. rewrite Htar1 in Inc.
      destruct He as [-> | ->];
        cbn [mais_ignorada mais_erro criadas ignoradas erros length] in *;
        rewrite ?length_app in *; cbn [length] in *;
        repeat split; auto; try lia.
      intros _ Her. exfalso. rewrite Her in Er. lia.
    + apply IH in H; [|exact Hsf1 | exact Hid1].
      destruct H as (S1 & I1 & A1 & Inc & Ig & Cr & Er & Tot & Hall).
      cbn [mais_criada criadas ignoradas erros length] in *.
      repeat split; auto; try lia.
      * congruence.
      * eapply incl_tran; eauto.
      * intros Hig Her h' a' [Heq|Hin].
        -- injection Heq as <- <-. destruct Hcr1 as (t & Hin & Ht).
           exists t. split; [now apply Inc | exact Ht].
        -- now apply Hall.
Qed.

End Laco.

Section Idempotencia.
Context {U : Unicode}.

Lemma rstrip_app x a : rstrip a <> [] -> rstrip (x ++ a) = x ++ rstrip a.
Proof.
  unfold rstrip. intros H. rewrite rev_app_distr, lstrip_app.
  - now rewrite rev_app_distr, rev_involutive.
  - intros E. apply H. now rewrite E.
Qed.

Lemma strip_titulo_esperado h a :
  a <> [] -> rstrip a = a ->
  strip (titulo_esperado h a) = titulo_esperado h a.
Proof.
  intros Hne Hr. unfold titulo_esperado, strip.
  change (lit "[" ++ h ++ lit "] " ++ a) with (91%N :: h ++ lit "] " ++ a).
  rewrite lstrip_head by reflexivity.
  replace (91%N :: h ++ lit "] " ++ a) with ((91%N :: h ++ lit "] ") ++ a)
    by (cbn; now rewrite <- app_assoc).
  rewrite rstrip_app by congruence. now rewrite Hr.
Qed.

Lemma In_atividades_hoje idx grade h a :
  In (h, a) (atividades_hoje idx grade) ->
  a <> [] /\ exists c, In (h, c, Some a) grade.
Proof.
  unfold atividades_hoje. intros H. apply in_flat_map in H.
  destruct H as ([[h' c] [a'|]] & Hin & H); [|destruct H].
  destruct ((c =? idx) && verdadeiro a' && verdadeiro (strip a')) eqn:E; [|destruct H].
  destruct H as [H|[]]. injection H as -> ->.
  apply andb_true_iff in E. destruct E as [E _]. apply andb_true_iff in E. destruct E as [_ E].
  split; [intros ->; discriminate | eauto].
Qed.

(** X1: Two runs on the same day, nothing failing, no cell text ending in a
    blank: the second run creates nothing and skips what the first created. *)
Theorem sincronizar_duas_vezes (hoje : date) (bd : BD) :
  sem_falhas bd -> 0 <= ultimo_id bd ->
  (forall h c a, In (h, c, Some a) (agenda bd) -> rstrip a = a) ->
  forall r1 bd1 r2 bd2,
    sincronizar_agenda_para_kanban hoje bd = (r1, bd1) ->
    ignoradas r1 = 0 -> erros r1 = [] ->
    sincronizar_agenda_para_kanban hoje bd1 = (r2, bd2) ->
    criadas r2 = 0 /\ ignoradas r2 = criadas r1 /\ erros r2 = [] /\
    tarefas bd2 = tarefas bd1.
Proof.
  intros Hsf Hid Hfim r1 bd1 r2 bd2 H1 Hig Her H2.
  unfold sincronizar_agenda_para_kanban in H1, H2.
  destruct (obter_dia_semana_atual hoje) as [dia|].
  2:{ injection H1 as <- <-. injection H2 as <- <-. cbn. auto. }
  destruct (_obter_indice_dia dia) as [idx|].
  2:{ injection H1 as <- <-. injection H2 as <- <-. cbn. auto. }
  unfold carregar_dados_horarios, com_conexao in H1, H2.
  rewrite (Hsf (relogio bd)) in H1.
  cbv beta iota zeta in H1.
  change (agenda (avancar bd)) with (agenda bd) in H1.
  change (fold_left _ ?l ?st) with (laco hoje dia l st) in H1.
  apply laco_primeira_vez in H1; [|exact Hsf | exact Hid].
  destruct H1 as (Hsf1 & Hid1 & Hag & Hinc & _ & _ & _ & Htot & Hall).
  cbn [criadas ignoradas erros length] in Htot, Hall.
  specialize (Hall Hig Her).
  rewrite (Hsf1 (relogio bd1)) in H2.
  cbv beta iota zeta in H2.
  change (agenda (avancar bd1)) with (agenda bd1) in H2. rewrite Hag in H2.
  change (fold_left _ ?l ?st) with (laco hoje dia l st) in H2.
  rewrite laco_tudo_ignorado in H2.
  - injection H2 as <- <-. cbn [criadas ignoradas erros tarefas avancar].
    rewrite Hig, Her in Htot. cbn [length] in Htot. repeat split; auto. lia.
  - exact Hsf1.
  - intros h a Hin. destruct (Hall h a Hin) as (t & Ht & Hdia & Htit & Hdata).
    destruct (In_atividades_hoje _ _ _ _ Hin) as (Hne & c & Hc).
    exists t. cbn [avancar tarefas]. split; [exact Ht|]. split; [exact Hdia|].
    split; [|now left].
    rewrite Htit. apply strip_titulo_esperado; [exact Hne | now apply (Hfim h c)].
Qed.

End Idempotencia.

Section Eval.
Context {U : Unicode}.

(** C5, on Monday 2024-01-01 with one cell whose text ends in a blank:
    the first run creates one task and skips none, the second run, with
    the grid unchanged, creates one more. *)
Theorem segunda_sincronizacao_duplica :
  let hoje := mkdate 2024 1 1 in
  let '(r1, bd1) := sincronizar_agenda_para_kanban hoje bd_espaco_final in
  let '(r2, bd2) := sincronizar_agenda_para_kanban hoje bd1 in
  r1 = mkResultado 1 0 [] /\ agenda bd1 = agenda bd_espaco_final /\
  r2 = mkResultado 1 0 [] /\
  length (tarefas bd1) = 1%nat /\ length (tarefas bd2) = 2%nat /\
  map TarefaDTO.titulo (tarefas bd2) = [lit "[08:00] Estudar"; lit "[08:00] Estudar"].
Proof. cbv zeta. repeat split; reflexivity. Qed.

End Eval.


Lemma sincronizar_duas_vezes_witness :
  let hoje := mkdate 2024 1 1 in
  let s1 := @sincronizar_agenda_para_kanban latin1 hoje bd_limpo in
  let s2 := @sincronizar_agenda_para_kanban latin1 hoje (snd s1) in
  criadas (fst s2) = 0 /\ ignoradas (fst s2) = criadas (fst s1) /\ erros (fst s2) = [] /\
  tarefas (snd s2) = tarefas (snd s1).
Proof.
  cbv zeta.
  apply (@sincronizar_duas_vezes latin1 (mkdate 2024 1 1) bd_limpo).
  - intros n. reflexivity.
  - cbn. lia.
  - intros h c a Hin. cbn in Hin.
    destruct Hin as [H|[H|[H|[]]]]; injection H as <- <- <-; reflexivity.
  - apply surjective_pairing.
  - reflexivity.
  - reflexivity.
  - apply surjective_pairing.
Defined.

Section Extra.
Context {U : Unicode}.

(** X7: On a Saturday or a Sunday nothing is read and nothing is written. *)
Theorem fim_de_semana_sem_sincronizacao (hoje : date) (bd : BD) :
  5 <= weekday hoje ->
  sincronizar_agenda_para_kanban hoje bd = (mkResultado 0 0 [], bd).
Proof.
  intros H. unfold sincronizar_agenda_para_kanban, obter_dia_semana_atual. cbv zeta.
  repeat match goal with
         | |- context [weekday hoje =? ?k] =>
             replace (weekday hoje =? k) with false by (symmetry; apply Z.eqb_neq; lia)
         end.
  reflexivity.
Qed.

End Extra.

Lemma fim_de_semana_sem_sincronizacao_witness :
  @sincronizar_agenda_para_kanban latin1 (mkdate 2024 1 6) bd_limpo
  = (mkResultado 0 0 [], bd_limpo).
Proof.
  apply (@fim_de_semana_sem_sincronizacao latin1 (mkdate 2024 1 6) bd_limpo).
  vm_compute. discriminate.
Defined.

End SyncFacts.

(* ================================================================== *)
(** * Invariants of the synchronisation *)
(* ================================================================== *)

Module SyncInvariants.
Import Datetime Str Iso Re Dominio Persistencia Servicos Spec.
Import DatetimeFacts RecurrenceFacts ReFacts CodecFacts SyncFacts.

Section Passo.
Context {U : Unicode}.

Lemma total_mais_erro e r : total (mais_erro e r) = total r + 1.
Proof.
  unfold total, mais_erro. cbn [criadas ignoradas erros].
  rewrite length_app. cbn [length]. lia.
Qed.

(** One cell: the grid and the failure pattern are left alone, one
    counter moves by one, and at most one task is appended. *)
Lemma passo_geral hoje dia h a r bd r' bd' :
  processar_atividade hoje dia (isoformat hoje) (h, a) (r, bd) = (r', bd') ->
  agenda bd' = agenda bd /\ falha bd' = falha bd /\
  total r' = total r + 1 /\
  ((tarefas bd' = tarefas bd /\ ultimo_id bd' = ultimo_id bd /\ criadas r' = criadas r) \/
   (exists t, tarefas bd' = tarefas bd ++ [t] /\
              tarefa_da_celula hoje dia h a t /\
              TarefaDTO.id t = Some (ultimo_id bd + 1) /\
              ultimo_id bd' = ultimo_id bd + 1 /\
              (0 <= ultimo_id bd -> criadas r' = criadas r + 1))).
Proof.
  unfold processar_atividade, _tarefa_ja_existe_hoje, obter_por_dia, com_conexao.
  destruct (extrair_prioridade_total a) as (p & Hp & Hr & _).
  unfold _extrair_prioridade. rewrite Hp.
  assert (Hcria : forall bd0 r0 bd0',
    agenda bd0 = agenda bd -> falha bd0 = falha bd ->
    tarefas bd0 = tarefas bd -> ultimo_id bd0 = ultimo_id bd ->
    (let '(id_tarefa, bd1) :=
       criar_tarefa hoje (titulo_esperado h a) dia FAZER p (lit "agenda") None bd0 in
     match id_tarefa with
     | Some i => if i =? 0 then (mais_erro (FalhaAoCriarTarefa a) r, bd1)
                 else (mais_criada r, bd1)
     | None => (mais_erro (FalhaAoCriarTarefa a) r, bd1)
     end) = (r0, bd0') ->
    agenda bd0' = agenda bd /\ falha bd0' = falha bd /\
    total r0 = total r + 1 /\
    ((tarefas bd0' = tarefas bd /\ ultimo_id bd0' = ultimo_id bd /\ criadas r0 = criadas r) \/
     (exists t, tarefas bd0' = tarefas bd ++ [t] /\
                tarefa_da_celula hoje dia h a t /\
                TarefaDTO.id t = Some (ultimo_id bd + 1) /\
                ultimo_id bd0' = ultimo_id bd + 1 /\
                (0 <= ultimo_id bd -> criadas r0 = criadas r + 1)))).
  { intros bd0 r0 bd0' Ha Hf Ht Hi.
    rewrite (criar_tarefa_da_celula hoje dia h a p bd0 Hr).
    assert (Hfalhou : forall bdx, agenda bdx = agenda bd -> falha bdx = falha bd ->
      tarefas bdx = tarefas bd -> ultimo_id bdx = ultimo_id bd ->
      (mais_erro (FalhaAoCriarTarefa a) r, bdx) = (r0, bd0') ->
      agenda bd0' = agenda bd /\ falha bd0' = falha bd /\
      total r0 = total r + 1 /\
      ((tarefas bd0' = tarefas bd /\ ultimo_id bd0' = ultimo_id bd /\
        criadas r0 = criadas r) \/
       (exists t, tarefas bd0' = tarefas bd ++ [t] /\
                  tarefa_da_celula hoje dia h a t /\
                  TarefaDTO.id t = Some (ultimo_id bd + 1) /\
                  ultimo_id bd0' = ultimo_id bd + 1 /\
                  (0 <= ultimo_id bd -> criadas r0 = criadas r + 1)))).
    { intros bdx Hax Hfx Htx Hix E. injection E as <- <-.
      repeat split; auto using total_mais_erro. }
    destruct (falha bd0 (relogio bd0)).
    - apply Hfalhou; assumption.
    - destruct (ultimo_id bd0 <? _SQLITE_INT_MAX); [|apply Hfalhou; assumption].
      rewrite Ht, Hi, Ha, Hf.
      destruct (ultimo_id bd + 1 =? 0) eqn:E0; intros E; injection E as <- <-;
        cbn [agenda falha tarefas ultimo_id]; (split; [reflexivity|]);
        (split; [reflexivity|]).
      + split; [apply total_mais_erro|]. right. eexists. split; [reflexivity|].
        split; [|split; [reflexivity|split; [reflexivity|]]].
        * unfold tarefa_da_celula. repeat split; try reflexivity. exact Hp.
        * apply Z.eqb_eq in E0. lia.
      + split; [unfold total, mais_criada; cbn [criadas ignoradas erros]; lia|].
        right. eexists. split; [reflexivity|].
        split; [|split; [reflexivity|split; [reflexivity|]]].
        * unfold tarefa_da_celula. repeat split; try reflexivity. exact Hp.
        * reflexivity. }
  destruct (falha bd (relogio bd)).
  - (* the check fails: the task is created *)
    apply Hcria; reflexivity.
  - cbv beta iota zeta.
    destruct (procurar_duplicata _ _ _).
    + intros E. injection E as <- <-. cbn [avancar agenda falha tarefas ultimo_id].
      repeat split; auto.
      unfold total, mais_ignorada. cbn [criadas ignoradas erros]. lia.
    + apply Hcria; reflexivity.
Qed.

Lemma laco_geral hoje dia : forall itens r bd r' bd',
  laco hoje dia itens (r, bd) = (r', bd') ->
  agenda bd' = agenda bd /\ falha bd' = falha bd /\
  total r' = total r + Z.of_nat (length itens) /\
  exists novas,
    tarefas bd' = tarefas bd ++ novas /\
    Forall (fun t => exists h a, In (h, a) itens /\ tarefa_da_celula hoje dia h a t)
           novas /\
    ultimo_id bd' = ultimo_id bd + Z.of_nat (length novas) /\
    (0 <= ultimo_id bd -> criadas r' = criadas r + Z.of_nat (length novas)).
Proof.
  induction itens as [|[h a] itens IH]; intros r bd r' bd' H.
  - cbn in H. injection H as <- <-. cbn [length].
    repeat split; try lia. exists []. rewrite app_nil_r. cbn [length].
    repeat split; auto; lia.
  - unfold laco in H. cbn [fold_left] in H.
    destruct (processar_atividade hoje dia (isoformat hoje) (h, a) (r, bd))
      as [r1 bd1] eqn:E1.
    fold (laco hoje dia itens (r1, bd1)) in H.
    apply passo_geral in E1. destruct E1 as (A1 & F1 & T1 & Hstep).
    apply IH in H. destruct H as (A2 & F2 & T2 & novas & Hn & Hall & Hid & Hcr).
    split; [congruence|]. split; [congruence|].
    split; [cbn [length]; lia|].
    assert (Hall' :
      Forall (fun t => exists h0 a0, In (h0, a0) ((h, a) :: itens) /\
                                     tarefa_da_celula hoje dia h0 a0 t) novas).
    { eapply Forall_impl; [|exact Hall].
      intros t (h0 & a0 & Hin & Ht). exists h0, a0. split; [now right | exact Ht]. }
    destruct Hstep as [(Ht1 & Hi1 & Hc1) | (t & Ht1 & Hcel & _ & Hi1 & Hc1)].
    + exists novas. rewrite Hn, Ht1, Hid, Hi1.
      repeat split; auto. intros H0. rewrite Hcr by lia. lia.
    + exists (t :: novas). rewrite Hn, Ht1, <- app_assoc. cbn [app length].
      split; [reflexivity|]. split.
      * constructor; [|exact Hall']. exists h, a. split; [now left | exact Hcel].
      * split; [lia|]. intros H0. rewrite Hcr by lia. rewrite Hc1 by lia. lia.
Qed.

Lemma indice_do_dia hoje dia :
  obter_dia_semana_atual hoje = Some dia ->
  _obter_indice_dia dia = Some (weekday hoje) /\ weekday hoje < 5.
Proof.
  unfold obter_dia_semana_atual. cbv zeta.
  destruct (weekday hoje =? 0) eqn:E0; [apply Z.eqb_eq in E0|];
    [intros H; injection H as <-; rewrite E0; split; [reflexivity|lia]|].
  destruct (weekday hoje =? 1) eqn:E1; [apply Z.eqb_eq in E1|];
    [intros H; injection H as <-; rewrite E1; split; [reflexivity|lia]|].
  destruct (weekday hoje =? 2) eqn:E2; [apply Z.eqb_eq in E2|];
    [intros H; injection H as <-; rewrite E2; split; [reflexivity|lia]|].
  destruct (weekday hoje =? 3) eqn:E3; [apply Z.eqb_eq in E3|];
    [intros H; injection H as <-; rewrite E3; split; [reflexivity|lia]|].
  destruct (weekday hoje =? 4) eqn:E4; [apply Z.eqb_eq in E4|];
    [intros H; injection H as <-; rewrite E4; split; [reflexivity|lia]|].
  discriminate.
Qed.

Lemma dia_util hoje :
  weekday hoje < 5 -> exists dia, obter_dia_semana_atual hoje = Some dia.
Proof.
  intros H. pose proof (weekday_range hoje) as R.
  unfold obter_dia_semana_atual. cbv zeta.
  destruct (weekday hoje =? 0) eqn:E0; [eauto|].
  destruct (weekday hoje =? 1) eqn:E1; [eauto|].
  destruct (weekday hoje =? 2) eqn:E2; [eauto|].
  destruct (weekday hoje =? 3) eqn:E3; [eauto|].
  destruct (weekday hoje =? 4) eqn:E4; [eauto|].
  apply Z.eqb_neq in E0, E1, E2, E3, E4. lia.
Qed.

Lemma In_atividades_hoje_coluna idx grade h a :
  In (h, a) (atividades_hoje idx grade) ->
  In (h, idx, Some a) grade /\ strip a <> [].
Proof.
  unfold atividades_hoje. rewrite in_flat_map.
  intros ([[h' c] [a'|]] & Hin & Hx); [|destruct Hx].
  destruct (c =? idx) eqn:Ec; [|destruct Hx]. apply Z.eqb_eq in Ec. subst c.
  destruct a' as [|x xs]; [destruct Hx|]. cbn [verdadeiro andb] in Hx.
  destruct (strip (x :: xs)) eqn:Es; [destruct Hx|].
  destruct Hx as [Hx|[]]. injection Hx as <- <-. split; [exact Hin | congruence].
Qed.

(** What a run does to the store, whatever fails on the way. *)
Lemma sincronizar_geral hoje bd r bd' :
  sincronizar_agenda_para_kanban hoje bd = (r, bd') ->
  agenda bd' = agenda bd /\ falha bd' = falha bd /\
  exists novas,
    tarefas bd' = tarefas bd ++ novas /\
    Forall (fun t => exists dia h a,
                obter_dia_semana_atual hoje = Some dia /\
                In (h, weekday hoje, Some a) (agenda bd) /\
                strip a <> [] /\
                tarefa_da_celula hoje dia h a t) novas /\
    ultimo_id bd' = ultimo_id bd + Z.of_nat (length novas) /\
    (0 <= ultimo_id bd -> criadas r = Z.of_nat (length novas)) /\
    (weekday hoje < 5 -> falha bd (relogio bd) = false ->
     total r = Z.of_nat (length (atividades_hoje (weekday hoje) (agenda bd)))) /\
    (weekday hoje < 5 -> falha bd (relogio bd) = true ->
     r = mkResultado 0 0 [ErroNaSincronizacao ErroRepositorio] /\ novas = []).
Proof.
  unfold sincronizar_agenda_para_kanban. cbv zeta.
  assert (Hnada : forall r0 : Resultado, criadas r0 = 0 ->
    agenda bd = agenda bd /\ falha bd = falha bd /\
    exists novas,
      tarefas bd = tarefas bd ++ novas /\
      Forall (fun t => exists dia h a,
                  obter_dia_semana_atual hoje = Some dia /\
                  In (h, weekday hoje, Some a) (agenda bd) /\
                  strip a <> [] /\
                  tarefa_da_celula hoje dia h a t) novas /\
      ultimo_id bd = ultimo_id bd + Z.of_nat (length novas) /\
      (0 <= ultimo_id bd -> criadas r0 = Z.of_nat (length novas)) /\ novas = []).
  { intros r0 H0. split; [reflexivity|]. split; [reflexivity|]. exists [].
    rewrite app_nil_r. cbn [length]. repeat split; auto; lia. }
  destruct (obter_dia_semana_atual hoje) as [dia|] eqn:Ed.
  - destruct (indice_do_dia hoje dia Ed) as (Hidx & Hlt). rewrite Hidx.
    unfold carregar_dados_horarios, com_conexao.
    destruct (falha bd (relogio bd)) eqn:Ef.
    + intros E. injection E as <- <-. cbn [avancar agenda falha tarefas ultimo_id].
      split; [reflexivity|]. split; [reflexivity|]. exists [].
      rewrite app_nil_r. cbn [length mais_erro criadas erros app].
      repeat split; auto; try lia; try discriminate.
    + cbv beta iota zeta.
      change (fold_left _ ?l ?st) with (laco hoje dia l st).
      intros E. apply laco_geral in E.
      cbn [avancar agenda falha tarefas ultimo_id criadas] in E.
      destruct E as (Ha & Hf & Ht & novas & Hn & Hall & Hid & Hcr).
      split; [exact Ha|]. split; [exact Hf|]. exists novas.
      split; [exact Hn|]. split.
      * eapply Forall_impl; [|exact Hall]. intros t (h & a & Hin & Hc).
        exists dia, h, a. split; [reflexivity|].
        apply In_atividades_hoje_coluna in Hin. destruct Hin. auto.
      * split; [exact Hid|]. split; [intros H0; rewrite Hcr by lia; lia|].
        split; [intros _ _; rewrite Ht; unfold total; cbn; lia | discriminate].
  - intros E. injection E as <- <-.
    destruct (Hnada (mkResultado 0 0 []) eq_refl) as (A & F & novas & H1 & H2 & H3 & H4 & H5).
    split; [exact A|]. split; [exact F|]. exists novas.
    split; [exact H1|]. split; [exact H2|]. split; [exact H3|]. split; [exact H4|].
    split; intros Hlt; destruct (dia_util hoje Hlt) as (d & Hd); congruence.
Qed.


Lemma laco_app hoje dia antes depois st :
  laco hoje dia (antes ++ depois) st = laco hoje dia depois (laco hoje dia antes st).
Proof. unfold laco. apply fold_left_app. Qed.



Lemma sincronizacao_so_acrescenta_aux (hoje : date) (bd : BD) :
  agenda (snd (sincronizar_agenda_para_kanban hoje bd)) = agenda bd /\
  exists novas,
    tarefas (snd (sincronizar_agenda_para_kanban hoje bd)) = tarefas bd ++ novas /\
    Forall (fun t => exists dia h a,
                obter_dia_semana_atual hoje = Some dia /\
                In (h, weekday hoje, Some a) (agenda bd) /\
                strip a <> [] /\
                tarefa_da_celula hoje dia h a t) novas.
Proof.
  destruct (sincronizar_agenda_para_kanban hoje bd) as [r bd'] eqn:E.
  apply sincronizar_geral in E. cbn [snd].
  destruct E as (Ha & _ & novas & Hn & Hall & _).
  split; [exact Ha|]. exists novas. split; [exact Hn | exact Hall].
Qed.

End Passo.

Section Teoremas.
Context {U : Unicode}.


(** C10: when the read of the store fails during the duplicate check of
    a cell, and the store answers again for the insertion, the run does
    not stop and reports no error for the cell: it counts one more task
    created and appends the task of the cell to the board, whatever the
    board holds, and goes on with the cells that follow.  [antes] are the
    cells of today's column before the cell, [depois] those after it. *)
Theorem verificacao_com_falha_cria_a_tarefa (hoje : date) (dia : DiaDaSemana)
    (bd : BD) (antes depois : list (str * str)) (horario atividade : str)
    (r0 : Resultado) (bd0 : BD) :
  obter_dia_semana_atual hoje = Some dia ->
  falha bd (relogio bd) = false ->
  atividades_hoje (weekday hoje) (agenda bd) = antes ++ (horario, atividade) :: depois ->
  laco hoje dia antes (mkResultado 0 0 [], avancar bd) = (r0, bd0) ->
  falha bd (relogio bd0) = true ->
  falha bd (S (relogio bd0)) = false ->
  0 <= ultimo_id bd0 < _SQLITE_INT_MAX ->
  exists prioridade,
    _extrair_prioridade atividade = Ok prioridade /\
    let nova :=
      TarefaDTO.mk (strip (titulo_esperado horario atividade)) (valor_dia dia)
        (lit "Fazer") (Some (ultimo_id bd0 + 1)) [] prioridade (lit "agenda")
        None (Some (isoformat hoje)) in
    let '(r, bd') := sincronizar_agenda_para_kanban hoje bd in
    (r, bd')
    = laco hoje dia depois
        (mais_criada r0,
         mkBD (tarefas bd0 ++ [nova]) (agenda bd) (ultimo_id bd0 + 1)
              (S (S (relogio bd0))) (falha bd)) /\
    (exists resto, tarefas bd' = tarefas bd0 ++ nova :: resto) /\
    criadas r0 + 1 <= criadas r.
Proof.
  intros Hdia Hf Hsel Hantes Hf1 Hf2 Hid.
  pose proof (laco_geral hoje dia antes _ _ _ _ Hantes) as (Hag0 & Hfa0 & _).
  cbn [avancar agenda falha] in Hag0, Hfa0.
  rewrite <- Hfa0 in Hf1, Hf2.
  destruct (passo_com_falha_na_verificacao hoje dia horario atividade r0 bd0 Hf1 Hf2 Hid)
    as (p & Hp & Hpasso).
  exists p. split; [exact Hp|]. cbv zeta.
  assert (Hrun : sincronizar_agenda_para_kanban hoje bd
    = laco hoje dia depois
        (mais_criada r0,
         mkBD (tarefas bd0 ++
               [TarefaDTO.mk (strip (titulo_esperado horario atividade)) (valor_dia dia)
                  (lit "Fazer") (Some (ultimo_id bd0 + 1)) [] p (lit "agenda")
                  None (Some (isoformat hoje))])
              (agenda bd) (ultimo_id bd0 + 1) (S (S (relogio bd0))) (falha bd))).
  { unfold sincronizar_agenda_para_kanban. cbv zeta. rewrite Hdia.
    destruct (indice_do_dia hoje dia Hdia) as (Hidx & _). rewrite Hidx.
    unfold carregar_dados_horarios, com_conexao. rewrite Hf.
    cbv beta iota zeta.
    change (fold_left _ ?l ?st) with (laco hoje dia l st).
    change (agenda (avancar bd)) with (agenda bd).
    rewrite Hsel, laco_app.
    rewrite Hantes. unfold laco at 1. cbn [fold_left].
    rewrite Hpasso, Hag0, Hfa0. reflexivity. }
  rewrite Hrun.
  destruct (laco hoje dia depois _) as [r bd'] eqn:E.
  split; [reflexivity|].
  apply laco_geral in E. cbn [tarefas ultimo_id mais_criada criadas] in E.
  destruct E as (_ & _ & _ & novas & Hn & _ & _ & Hcr).
  split.
  - exists novas. rewrite Hn, <- app_assoc. reflexivity.
  - rewrite Hcr by lia. lia.
Qed.

(** X6: A run only appends tasks: the grid is left as it was, the tasks
    that were on the board stay, in place and unchanged, and each new
    task is the task of a non-blank cell of today's column: its title is
    the trimmed "[time] text", its priority the one read in the text, its
    origin "agenda", its status "Fazer", its creation date today. *)
Theorem sincronizacao_so_acrescenta (hoje : date) (bd : BD) :
  let bd' := snd (sincronizar_agenda_para_kanban hoje bd) in
  agenda bd' = agenda bd /\
  exists novas,
    tarefas bd' = tarefas bd ++ novas /\
    Forall (fun t => exists dia h a,
                obter_dia_semana_atual hoje = Some dia /\
                In (h, weekday hoje, Some a) (agenda bd) /\
                strip a <> [] /\
                tarefa_da_celula hoje dia h a t) novas.
Proof. exact (sincronizacao_so_acrescenta_aux hoje bd). Qed.

(** X8: Every non-blank cell of today's column is counted once, as created,
    skipped or failed, whatever fails after the grid was read; when the
    grid cannot be read the run reports that one error and creates
    nothing. *)
Theorem sincronizacao_conta_cada_celula (hoje : date) (bd : BD) :
  weekday hoje < 5 ->
  let r := fst (sincronizar_agenda_para_kanban hoje bd) in
  (falha bd (relogio bd) = false ->
   criadas r + ignoradas r + Z.of_nat (length (erros r))
   = Z.of_nat (length (atividades_hoje (weekday hoje) (agenda bd)))) /\
  (falha bd (relogio bd) = true ->
   sincronizar_agenda_para_kanban hoje bd
   = (mkResultado 0 0 [ErroNaSincronizacao ErroRepositorio], avancar bd)).
Proof.
  intros Hlt. cbv zeta.
  destruct (sincronizar_agenda_para_kanban hoje bd) as [r bd'] eqn:E.
  pose proof (sincronizar_geral _ _ _ _ E) as
    (_ & _ & novas & _ & _ & _ & _ & Hok & _).
  cbn [fst]. split; [intros Hf; apply (Hok Hlt Hf)|].
  intros Hf. rewrite <- E. unfold sincronizar_agenda_para_kanban. cbv zeta.
  destruct (dia_util hoje Hlt) as (dia & Hd). rewrite Hd.
  destruct (indice_do_dia hoje dia Hd) as (Hidx & _). rewrite Hidx.
  unfold carregar_dados_horarios, com_conexao. rewrite Hf. reflexivity.
Qed.

(** X9: On a store whose id counter is not negative, the number of tasks a
    run reports as created is the number of tasks it added. *)
Theorem criadas_conta_as_tarefas_novas (hoje : date) (bd : BD) :
  0 <= ultimo_id bd ->
  let '(r, bd') := sincronizar_agenda_para_kanban hoje bd in
  Z.of_nat (length (tarefas bd')) = Z.of_nat (length (tarefas bd)) + criadas r /\
  ultimo_id bd' = ultimo_id bd + criadas r.
Proof.
  intros H0.
  destruct (sincronizar_agenda_para_kanban hoje bd) as [r bd'] eqn:E.
  apply sincronizar_geral in E.
  destruct E as (_ & _ & novas & Hn & _ & Hid & Hcr & _).
  rewrite Hn, length_app, Hid, (Hcr H0). lia.
Qed.

End Teoremas.


Lemma verificacao_com_falha_cria_a_tarefa_witness :
  exists prioridade,
    @_extrair_prioridade latin1 (lit "Estudar") = Ok prioridade /\
    let nova :=
      TarefaDTO.mk (@strip latin1 (titulo_esperado (lit "08:00") (lit "Estudar")))
        (valor_dia SEGUNDA) (lit "Fazer") (Some 2) [] prioridade (lit "agenda")
        None (Some (isoformat (mkdate 2024 1 1))) in
    let '(r, bd') :=
      @sincronizar_agenda_para_kanban latin1 (mkdate 2024 1 1) bd_duplicado in
    (r, bd')
    = @laco latin1 (mkdate 2024 1 1) SEGUNDA []
        (mais_criada (mkResultado 0 0 []),
         mkBD (tarefas bd_duplicado ++ [nova]) (agenda bd_duplicado) 2 3
              (falha bd_duplicado)) /\
    (exists resto, tarefas bd' = tarefas bd_duplicado ++ nova :: resto) /\
    criadas (mkResultado 0 0 []) + 1 <= criadas r.
Proof.
  apply (@verificacao_com_falha_cria_a_tarefa latin1 (mkdate 2024 1 1) SEGUNDA
           bd_duplicado [] [] (lit "08:00") (lit "Estudar") (mkResultado 0 0 [])
           (avancar bd_duplicado)); try reflexivity.
  vm_compute. split; [discriminate | reflexivity].
Defined.

Lemma sincronizacao_conta_cada_celula_witness :
  let r := fst (@sincronizar_agenda_para_kanban latin1 (mkdate 2024 1 1) bd_falha_ao_criar) in
  (falha bd_falha_ao_criar (relogio bd_falha_ao_criar) = false ->
   criadas r + ignoradas r + Z.of_nat (length (erros r))
   = Z.of_nat (length (@atividades_hoje latin1 (weekday (mkdate 2024 1 1))
                         (agenda bd_falha_ao_criar)))) /\
  (falha bd_falha_ao_criar (relogio bd_falha_ao_criar) = true ->
   @sincronizar_agenda_para_kanban latin1 (mkdate 2024 1 1) bd_falha_ao_criar
   = (mkResultado 0 0 [ErroNaSincronizacao ErroRepositorio], avancar bd_falha_ao_criar)).
Proof.
  apply (@sincronizacao_conta_cada_celula latin1 (mkdate 2024 1 1) bd_falha_ao_criar).
  vm_compute. reflexivity.
Defined.

Lemma criadas_conta_as_tarefas_novas_witness :
  let '(r, bd') := @sincronizar_agenda_para_kanban latin1 (mkdate 2024 1 1) bd_falha_ao_criar in
  Z.of_nat (length (tarefas bd')) = Z.of_nat (length (tarefas bd_falha_ao_criar)) + criadas r /\
  ultimo_id bd' = ultimo_id bd_falha_ao_criar + criadas r.
Proof.
  apply (@criadas_conta_as_tarefas_novas latin1 (mkdate 2024 1 1) bd_falha_ao_criar).
  vm_compute. discriminate.
Defined.

End SyncInvariants.

(* ================================================================== *)
(** * The evaluator on the whole calendar *)
(* ================================================================== *)

Module EvaluatorFacts.
Import Datetime Str Iso Re Dominio Persistencia Servicos Spec.
Import DatetimeFacts RecurrenceFacts.
#[local] Arguments Z.mul : simpl never.
#[local] Arguments Z.add : simpl never.
#[local] Arguments Z.sub : simpl never.

Lemma atividade_valida_total (hoje data_alvo : date) (periodicidade : str)
    (data_criacao : option date) :
  date_ok data_alvo = true ->
  date_ok (match data_criacao with Some c => c | None => hoje end) = true ->
  exists b,
    atividade_valida_para_data hoje data_alvo periodicidade data_criacao = Ok b.
Proof.
  intros Hd Hc. unfold atividade_valida_para_data. cbv zeta.
  set (c := match data_criacao with Some c => c | None => hoje end) in *.
  destruct (date_ltb data_alvo c) eqn:E; [eauto|].
  apply date_ltb_false in E; try assumption.
  destruct (primeira_ocorrencia_spec data_alvo c Hd Hc E) as (fo & Hfo & Hok & _).
  rewrite Hfo. cbn [bind].
  destruct (str_eqb periodicidade (lit "unica")); [eauto|].
  destruct (str_eqb periodicidade (lit "diaria")); [eauto|].
  destruct (str_eqb periodicidade (lit "semanal")); [eauto|].
  destruct (str_eqb periodicidade (lit "quinzenal")).
  { destruct (date_ltb data_alvo fo); eauto. }
  destruct (str_eqb periodicidade (lit "mensal")); [|eauto].
  destruct (date_ltb data_alvo fo); [eauto|].
  rewrite (semana_do_mes_spec fo Hok), (semana_do_mes_spec data_alvo Hd).
  cbn [bind]. eauto.
Qed.

(** X10: The evaluator never raises on dates of the calendar: no date it
    computes falls outside of it (no OverflowError), whatever the text of
    the periodicidade. *)
Theorem atividade_valida_nunca_falha (hoje data_alvo : date) (periodicidade : str)
    (data_criacao : option date) :
  date_ok data_alvo = true ->
  date_ok (match data_criacao with Some c => c | None => hoje end) = true ->
  exists b,
    atividade_valida_para_data hoje data_alvo periodicidade data_criacao = Ok b.
Proof. apply atividade_valida_total. Qed.

Lemma atividade_valida_nunca_falha_witness :
  exists b,
    atividade_valida_para_data (mkdate 2024 1 1) (mkdate 9999 12 31) (lit "mensal")
      (Some (mkdate 9999 12 25)) = Ok b.
Proof.
  exact (atividade_valida_nunca_falha (mkdate 2024 1 1) (mkdate 9999 12 31)
           (lit "mensal") (Some (mkdate 9999 12 25)) eq_refl eq_refl).
Defined.

(** X11: On its creation date an activity of any of the five kinds is due,
    a daily one on a day from Monday to Friday only. *)
Theorem valida_no_dia_da_criacao (hoje data_criacao : date) (p : Periodicidade) :
  date_ok data_criacao = true ->
  atividade_valida_para_data hoje data_criacao (codigo p) (Some data_criacao)
  = Ok (match p with DIARIA => weekday data_criacao <? 5 | _ => true end).
Proof.
  intros Hc. unfold atividade_valida_para_data. cbv zeta.
  assert (Hlt : date_ltb data_criacao data_criacao = false).
  { apply date_ltb_false; try assumption. lia. }
  assert (Hle : date_leb data_criacao data_criacao = true).
  { apply date_leb_spec; try assumption. lia. }
  assert (Heq : date_eqb data_criacao data_criacao = true).
  { apply date_eqb_spec; try assumption. reflexivity. }
  rewrite Hlt. unfold primeira_ocorrencia. cbv zeta.
  rewrite Z.sub_diag, Z.mod_0_l by lia. rewrite !Z.eqb_refl.
  cbn [andb bind].
  destruct p; cbn [codigo].
  - change (str_eqb (lit "unica") (lit "unica")) with true. cbv iota. now rewrite Heq.
  - change (str_eqb (lit "diaria") (lit "unica")) with false.
    change (str_eqb (lit "diaria") (lit "diaria")) with true. cbv iota. now rewrite Hle.
  - change (str_eqb (lit "semanal") (lit "unica")) with false.
    change (str_eqb (lit "semanal") (lit "diaria")) with false.
    change (str_eqb (lit "semanal") (lit "semanal")) with true. cbv iota. now rewrite Hle.
  - change (str_eqb (lit "quinzenal") (lit "unica")) with false.
    change (str_eqb (lit "quinzenal") (lit "diaria")) with false.
    change (str_eqb (lit "quinzenal") (lit "semanal")) with false.
    change (str_eqb (lit "quinzenal") (lit "quinzenal")) with true. cbv iota.
    rewrite Hlt. unfold date_sub. rewrite Z.sub_diag. reflexivity.
  - change (str_eqb (lit "mensal") (lit "unica")) with false.
    change (str_eqb (lit "mensal") (lit "diaria")) with false.
    change (str_eqb (lit "mensal") (lit "semanal")) with false.
    change (str_eqb (lit "mensal") (lit "quinzenal")) with false.
    change (str_eqb (lit "mensal") (lit "mensal")) with true. cbv iota.
    rewrite Hlt, (semana_do_mes_spec data_criacao Hc). cbn [bind].
    now rewrite Z.eqb_refl.
Qed.

Lemma valida_no_dia_da_criacao_witness :
  atividade_valida_para_data (mkdate 2024 1 1) (mkdate 2024 1 6) (codigo DIARIA)
    (Some (mkdate 2024 1 6)) = Ok false.
Proof.
  exact (valida_no_dia_da_criacao (mkdate 2024 1 1) (mkdate 2024 1 6) DIARIA eq_refl).
Defined.

End EvaluatorFacts.

(* ================================================================== *)
(** * Clean titles and time stamps *)
(* ================================================================== *)

Module TituloFacts.
Import Datetime Str Iso Re Dominio Persistencia Servicos Spec.
Import DatetimeFacts RecurrenceFacts ReFacts CodecFacts.
#[local] Arguments Nat.ltb : simpl never.
#[local] Arguments Nat.eqb : simpl never.
#[local] Arguments Nat.sub : simpl never.
#[local] Arguments atom_ok : simpl never.

Section Horario.
Context {U : Unicode}.

Lemma padrao_horario_eq :
  expr _PADRAO_HORARIO = Seq Bol (Seq (Star (Atom Space)) corpo_horario).
Proof. reflexivity. Qed.

Lemma m_corpo_horario {R} (K : cfg -> option R) c :
  m false corpo_horario K c
  = match carimbo (rest c) with
    | Some (g, r) =>
        m false (Star (Atom Space)) K (mkcfg (pos c + 7) r (Some g))
    | None => None
    end.
Proof.
  unfold corpo_horario. destruct c as [p s g0]. cbn [rest pos].
  rewrite m_seq, m_atom. cbn [rest].
  destruct s as [|x0 s]; [reflexivity|].
  change (atom_ok false (Chr 91%N) x0) with (N.eqb x0 91%N).
  destruct s as [|a s]; [cbn; now destruct (N.eqb x0 91%N)|].
  destruct s as [|b s].
  { cbn [carimbo]. destruct (N.eqb x0 91%N); [|reflexivity].
    rewrite m_seq, m_group, !m_seq, m_atom. cbn [step rest].
    change (atom_ok false Digit a) with (isdecimal a).
    destruct (isdecimal a); [|reflexivity]. now rewrite m_atom. }
  destruct s as [|x1 s].
  { cbn [carimbo]. destruct (N.eqb x0 91%N); [|reflexivity].
    rewrite m_seq, m_group, !m_seq, m_atom. cbn [step rest].
    change (atom_ok false Digit a) with (isdecimal a).
    destruct (isdecimal a); [|reflexivity]. rewrite m_atom. cbn [step rest].
    change (atom_ok false Digit b) with (isdecimal b).
    destruct (isdecimal b); [|reflexivity]. now rewrite m_seq, m_atom. }
  destruct s as [|c s].
  { cbn [carimbo]. destruct (N.eqb x0 91%N); [|reflexivity].
    rewrite m_seq, m_group, !m_seq, m_atom. cbn [step rest].
    change (atom_ok false Digit a) with (isdecimal a).
    destruct (isdecimal a); [|reflexivity]. rewrite m_atom. cbn [step rest].
    change (atom_ok false Digit b) with (isdecimal b).
    destruct (isdecimal b); [|reflexivity]. rewrite m_seq, m_atom. cbn [step rest].
    change (atom_ok false (Chr 58%N) x1) with (N.eqb x1 58%N).
    destruct (N.eqb x1 58%N); [|reflexivity]. now rewrite m_seq, m_atom. }
  destruct s as [|d s].
  { cbn [carimbo]. destruct (N.eqb x0 91%N); [|reflexivity].
    rewrite m_seq, m_group, !m_seq, m_atom. cbn [step rest].
    change (atom_ok false Digit a) with (isdecimal a).
    destruct (isdecimal a); [|reflexivity]. rewrite m_atom. cbn [step rest].
    change (atom_ok false Digit b) with (isdecimal b).
    destruct (isdecimal b); [|reflexivity]. rewrite m_seq, m_atom. cbn [step rest].
    change (atom_ok false (Chr 58%N) x1) with (N.eqb x1 58%N).
    destruct (N.eqb x1 58%N); [|reflexivity]. rewrite m_seq, m_atom. cbn [step rest].
    change (atom_ok false Digit c) with (isdecimal c).
    destruct (isdecimal c); [|reflexivity]. now rewrite m_atom. }
  destruct s as [|x2 s].
  { cbn [carimbo]. destruct (N.eqb x0 91%N); [|reflexivity].
    rewrite m_seq, m_group, !m_seq, m_atom. cbn [step rest].
    change (atom_ok false Digit a) with (isdecimal a).
    destruct (isdecimal a); [|reflexivity]. rewrite m_atom. cbn [step rest].
    change (atom_ok false Digit b) with (isdecimal b).
    destruct (isdecimal b); [|reflexivity]. rewrite m_seq, m_atom. cbn [step rest].
    change (atom_ok false (Chr 58%N) x1) with (N.eqb x1 58%N).
    destruct (N.eqb x1 58%N); [|reflexivity]. rewrite m_seq, m_atom. cbn [step rest].
    change (atom_ok false Digit c) with (isdecimal c).
    destruct (isdecimal c); [|reflexivity]. rewrite m_atom. cbn [step rest].
    change (atom_ok false Digit d) with (isdecimal d).
    destruct (isdecimal d); [|reflexivity]. now rewrite m_seq, m_atom. }
  cbn [carimbo]. destruct (N.eqb x0 91%N); [|reflexivity].
  rewrite m_seq, m_group, !m_seq, m_atom. cbn [step rest andb].
  change (atom_ok false Digit a) with (isdecimal a).
  destruct (isdecimal a); [|reflexivity]. rewrite m_atom. cbn [step rest andb].
  change (atom_ok false Digit b) with (isdecimal b).
  destruct (isdecimal b); [|reflexivity]. rewrite m_seq, m_atom. cbn [step rest andb].
  change (atom_ok false (Chr 58%N) x1) with (N.eqb x1 58%N).
  destruct (N.eqb x1 58%N); [|reflexivity]. rewrite m_seq, m_atom. cbn [step rest andb].
  change (atom_ok false Digit c) with (isdecimal c).
  destruct (isdecimal c); [|reflexivity]. rewrite m_atom. cbn [step rest andb].
  change (atom_ok false Digit d) with (isdecimal d).
  destruct (isdecimal d); [|reflexivity]. rewrite m_seq, m_atom.
  cbn [step rest andb capture pos grp].
  change (atom_ok false (Chr 93%N) x2) with (N.eqb x2 93%N).
  destruct (N.eqb x2 93%N); [|reflexivity].
  unfold step, capture. cbn [rest pos grp].
  replace (S (S (S (S (S (S p))))) - S p)%nat with 5%nat by lia.
  cbn [firstn]. replace (p + 7)%nat with (S (S (S (S (S (S (S p))))))) by lia.
  reflexivity.
Qed.

Lemma carimbo_inv s g r :
  carimbo s = Some (g, r) ->
  exists a b c d,
    s = 91%N :: a :: b :: 58%N :: c :: d :: 93%N :: r /\
    g = [a; b; 58%N; c; d] /\
    isdecimal a = true /\ isdecimal b = true /\
    isdecimal c = true /\ isdecimal d = true.
Proof.
  unfold carimbo.
  destruct s as [|x0 [|a [|b [|x1 [|c [|d [|x2 s]]]]]]]; try discriminate.
  destruct (N.eqb_spec x0 91%N) as [->|]; [|discriminate]. cbn [andb].
  destruct (isdecimal a) eqn:Ea; [|discriminate].
  destruct (isdecimal b) eqn:Eb; [|discriminate]. cbn [andb].
  destruct (N.eqb_spec x1 58%N) as [->|]; [|discriminate].
  destruct (isdecimal c) eqn:Ec; [|discriminate].
  destruct (isdecimal d) eqn:Ed; [|discriminate]. cbn [andb].
  destruct (N.eqb_spec x2 93%N) as [->|]; [|discriminate].
  intros H. injection H as <- <-. exists a, b, c, d. repeat split; assumption || reflexivity.
Qed.

Lemma carimbo_intro a b c d r :
  isdecimal a = true -> isdecimal b = true ->
  isdecimal c = true -> isdecimal d = true ->
  carimbo (91%N :: a :: b :: 58%N :: c :: d :: 93%N :: r)
  = Some ([a; b; 58%N; c; d], r).
Proof. intros Ha Hb Hc Hd. cbn. now rewrite Ha, Hb, Hc, Hd. Qed.

Lemma carimbo_blank x xs : isspace x = true -> carimbo (x :: xs) = None.
Proof.
  intros Hx. destruct (carimbo (x :: xs)) as [[g r]|] eqn:E; [|reflexivity].
  apply carimbo_inv in E. destruct E as (a & b & c & d & E & _).
  injection E as -> _. discriminate Hx.
Qed.

(** The match of [_PADRAO_HORARIO] at the start of a text. *)
Lemma match_horario s :
  match carimbo (lstrip s) with
  | Some (g, r) => exists mt, match_at _PADRAO_HORARIO 0 s = Some mt /\
                              group1 mt = Some g /\
                              skipn (m_end mt) s = lstrip r
  | None => match_at _PADRAO_HORARIO 0 s = None
  end.
Proof.
  unfold match_at. rewrite padrao_horario_eq.
  change (ignorecase _PADRAO_HORARIO) with false.
  set (K := fun c' : cfg => Some (mkmatch 0 (pos c') (grp c'))).
  rewrite m_seq, m_bol. cbn [pos]. change (Nat.eqb 0 0) with true. cbv iota.
  rewrite m_seq, m_star_atom. cbn [pos rest grp].
  rewrite star_atom_exact.
  2:{ intros p x xs g Hx. rewrite m_corpo_horario. cbn [rest].
      change (atom_ok false Space x) with (isspace x) in Hx.
      now rewrite (carimbo_blank x xs Hx). }
  set (c0 := run (atom_ok false Space) 0 s None).
  assert (Hc0 : ahead (mkcfg 0 s None) c0) by apply ahead_run.
  assert (Hr0 : rest c0 = lstrip s).
  { unfold c0. rewrite rest_run. symmetry. apply lstrip_drop_while. }
  rewrite m_corpo_horario, Hr0.
  destruct (carimbo (lstrip s)) as [[g r]|] eqn:Ec; [|reflexivity].
  rewrite m_star_atom. cbn [pos rest grp].
  set (c1 := run (atom_ok false Space) (pos c0 + 7) r (Some g)).
  exists (mkmatch 0 (pos c1) (grp c1)). split; [|split].
  - apply star_atom_greedy. reflexivity.
  - cbn [group1]. unfold c1. apply grp_run.
  - cbn [m_end].
    assert (Hall : ahead (mkcfg 0 s None) c1).
    { eapply ahead_trans; [exact Hc0|].
      eapply ahead_trans; [|apply ahead_run].
      apply carimbo_inv in Ec. destruct Ec as (a & b & c & d & E & _).
      exists [91%N; a; b; 58%N; c; d; 93%N]. cbn [rest pos length app].
      rewrite Hr0. split; [exact E | reflexivity]. }
    apply ahead_skipn in Hall. cbn [pos rest] in Hall.
    rewrite Nat.sub_0_r in Hall. rewrite Hall. unfold c1.
    rewrite rest_run. symmetry. apply lstrip_drop_while.
Qed.

(** What [_PADRAO_HORARIO.sub('', s)] leaves of [s]. *)
Lemma sub_horario s :
  sub_empty _PADRAO_HORARIO s
  = match carimbo (lstrip s) with
    | Some (_, r) => lstrip r
    | None => s
    end.
Proof.
  rewrite (sub_empty_bol _ _ s padrao_horario_eq).
  pose proof (match_horario s) as H.
  destruct (carimbo (lstrip s)) as [[g r]|].
  - destruct H as (mt & -> & _ & E). exact E.
  - now rewrite H.
Qed.

Lemma search_from_bol p r : expr p = Seq Bol r ->
  forall s i, i <> 0%nat -> search_from p i s = None.
Proof.
  intros Hp. induction s as [|x s IH]; intros i Hi; cbn [search_from];
    rewrite (match_at_bol_nonzero p r i _ Hp Hi); [reflexivity|].
  apply IH. lia.
Qed.

Lemma search_horario s :
  search _PADRAO_HORARIO s = match_at _PADRAO_HORARIO 0 s.
Proof.
  unfold search. destruct s as [|x s]; cbn [search_from].
  - now destruct (match_at _PADRAO_HORARIO 0 []).
  - destruct (match_at _PADRAO_HORARIO 0 (x :: s)); [reflexivity|].
    apply (search_from_bol _ _ padrao_horario_eq). lia.
Qed.

Lemma extrair_horario_eq texto :
  extrair_horario texto
  = match carimbo (lstrip texto) with
    | Some (g, _) => Some g
    | None => None
    end.
Proof.
  unfold extrair_horario. destruct texto as [|x xs]; [reflexivity|].
  rewrite search_horario. pose proof (match_horario (x :: xs)) as H.
  destruct (carimbo (lstrip (x :: xs))) as [[g r]|].
  - destruct H as (mt & -> & Hg & _). exact Hg.
  - now rewrite H.
Qed.

End Horario.

Section Brancos.
Context {U : Unicode}.

Lemma lstrip_nil_iff s : lstrip s = [] <-> forallb isspace s = true.
Proof.
  induction s as [|x s IH]; cbn; [tauto|].
  destruct (isspace x); cbn; [exact IH | split; discriminate].
Qed.

Lemma rstrip_nil_iff s : rstrip s = [] <-> forallb isspace s = true.
Proof.
  unfold rstrip. split.
  - intros H. apply (f_equal (@rev N)) in H. rewrite rev_involutive in H.
    cbn in H. apply lstrip_nil_iff in H.
    rewrite forallb_forall in *. intros x Hx. apply H. now apply -> in_rev.
  - intros H. assert (H' : lstrip (rev s) = []); [|now rewrite H'].
    apply lstrip_nil_iff. rewrite forallb_forall in *.
    intros x Hx. apply H. now apply in_rev.
Qed.

Lemma rstrip_cons x r :
  rstrip (x :: r)
  = if forallb isspace r then (if isspace x then [] else [x]) else x :: rstrip r.
Proof.
  unfold rstrip at 1. cbn [rev].
  destruct (forallb isspace r) eqn:E.
  - apply rstrip_nil_iff in E. unfold rstrip in E.
    apply (f_equal (@rev N)) in E. rewrite rev_involutive in E. cbn in E.
    rewrite lstrip_app_blank by exact E. cbn. now destruct (isspace x).
  - rewrite lstrip_app.
    + rewrite rev_app_distr. reflexivity.
    + intros H. apply lstrip_nil_iff in H.
      assert (forallb isspace r = true); [|congruence].
      rewrite forallb_forall in *. intros y Hy. apply H. now apply -> in_rev.
Qed.

Lemma lstrip_rstrip r : lstrip (rstrip r) = rstrip (lstrip r).
Proof.
  induction r as [|x r IH]; [reflexivity|].
  rewrite rstrip_cons. cbn [lstrip].
  destruct (isspace x) eqn:Ex.
  - destruct (forallb isspace r) eqn:E.
    + cbn. symmetry. apply rstrip_nil_iff.
      apply lstrip_nil_iff in E. now rewrite E.
    + cbn [lstrip]. rewrite Ex. exact IH.
  - rewrite rstrip_cons.
    destruct (forallb isspace r); cbn [lstrip]; rewrite Ex; reflexivity.
Qed.

Lemma rstrip_idem s : rstrip (rstrip s) = rstrip s.
Proof.
  unfold rstrip. rewrite rev_involutive. now rewrite lstrip_idem.
Qed.

Lemma strip_idem s : strip (strip s) = strip s.
Proof.
  unfold strip. now rewrite lstrip_rstrip, lstrip_idem, rstrip_idem.
Qed.

Lemma lstrip_strip s : lstrip (strip s) = strip s.
Proof. unfold strip. now rewrite lstrip_rstrip, lstrip_idem. Qed.

Lemma strip_lstrip s : strip (lstrip s) = strip s.
Proof. unfold strip. now rewrite lstrip_idem. Qed.

Lemma strip_rstrip s : strip (rstrip s) = strip s.
Proof. unfold strip. now rewrite lstrip_rstrip, rstrip_idem. Qed.

Lemma rstrip_prefix s : exists suf, s = rstrip s ++ suf.
Proof.
  unfold rstrip. destruct (lstrip_suffix (rev s)) as (pre & E).
  exists (rev pre). rewrite <- rev_app_distr, <- E. now rewrite rev_involutive.
Qed.

Lemma isdecimal_notclose x : isdecimal x = true -> notclose x = true.
Proof.
  unfold isdecimal, notclose. destruct (N.eqb_spec x 93%N) as [->|]; [|reflexivity].
  discriminate.
Qed.

(** Trailing blanks do not bear on the bracket groups a text begins
    with. *)
Lemma bracket_group_rstrip t :
  bracket_group (rstrip t)
  = match bracket_group t with
    | Some r => Some (rstrip r)
    | None => None
    end.
Proof.
  destruct (bracket_group t) as [r|] eqn:E.
  - destruct (bracket_group_inv t r E) as (body & Hne & Hb & ->).
    replace (91%N :: body ++ 93%N :: r) with (((91%N :: body) ++ [93%N]) ++ r)
      by (cbn; rewrite <- app_assoc; reflexivity).
    rewrite rstrip_after_nonblank by reflexivity.
    replace (((91%N :: body) ++ [93%N]) ++ rstrip r)
      with (91%N :: body ++ 93%N :: rstrip r)
      by (cbn; rewrite <- app_assoc; reflexivity).
    now apply bracket_group_intro.
  - destruct (bracket_group (rstrip t)) as [r'|] eqn:E'; [|reflexivity].
    destruct (bracket_group_inv _ r' E') as (body & Hne & Hb & Hr).
    destruct (rstrip_prefix t) as (suf & Ht). rewrite Hr in Ht.
    assert (bracket_group t = Some (r' ++ suf)); [|congruence].
    rewrite Ht. cbn [app]. rewrite <- app_assoc. cbn [app].
    now apply bracket_group_intro.
Qed.

Lemma strip_groups_rstrip : forall n t,
  strip_groups n (rstrip t) = rstrip (strip_groups n t).
Proof.
  induction n as [|n IH]; intros t; [reflexivity|].
  cbn [strip_groups]. rewrite bracket_group_rstrip.
  destruct (bracket_group t) as [r|]; [|reflexivity].
  rewrite lstrip_rstrip. apply IH.
Qed.

Lemma rstrip_length s : (length (rstrip s) <= length s)%nat.
Proof.
  unfold rstrip. rewrite length_rev.
  etransitivity; [apply lstrip_length|]. now rewrite length_rev.
Qed.

(** [sem_grupos] with any fuel that is enough. *)
Lemma sem_grupos_fuel n s :
  (length (lstrip s) <= n)%nat -> strip_groups n (lstrip s) = sem_grupos s.
Proof.
  intros H. unfold sem_grupos. apply strip_groups_fuel; [exact H | lia].
Qed.

Lemma strip_sem_metadados s : strip (sem_metadados s) = strip (sem_grupos s).
Proof.
  unfold sem_metadados, sem_grupos.
  destruct (bracket_group (lstrip s)) as [r|] eqn:E.
  - pose proof (bracket_group_shorter _ _ E) as Hl.
    pose proof (lstrip_length r) as Hr.
    destruct (length (lstrip s)) as [|n] eqn:En; [lia|].
    rewrite (strip_groups_fuel (S (length (lstrip r))) n (lstrip r)) by lia.
    cbn [strip_groups]. now rewrite E.
  - rewrite strip_groups_none by exact E. now rewrite strip_lstrip.
Qed.

Lemma sem_grupos_grupo body r :
  body <> [] -> forallb notclose body = true ->
  sem_grupos (91%N :: body ++ 93%N :: r) = sem_grupos r.
Proof.
  intros Hne Hb. unfold sem_grupos at 1.
  rewrite lstrip_head by reflexivity.
  cbn [length strip_groups]. rewrite (bracket_group_intro body r Hne Hb).
  apply sem_grupos_fuel. pose proof (lstrip_length r).
  rewrite length_app. cbn [length]. lia.
Qed.

Lemma sem_grupos_lstrip s : sem_grupos (lstrip s) = sem_grupos s.
Proof. unfold sem_grupos. now rewrite lstrip_idem. Qed.

Lemma sem_grupos_rstrip s : sem_grupos (rstrip s) = rstrip (sem_grupos s).
Proof.
  unfold sem_grupos. rewrite lstrip_rstrip.
  rewrite (strip_groups_fuel _ (length (lstrip s)) (rstrip (lstrip s)));
    [apply strip_groups_rstrip | lia | apply rstrip_length].
Qed.

Lemma sem_grupos_strip s : strip (sem_grupos (strip s)) = strip (sem_grupos s).
Proof.
  unfold strip at 2. rewrite sem_grupos_rstrip, sem_grupos_lstrip.
  apply strip_rstrip.
Qed.

(** The clean title is the text without the bracket groups it begins
    with, trimmed. *)
Lemma titulo_limpo_sem_grupos texto :
  extrair_titulo_limpo texto = strip (sem_grupos texto).
Proof.
  unfold extrair_titulo_limpo. destruct texto as [|x xs]; [reflexivity|].
  rewrite sub_metadados, strip_sem_metadados, sub_horario.
  destruct (carimbo (lstrip (x :: xs))) as [[g r]|] eqn:E; [|reflexivity].
  apply carimbo_inv in E. destruct E as (a & b & c & d & E & _ & Ha & Hb & Hc & Hd).
  rewrite sem_grupos_lstrip. rewrite <- (sem_grupos_lstrip (x :: xs)), E.
  change (91%N :: a :: b :: 58%N :: c :: d :: 93%N :: r)
    with (91%N :: [a; b; 58%N; c; d] ++ 93%N :: r).
  rewrite sem_grupos_grupo; [reflexivity | discriminate |].
  cbn [forallb].
  rewrite (isdecimal_notclose a Ha), (isdecimal_notclose b Hb),
    (isdecimal_notclose c Hc), (isdecimal_notclose d Hd).
  reflexivity.
Qed.

(** With enough fuel nothing is left to strip. *)
Lemma strip_groups_done : forall n t,
  (length t <= n)%nat -> lstrip t = t ->
  bracket_group (strip_groups n t) = None /\
  lstrip (strip_groups n t) = strip_groups n t.
Proof.
  induction n as [|n IH]; intros t Hl Ht.
  - destruct t; [split; reflexivity | cbn in Hl; lia].
  - cbn [strip_groups]. destruct (bracket_group t) as [r|] eqn:E.
    + apply IH; [|apply lstrip_idem].
      pose proof (bracket_group_shorter _ _ E). pose proof (lstrip_length r). lia.
    + split; assumption.
Qed.

Lemma sem_grupos_done s :
  bracket_group (sem_grupos s) = None /\ lstrip (sem_grupos s) = sem_grupos s.
Proof. unfold sem_grupos. apply strip_groups_done; [lia | apply lstrip_idem]. Qed.

Lemma sem_grupos_idem s : sem_grupos (sem_grupos s) = sem_grupos s.
Proof.
  destruct (sem_grupos_done s) as (Hb & Hl).
  unfold sem_grupos at 1. rewrite Hl. now apply strip_groups_none.
Qed.

Lemma sem_grupos_blank a : sem_grupos (32%N :: a) = sem_grupos a.
Proof. reflexivity. Qed.

Lemma titulo_limpo_idem texto :
  extrair_titulo_limpo (extrair_titulo_limpo texto) = extrair_titulo_limpo texto.
Proof.
  rewrite !titulo_limpo_sem_grupos. now rewrite sem_grupos_strip, sem_grupos_idem.
Qed.

End Brancos.

Section Titulos.
Context {U : Unicode}.

(** X12: The clean title is clean: extracting it again changes nothing, and
    blanks around the text do not matter.  The substitution of the time
    stamp never changes the result: the stamp is a bracket group, which
    the second substitution removes as well. *)
Theorem titulo_limpo_idempotente (texto : str) :
  extrair_titulo_limpo (extrair_titulo_limpo texto) = extrair_titulo_limpo texto /\
  extrair_titulo_limpo (strip texto) = extrair_titulo_limpo texto /\
  extrair_titulo_limpo texto = strip (sub_empty _PADRAO_METADADOS texto).
Proof.
  split; [apply titulo_limpo_idem|]. split.
  - rewrite !titulo_limpo_sem_grupos. apply sem_grupos_strip.
  - now rewrite titulo_limpo_sem_grupos, sub_metadados, strip_sem_metadados.
Qed.

(** X13: The title the board stores for a cell, the trimmed "[time] text",
    has the clean title of the text of the cell: the label of the row
    goes with the other bracket groups. *)
Theorem titulo_limpo_da_tarefa_da_celula (horario atividade : str) :
  horario <> [] -> ~ In 93%N horario ->
  extrair_titulo_limpo (strip (titulo_esperado horario atividade))
  = extrair_titulo_limpo atividade.
Proof.
  intros Hne Hin. rewrite !titulo_limpo_sem_grupos, sem_grupos_strip.
  change (titulo_esperado horario atividade)
    with (91%N :: horario ++ 93%N :: 32%N :: atividade).
  rewrite sem_grupos_grupo; [|exact Hne | now apply forallb_notclose].
  now rewrite sem_grupos_blank.
Qed.

(** X14: The time is read back from the title of the task of a cell whose
    row is labelled with two digits, a colon and two digits; the header
    of an encoded activity is not taken for a time. *)
Theorem horario_do_titulo_da_tarefa (a b c d : char) (atividade : str) :
  forallb isdecimal [a; b; c; d] = true ->
  let horario := [a; b; 58%N; c; d] in
  extrair_horario (strip (titulo_esperado horario atividade)) = Some horario /\
  forall hoje titulo p per dc,
    extrair_horario (formatar_atividade hoje titulo p per dc) = None.
Proof.
  intros H horario. cbn [forallb] in H.
  repeat match goal with H : _ && _ = true |- _ => apply andb_true_iff in H; destruct H end.
  split.
  - rewrite extrair_horario_eq, lstrip_strip. unfold strip.
    change (titulo_esperado horario atividade)
      with (91%N :: [a; b; 58%N; c; d] ++ 93%N :: 32%N :: atividade).
    rewrite lstrip_head by reflexivity.
    change (91%N :: [a; b; 58%N; c; d] ++ 93%N :: 32%N :: atividade)
      with (([91%N; a; b; 58%N; c; d] ++ [93%N]) ++ 32%N :: atividade).
    rewrite rstrip_after_nonblank by reflexivity.
    cbn [app]. now rewrite carimbo_intro.
  - intros hoje titulo p per dc. rewrite extrair_horario_eq, formatar_shape.
    rewrite lstrip_head by reflexivity.
    destruct (carimbo _) as [[g r]|] eqn:E; [|reflexivity].
    apply carimbo_inv in E. destruct E as (a' & b' & c' & d' & E & _ & Ha' & _).
    injection E as <- _. discriminate Ha'.
Qed.

End Titulos.

Lemma titulo_limpo_da_tarefa_da_celula_witness :
  @extrair_titulo_limpo latin1
    (@strip latin1 (titulo_esperado (lit "08:00") (lit "[P1][semanal][2024-01-01] Estudar ")))
  = @extrair_titulo_limpo latin1 (lit "[P1][semanal][2024-01-01] Estudar ").
Proof.
  apply (@titulo_limpo_da_tarefa_da_celula latin1 (lit "08:00")
           (lit "[P1][semanal][2024-01-01] Estudar ")).
  - discriminate.
  - vm_compute. intuition discriminate.
Defined.

Lemma horario_do_titulo_da_tarefa_witness :
  @extrair_horario latin1 (@strip latin1 (titulo_esperado (lit "08:30") (lit "Estudar ")))
  = Some (lit "08:30").
Proof.
  exact (proj1 (@horario_do_titulo_da_tarefa latin1 48%N 56%N 51%N 48%N (lit "Estudar ")
                  eq_refl)).
Defined.

End TituloFacts.

(* ================================================================== *)
(** * The periodicidade of a text *)
(* ================================================================== *)

Module PeriodicidadeFacts.
Import Datetime Str Iso Re Dominio Persistencia Servicos Spec.
Import DatetimeFacts RecurrenceFacts ReFacts CodecFacts TituloFacts.
#[local] Arguments Nat.ltb : simpl never.
#[local] Arguments Nat.eqb : simpl never.
#[local] Arguments Nat.sub : simpl never.
#[local] Arguments atom_ok : simpl never.

Section Palavras.
Context {U : Unicode}.

Lemma m_word_cons {R} ic x w (K : cfg -> option R) c :
  m ic (Word (x :: w)) K c = m ic (Atom (Chr x)) (m ic (Word w) K) c.
Proof. destruct w; reflexivity. Qed.

(** A word matches the characters it is made of, one by one. *)
Lemma m_word_inv {R} ic : forall w (K : cfg -> option R) c v,
  m ic (Word w) K c = Some v ->
  exists pre r,
    rest c = pre ++ r /\
    Forall2 (fun p x => chr_ok ic p x = true) w pre /\
    K (mkcfg (pos c + length w) r (grp c)) = Some v.
Proof.
  induction w as [|x w IH]; intros K c v H.
  - exists [], (rest c). cbn [app length]. split; [reflexivity|].
    split; [constructor|]. rewrite Nat.add_0_r. now destruct c.
  - rewrite m_word_cons, m_atom in H.
    destruct (rest c) as [|y ys] eqn:Er; [discriminate|].
    change (atom_ok ic (Chr x) y) with (chr_ok ic x y) in H.
    destruct (chr_ok ic x y) eqn:Ey; [|discriminate].
    apply IH in H. destruct H as (pre & r & E & Hall & Hk).
    unfold step in E, Hk. cbn [rest pos grp] in E, Hk.
    exists (y :: pre), r. cbn [app length]. rewrite E.
    split; [reflexivity|]. split; [now constructor|].
    now replace (pos c + S (length w))%nat with (S (pos c) + length w)%nat by lia.
Qed.

Lemma Forall2_length_eq {A B} (P : A -> B -> Prop) l1 l2 :
  Forall2 P l1 l2 -> length l1 = length l2.
Proof. induction 1; cbn; congruence. Qed.

Lemma padrao_periodicidade_eq :
  expr _PADRAO_PERIODICIDADE
  = Seq (Atom (Chr 91%N)) (Seq (Group palavras) (Atom (Chr 93%N))).
Proof. reflexivity. Qed.

Lemma m_palavras_inv {R} (K : cfg -> option R) c v :
  m true palavras K c = Some v ->
  exists per pre r,
    rest c = pre ++ r /\
    Forall2 (fun p x => chr_ok true p x = true) (codigo per) pre /\
    K (mkcfg (pos c + length pre) r (grp c)) = Some v.
Proof.
  unfold palavras. cbn [m].
  assert (Hw : forall per,
    m true (Word (codigo per)) K c = Some v ->
    exists per pre r,
      rest c = pre ++ r /\
      Forall2 (fun p x => chr_ok true p x = true) (codigo per) pre /\
      K (mkcfg (pos c + length pre) r (grp c)) = Some v).
  { intros per H. apply m_word_inv in H. destruct H as (pre & r & E & Hall & Hk).
    exists per, pre, r. rewrite <- (Forall2_length_eq _ _ _ Hall). auto. }
  change (Lit "unica") with (Word (codigo UNICA)).
  change (Lit "diaria") with (Word (codigo DIARIA)).
  change (Lit "semanal") with (Word (codigo SEMANAL)).
  change (Lit "quinzenal") with (Word (codigo QUINZENAL)).
  change (Lit "mensal") with (Word (codigo MENSAL)).
  destruct (m true (Word (codigo UNICA)) K c) eqn:E1.
  { intros H. injection H as ->. now apply (Hw UNICA). }
  destruct (m true (Word (codigo DIARIA)) K c) eqn:E2.
  { intros H. injection H as ->. now apply (Hw DIARIA). }
  destruct (m true (Word (codigo SEMANAL)) K c) eqn:E3.
  { intros H. injection H as ->. now apply (Hw SEMANAL). }
  destruct (m true (Word (codigo QUINZENAL)) K c) eqn:E4.
  { intros H. injection H as ->. now apply (Hw QUINZENAL). }
  apply (Hw MENSAL).
Qed.

(** A match of [_PADRAO_PERIODICIDADE]: group 1 spells one of the five
    codes, letter by letter, and is a piece of the subject. *)
Lemma match_periodicidade i s mt :
  match_at _PADRAO_PERIODICIDADE i s = Some mt ->
  exists per g,
    group1 mt = Some g /\
    Forall2 (fun p x => chr_ok true p x = true) (codigo per) g /\
    incl g s.
Proof.
  unfold match_at. rewrite padrao_periodicidade_eq.
  change (ignorecase _PADRAO_PERIODICIDADE) with true.
  rewrite m_seq, m_atom. cbn [rest].
  destruct s as [|x xs]; [discriminate|].
  destruct (atom_ok true (Chr 91%N) x); [|discriminate].
  rewrite m_seq, m_group. intros H.
  apply m_palavras_inv in H. destruct H as (per & pre & r & E & Hall & Hk).
  unfold step in E, Hk. cbn [rest pos grp] in E, Hk.
  rewrite m_atom in Hk. unfold capture in Hk. cbn [rest pos grp] in Hk.
  destruct r as [|y ys]; [discriminate|].
  destruct (atom_ok true (Chr 93%N) y); [|discriminate].
  injection Hk as <-. unfold step. cbn [group1 grp pos rest].
  exists per, pre. split; [|split; [exact Hall|]].
  - f_equal. unfold step. cbn [pos rest].
    replace (S (i + length pre) - S i)%nat with (length pre) by lia.
    rewrite E. now rewrite firstn_app, Nat.sub_diag, firstn_all, app_nil_r.
  - intros z Hz. right. rewrite E. apply in_or_app. now left.
Qed.

Lemma search_periodicidade_inv : forall s i mt,
  search_from _PADRAO_PERIODICIDADE i s = Some mt ->
  exists per g,
    group1 mt = Some g /\
    Forall2 (fun p x => chr_ok true p x = true) (codigo per) g /\
    incl g s.
Proof.
  induction s as [|x s IH]; intros i mt H; cbn [search_from] in H.
  - destruct (match_at _PADRAO_PERIODICIDADE i []) eqn:E; [|discriminate].
    injection H as ->. now apply match_periodicidade in E.
  - destruct (match_at _PADRAO_PERIODICIDADE i (x :: s)) eqn:E.
    + injection H as ->. now apply match_periodicidade in E.
    + apply IH in H. destruct H as (per & g & Hg & Hall & Hin).
      exists per, g. split; [exact Hg|]. split; [exact Hall|].
      intros z Hz. right. now apply Hin.
Qed.

Lemma codigo_minusculo per : forallb minuscula (codigo per) = true.
Proof. destruct per; reflexivity. Qed.

(** Without regard to case, an ASCII text that spells a lower-case word
    is that word once lowered. *)
Lemma lower_da_palavra : forall w g,
  forallb minuscula w = true ->
  forallb is_ascii g = true ->
  Forall2 (fun p x => chr_ok true p x = true) w g ->
  map ascii_lower g = w.
Proof.
  intros w g Hw Hg Hall. induction Hall as [|p x w g Hpx Hall IH]; [reflexivity|].
  cbn [forallb] in Hw, Hg. apply andb_true_iff in Hw, Hg.
  destruct Hw as (Hp & Hw), Hg as (Hx & Hg).
  cbn [map]. rewrite (IH Hw Hg). f_equal.
  unfold minuscula in Hp. apply andb_true_iff in Hp. destruct Hp as (Ha & Hl).
  unfold chr_ok in Hpx. rewrite Ha, Hx in Hpx. cbn [andb] in Hpx.
  apply N.eqb_eq in Hpx, Hl. congruence.
Qed.

Lemma from_codigo_codigo per : from_codigo (codigo per) = per.
Proof. now destruct per. Qed.

Lemma periodicidade_ascii texto :
  forallb is_ascii texto = true ->
  exists per, extrair_periodicidade texto = Ok (codigo per).
Proof.
  intros Ha. unfold extrair_periodicidade. destruct texto as [|x s].
  - now exists SEMANAL.
  - destruct (search _PADRAO_PERIODICIDADE (x :: s)) as [mt|] eqn:E;
      [|now exists SEMANAL].
    apply search_periodicidade_inv in E. destruct E as (per & g & Hg & Hall & Hin).
    exists per. unfold group1_or. rewrite Hg. cbn [bind]. f_equal.
    assert (Hga : forallb is_ascii g = true).
    { rewrite forallb_forall in *. intros z Hz. apply Ha. now apply Hin. }
    unfold lower. rewrite Hga.
    apply lower_da_palavra; [apply codigo_minusculo | exact Hga | exact Hall].
Qed.

Lemma fromisoformat_ok g d : fromisoformat g = Ok d -> date_ok d = true.
Proof.
  unfold fromisoformat.
  destruct g as [|y1 [|y2 [|y3 [|y4 [|h1 [|m1 [|m2 [|h2 [|d1 [|d2 [|z g]]]]]]]]]]];
    try discriminate.
  destruct (_ && _); [|discriminate]. unfold new_date. cbv zeta.
  destruct (date_ok _) eqn:E; [|discriminate]. intros H. now injection H as <-.
Qed.

End Palavras.

Section Teoremas.
Context {U : Unicode}.

(** X15: From an ASCII text [extrair_periodicidade] returns one of the five
    codes, in lower case, whatever the case of the text; [from_codigo]
    then gives the member that has the code and not its default. *)
Theorem periodicidade_de_texto_ascii (texto : str) :
  forallb is_ascii texto = true ->
  exists per,
    extrair_periodicidade texto = Ok (codigo per) /\
    from_codigo (codigo per) = per.
Proof.
  intros Ha. destruct (periodicidade_ascii texto Ha) as (per & H).
  exists per. split; [exact H | apply from_codigo_codigo].
Qed.

(** X16: Decoding an ASCII text, writing the result with
    [para_texto_formatado] and decoding that gives the title, the
    priority and the periodicidade of the first decoding, and its date,
    or today where the text had none. *)
Theorem reescrita_estavel (hoje : date) (texto : str) :
  forallb is_ascii texto = true -> date_ok hoje = true ->
  exists md,
    extrair_metadados texto = Ok md /\
    extrair_metadados (para_texto_formatado hoje md)
    = Ok (mkMetadados (titulo md) (prioridade md) (periodicidade md)
            (Some (match data_criacao md with Some d => d | None => hoje end))).
Proof.
  intros Ha Hh.
  destruct (extrair_prioridade_total texto) as (p & Hp & Hr & _).
  destruct (periodicidade_ascii texto Ha) as (per & Hper).
  pose proof (extrair_data_criacao_total texto) as Hd.
  exists (mkMetadados (extrair_titulo_limpo texto) p (codigo per) (data_do_texto texto)).
  split.
  { unfold extrair_metadados. cbv zeta. rewrite Hp, Hper, Hd. reflexivity. }
  cbn [titulo prioridade periodicidade data_criacao].
  set (d := match data_do_texto texto with Some d => d | None => hoje end).
  assert (Hok : date_ok d = true).
  { unfold d, data_do_texto.
    destruct (search _PADRAO_DATA texto) as [mt|]; [|exact Hh].
    destruct (group1 mt) as [g|]; [|exact Hh].
    destruct (fromisoformat g) as [d'|] eqn:E; [|exact Hh].
    now apply fromisoformat_ok in E. }
  replace (para_texto_formatado hoje
             (mkMetadados (extrair_titulo_limpo texto) p (codigo per)
                (data_do_texto texto)))
    with (formatar_atividade hoje (extrair_titulo_limpo texto) p (codigo per) (Some d)).
  2:{ unfold para_texto_formatado, formatar_atividade, d.
      cbn [titulo prioridade periodicidade data_criacao].
      now destruct (data_do_texto texto). }
  pose proof (metadados_do_formatado hoje (extrair_titulo_limpo texto) p per d Hr Hok) as H.
  cbv zeta in H. rewrite H. f_equal. f_equal.
  rewrite titulo_limpo_do_formatado by assumption.
  fold (sem_grupos (extrair_titulo_limpo texto)).
  rewrite <- titulo_limpo_sem_grupos.
  apply (titulo_limpo_idem texto).
Qed.

End Teoremas.

Lemma periodicidade_de_texto_ascii_witness :
  exists per,
    @extrair_periodicidade latin1 (lit "[P1][QUINZENAL] Feira") = Ok (codigo per) /\
    from_codigo (codigo per) = per.
Proof.
  exact (@periodicidade_de_texto_ascii latin1 (lit "[P1][QUINZENAL] Feira") eq_refl).
Defined.

Lemma reescrita_estavel_witness :
  exists md,
    @extrair_metadados latin1 (lit "[08:00] [p2][Diaria] [x] Ler ") = Ok md /\
    @extrair_metadados latin1 (para_texto_formatado (mkdate 2024 1 1) md)
    = Ok (mkMetadados (titulo md) (prioridade md) (periodicidade md)
            (Some (match data_criacao md with
                   | Some d => d
                   | None => mkdate 2024 1 1
                   end))).
Proof.
  exact (@reescrita_estavel latin1 (mkdate 2024 1 1)
           (lit "[08:00] [p2][Diaria] [x] Ler ") eq_refl eq_refl).
Defined.

End PeriodicidadeFacts.

(* ================================================================== *)
(** * The board *)
(* ================================================================== *)

Module QuadroFacts.
Import Datetime Str Iso Re Dominio Persistencia Servicos Spec.
Import DatetimeFacts RecurrenceFacts ReFacts CodecFacts SyncFacts SyncInvariants.

Lemma valor_dia_inj d1 d2 : valor_dia d1 = valor_dia d2 -> d1 = d2.
Proof. destruct d1, d2; intros H; try reflexivity; discriminate H. Qed.

Lemma valor_status_inj s1 s2 : valor_status s1 = valor_status s2 -> s1 = s2.
Proof. destruct s1, s2; intros H; try reflexivity; discriminate H. Qed.

Lemma str_eqb_refl s : str_eqb s s = true.
Proof. now apply str_eqb_eq. Qed.

Lemma do_dia_iff dia t : do_dia dia t = true <-> TarefaDTO.dia t = valor_dia dia.
Proof. unfold do_dia. apply str_eqb_eq. Qed.

Lemma id_igual_iff i t : id_igual i t = true <-> TarefaDTO.id t = Some i.
Proof.
  unfold id_igual. destruct (TarefaDTO.id t) as [j|].
  - rewrite Z.eqb_eq. split; congruence.
  - split; discriminate.
Qed.

(** ** ORDER BY prioridade ASC *)

Lemma inserir_ordenado_perm x l : Permutation (inserir_ordenado x l) (x :: l).
Proof.
  induction l as [|y l IH]; cbn; [reflexivity|].
  destruct (TarefaDTO.prioridade x <=? TarefaDTO.prioridade y); [reflexivity|].
  rewrite IH. apply perm_swap.
Qed.

Lemma ordenar_perm l : Permutation (ordenar_por_prioridade l) l.
Proof.
  induction l as [|x l IH]; cbn; [reflexivity|].
  unfold ordenar_por_prioridade in *. cbn [fold_right].
  rewrite inserir_ordenado_perm. now constructor.
Qed.

Lemma inserir_ordenado_sorted x l :
  StronglySorted por_prioridade l ->
  StronglySorted por_prioridade (inserir_ordenado x l).
Proof.
  induction 1 as [|y l Hs IH Hall]; cbn.
  - repeat constructor.
  - destruct (TarefaDTO.prioridade x <=? TarefaDTO.prioridade y) eqn:E.
    + apply Z.leb_le in E. constructor; [now constructor|].
      constructor; [exact E|].
      eapply Forall_impl; [|exact Hall]. unfold por_prioridade. intros; lia.
    + apply Z.leb_gt in E. constructor; [exact IH|].
      eapply Permutation_Forall; [symmetry; apply inserir_ordenado_perm|].
      constructor; [unfold por_prioridade; lia | exact Hall].
Qed.

Lemma ordenar_sorted l : StronglySorted por_prioridade (ordenar_por_prioridade l).
Proof.
  induction l as [|x l IH]; [constructor|].
  unfold ordenar_por_prioridade in *. cbn [fold_right].
  now apply inserir_ordenado_sorted.
Qed.

(** The rows of one priority come in the order of the scan. *)
Lemma inserir_ordenado_estavel p x l :
  filter (fun t => TarefaDTO.prioridade t =? p) (inserir_ordenado x l)
  = filter (fun t => TarefaDTO.prioridade t =? p) (x :: l).
Proof.
  induction l as [|y l IH]; [reflexivity|]. cbn [inserir_ordenado].
  destruct (TarefaDTO.prioridade x <=? TarefaDTO.prioridade y) eqn:E; [reflexivity|].
  apply Z.leb_gt in E. cbn [filter] in *. rewrite IH.
  destruct (TarefaDTO.prioridade x =? p) eqn:Ex; [|reflexivity].
  apply Z.eqb_eq in Ex.
  replace (TarefaDTO.prioridade y =? p) with false; [reflexivity|].
  symmetry. apply Z.eqb_neq. lia.
Qed.

Lemma ordenar_estavel p l :
  filter (fun t => TarefaDTO.prioridade t =? p) (ordenar_por_prioridade l)
  = filter (fun t => TarefaDTO.prioridade t =? p) l.
Proof.
  induction l as [|x l IH]; [reflexivity|].
  unfold ordenar_por_prioridade in *. cbn [fold_right].
  rewrite inserir_ordenado_estavel. cbn [filter]. now rewrite IH.
Qed.

(** The listing of a day: what is read, and that nothing is written. *)
Lemma obter_tarefas_do_dia_eq dia bd :
  obter_tarefas_do_dia dia bd
  = (if falha bd (relogio bd) then []
     else ordenar_por_prioridade (filter (do_dia dia) (tarefas bd)),
     avancar bd).
Proof.
  unfold obter_tarefas_do_dia, obter_por_dia, com_conexao.
  now destruct (falha bd (relogio bd)).
Qed.

Lemma In_obter_tarefas_do_dia dia bd t :
  falha bd (relogio bd) = false ->
  In t (fst (obter_tarefas_do_dia dia bd)) <->
  In t (tarefas bd) /\ TarefaDTO.dia t = valor_dia dia.
Proof.
  intros Hf. rewrite obter_tarefas_do_dia_eq, Hf. cbn [fst].
  rewrite In_ordenar_por_prioridade, filter_In, do_dia_iff. reflexivity.
Qed.

(** X17: [obter_tarefas_do_dia] lists the tasks of the day, each once, in
    ascending order of priority, and writes nothing; when the store
    fails it lists nothing. *)
Theorem tarefas_do_dia_por_prioridade (dia : DiaDaSemana) (bd : BD) :
  let '(lista, bd') := obter_tarefas_do_dia dia bd in
  bd' = avancar bd /\
  if falha bd (relogio bd) then lista = []
  else Permutation lista
         (filter (fun t => str_eqb (TarefaDTO.dia t) (valor_dia dia)) (tarefas bd)) /\
       StronglySorted (fun a b => TarefaDTO.prioridade a <= TarefaDTO.prioridade b)
         lista.
Proof.
  rewrite obter_tarefas_do_dia_eq. split; [reflexivity|].
  destruct (falha bd (relogio bd)); [reflexivity|].
  split; [apply ordenar_perm | apply ordenar_sorted].
Qed.

(** ** The operations, connection by connection *)

Section Operacoes.
Context {U : Unicode}.

Lemma strip_nil : strip [] = [].
Proof. reflexivity. Qed.

Lemma criar_tarefa_eq hoje titulo dia status prioridade origem aid bd :
  strip titulo <> [] ->
  criar_tarefa hoje titulo dia status prioridade origem aid bd
  = if falha bd (relogio bd) then (None, avancar bd)
    else if sqlite_int prioridade && sqlite_int_opcional aid
            && (ultimo_id bd <? _SQLITE_INT_MAX)
    then (Some (ultimo_id bd + 1),
          mkBD (tarefas bd ++
                [TarefaDTO.mk (strip titulo) (valor_dia dia) (valor_status status)
                   (Some (ultimo_id bd + 1)) [] prioridade origem aid
                   (Some (isoformat hoje))])
               (agenda bd) (ultimo_id bd + 1) (S (relogio bd)) (falha bd))
    else (None, avancar bd).
Proof.
  intros Hne. unfold criar_tarefa.
  destruct titulo as [|t0 ts]; [now rewrite strip_nil in Hne|].
  destruct (strip (t0 :: ts)) as [|s0 ss] eqn:Es; [congruence|].
  unfold adicionar, com_conexao.
  destruct (falha bd (relogio bd)); [reflexivity|].
  cbn [avancar tarefas agenda ultimo_id relogio falha TarefaDTO.titulo TarefaDTO.dia
       TarefaDTO.status TarefaDTO.horario TarefaDTO.prioridade TarefaDTO.origem
       TarefaDTO.atividade_origem_id TarefaDTO.data_criacao].
  unfold vincular_int. destruct (sqlite_int prioridade); [|reflexivity].
  cbn [bind andb].
  assert (Haid : vincular_int_opcional aid
                 = if sqlite_int_opcional aid then Ok aid else Raise OverflowError).
  { destruct aid as [i|]; [|reflexivity]. cbn. unfold vincular_int.
    now destruct (sqlite_int i). }
  rewrite Haid. destruct (sqlite_int_opcional aid); [|reflexivity].
  cbn [bind andb].
  destruct (ultimo_id bd <? _SQLITE_INT_MAX); [|reflexivity].
  now rewrite texto_ou_same.
Qed.


Lemma criar_tarefa_em_branco hoje titulo dia status prioridade origem aid bd :
  strip titulo = [] ->
  criar_tarefa hoje titulo dia status prioridade origem aid bd = (None, bd).
Proof.
  intros He. unfold criar_tarefa. destruct titulo as [|t0 ts]; [reflexivity|].
  now rewrite He.
Qed.

Lemma criar_tarefa_snd hoje titulo dia status prioridade origem aid bd :
  let bd' := snd (criar_tarefa hoje titulo dia status prioridade origem aid bd) in
  (tarefas bd' = tarefas bd /\ ultimo_id bd' = ultimo_id bd) \/
  (exists t, tarefas bd' = tarefas bd ++ [t] /\
             TarefaDTO.id t = Some (ultimo_id bd + 1) /\
             ultimo_id bd' = ultimo_id bd + 1).
Proof.
  cbv zeta. destruct (strip titulo) as [|s0 ss] eqn:Es.
  - rewrite criar_tarefa_em_branco by exact Es. now left.
  - rewrite criar_tarefa_eq by congruence.
    destruct (falha bd (relogio bd)); [now left|].
    destruct (_ && _); [|now left].
    right. eexists. cbn [snd tarefas ultimo_id]. repeat split.
Qed.

End Operacoes.

Lemma mover_tarefa_eq i dia status bd :
  mover_tarefa i dia status bd
  = if falha bd (relogio bd) then (false, avancar bd)
    else if sqlite_int i then
      (true,
       mkBD (map (fun t => if id_igual i t then movida t dia status else t)
                 (tarefas bd))
            (agenda bd) (ultimo_id bd) (S (relogio bd)) (falha bd))
    else (false, avancar bd).
Proof.
  unfold mover_tarefa, atualizar_status, com_conexao, vincular_int.
  destruct (falha bd (relogio bd)); [reflexivity|].
  now destruct (sqlite_int i).
Qed.

Lemma deletar_tarefa_eq i bd :
  deletar_tarefa i bd
  = if falha bd (relogio bd) then (false, avancar bd)
    else if sqlite_int i then
      (true,
       mkBD (filter (fun t => negb (id_igual i t)) (tarefas bd))
            (agenda bd) (ultimo_id bd) (S (relogio bd)) (falha bd))
    else (false, avancar bd).
Proof.
  unfold deletar_tarefa, deletar, com_conexao, vincular_int.
  destruct (falha bd (relogio bd)); [reflexivity|].
  now destruct (sqlite_int i).
Qed.

(** ** The ids *)

Lemma ids_validos_ext bd bd' :
  tarefas bd' = tarefas bd -> ultimo_id bd' = ultimo_id bd ->
  ids_validos bd -> ids_validos bd'.
Proof. unfold ids_validos. intros -> ->. auto. Qed.

Lemma ids_validos_avancar bd : ids_validos bd -> ids_validos (avancar bd).
Proof. now apply ids_validos_ext. Qed.

Lemma id_abaixo bd t i :
  ids_validos bd -> In t (tarefas bd) -> TarefaDTO.id t = Some i ->
  0 < i <= ultimo_id bd.
Proof.
  intros (_ & _ & Hall) Hin Hi. rewrite Forall_forall in Hall.
  destruct (Hall t Hin) as (j & Hj & Hr). congruence.
Qed.

Lemma ids_validos_append bd bd' t :
  tarefas bd' = tarefas bd ++ [t] ->
  TarefaDTO.id t = Some (ultimo_id bd + 1) ->
  ultimo_id bd' = ultimo_id bd + 1 ->
  ids_validos bd -> ids_validos bd'.
Proof.
  intros Ht Hi Hu Hv. pose proof Hv as (H0 & Hnd & Hall).
  unfold ids_validos. rewrite Ht, Hu. split; [lia|]. split.
  - rewrite map_app. cbn [map]. apply NoDup_app; [exact Hnd | repeat constructor; auto |].
    intros o Ho [Ho'|[]]. subst o. rewrite Hi in Ho. apply in_map_iff in Ho.
    destruct Ho as (t' & Ht' & Hin).
    pose proof (id_abaixo bd t' _ Hv Hin Ht'). lia.
  - apply Forall_app. split.
    + eapply Forall_impl; [|exact Hall]. intros t' (j & Hj & Hr).
      exists j. split; [exact Hj | lia].
    + constructor; [|constructor]. exists (ultimo_id bd + 1). split; [exact Hi | lia].
Qed.

Lemma ids_validos_map bd bd' (f : TarefaDTO.t -> TarefaDTO.t) :
  (forall t, TarefaDTO.id (f t) = TarefaDTO.id t) ->
  tarefas bd' = map f (tarefas bd) -> ultimo_id bd' = ultimo_id bd ->
  ids_validos bd -> ids_validos bd'.
Proof.
  intros Hf Ht Hu (H0 & Hnd & Hall). unfold ids_validos. rewrite Ht, Hu.
  split; [exact H0|]. split.
  - rewrite map_map. erewrite map_ext; [exact Hnd | exact Hf].
  - rewrite Forall_map. eapply Forall_impl; [|exact Hall].
    intros t (j & Hj & Hr). exists j. now rewrite Hf.
Qed.

Lemma NoDup_map_filter {A B} (f : A -> B) (p : A -> bool) l :
  NoDup (map f l) -> NoDup (map f (filter p l)).
Proof.
  induction l as [|x l IH]; cbn; [auto|]. intros H. inversion H as [|? ? Hn Hd]; subst.
  destruct (p x); cbn; [|auto]. constructor; [|auto].
  intros Hin. apply Hn. apply in_map_iff in Hin. destruct Hin as (y & <- & Hy).
  apply filter_In in Hy. apply in_map. tauto.
Qed.

Lemma ids_validos_filter bd bd' (p : TarefaDTO.t -> bool) :
  tarefas bd' = filter p (tarefas bd) -> ultimo_id bd' = ultimo_id bd ->
  ids_validos bd -> ids_validos bd'.
Proof.
  intros Ht Hu (H0 & Hnd & Hall). unfold ids_validos. rewrite Ht, Hu.
  split; [exact H0|]. split; [now apply NoDup_map_filter|].
  rewrite Forall_forall in *. intros t Hin. apply filter_In in Hin. apply Hall, Hin.
Qed.

Lemma id_movida t dia status i :
  TarefaDTO.id (if id_igual i t then movida t dia status else t) = TarefaDTO.id t.
Proof. now destruct (id_igual i t). Qed.

Section Invariante.
Context {U : Unicode}.

Lemma laco_ids hoje dia : forall itens r bd r' bd',
  laco hoje dia itens (r, bd) = (r', bd') -> ids_validos bd -> ids_validos bd'.
Proof.
  induction itens as [|[h a] itens IH]; intros r bd r' bd' H Hv.
  - cbn in H. now injection H as <- <-.
  - unfold laco in H. cbn [fold_left] in H.
    destruct (processar_atividade hoje dia (isoformat hoje) (h, a) (r, bd))
      as [r1 bd1] eqn:E1.
    fold (laco hoje dia itens (r1, bd1)) in H.
    apply passo_geral in E1. destruct E1 as (_ & _ & _ & Hstep).
    apply (IH _ _ _ _ H).
    destruct Hstep as [(Ht & Hi & _) | (t & Ht & _ & Hid & Hi & _)].
    + now apply (ids_validos_ext bd).
    + now apply (ids_validos_append bd bd1 t).
Qed.

Lemma sincronizar_ids hoje bd :
  ids_validos bd -> ids_validos (snd (sincronizar_agenda_para_kanban hoje bd)).
Proof.
  intros Hv. unfold sincronizar_agenda_para_kanban. cbv zeta.
  destruct (obter_dia_semana_atual hoje) as [dia|]; [|exact Hv].
  destruct (_obter_indice_dia dia) as [idx|]; [|exact Hv].
  unfold carregar_dados_horarios, com_conexao.
  destruct (falha bd (relogio bd)); [now apply ids_validos_avancar|].
  cbv beta iota zeta.
  change (fold_left _ ?l ?st) with (laco hoje dia l st).
  destruct (laco hoje dia _ _) as [r' bd'] eqn:E. cbn [snd].
  apply laco_ids in E; [exact E | now apply ids_validos_avancar].
Qed.

(** X18: The ids of the board stay valid: every task keeps its id, a new
    task gets an id above every id ever given, and no id is given twice,
    through creating, moving and deleting tasks and through a run of the
    synchronisation, whatever fails. *)
Theorem ids_validos_preservado (hoje : date) (bd : BD) :
  ids_validos bd ->
  (forall titulo dia status prioridade origem aid,
     ids_validos (snd (criar_tarefa hoje titulo dia status prioridade origem aid bd))) /\
  (forall i dia status, ids_validos (snd (mover_tarefa i dia status bd))) /\
  (forall i, ids_validos (snd (deletar_tarefa i bd))) /\
  ids_validos (snd (sincronizar_agenda_para_kanban hoje bd)).
Proof.
  intros Hv. split; [|split; [|split]].
  - intros titulo dia status prioridade origem aid.
    destruct (criar_tarefa_snd hoje titulo dia status prioridade origem aid bd)
      as [(Ht & Hi) | (t & Ht & Hid & Hi)].
    + now apply (ids_validos_ext bd).
    + now apply (ids_validos_append bd _ t).
  - intros i dia status. rewrite mover_tarefa_eq.
    destruct (falha bd (relogio bd)); cbn [snd]; [now apply ids_validos_avancar|].
    destruct (sqlite_int i); cbn [snd]; [|now apply ids_validos_avancar].
    eapply (ids_validos_map bd); [|reflexivity | reflexivity | exact Hv].
    intros t. apply id_movida.
  - intros i. rewrite deletar_tarefa_eq.
    destruct (falha bd (relogio bd)); cbn [snd]; [now apply ids_validos_avancar|].
    destruct (sqlite_int i); cbn [snd]; [|now apply ids_validos_avancar].
    eapply (ids_validos_filter bd); [reflexivity | reflexivity | exact Hv].
  - now apply sincronizar_ids.
Qed.

End Invariante.

Section Quadro.
Context {U : Unicode}.

(** X19: A task that was created is listed under its day, and under no
    other, with its trimmed title, the status, priority and origin it
    was given, today's date and a new id; the lists are otherwise as
    they were.  The priority and the id of the activity are integers
    SQLite can hold, and the store has an id left to give. *)
Theorem tarefa_criada_aparece_no_dia (hoje : date) (titulo : str)
    (dia : DiaDaSemana) (status : StatusTarefa) (prioridade : Z) (origem : str)
    (aid : option Z) (bd : BD) :
  strip titulo <> [] ->
  sqlite_int prioridade = true ->
  (forall i, aid = Some i -> sqlite_int i = true) ->
  falha bd (relogio bd) = false -> falha bd (S (relogio bd)) = false ->
  ids_validos bd -> ultimo_id bd < _SQLITE_INT_MAX ->
  let '(r, bd1) := criar_tarefa hoje titulo dia status prioridade origem aid bd in
  let nova :=
    TarefaDTO.mk (strip titulo) (valor_dia dia) (valor_status status)
      (Some (ultimo_id bd + 1)) [] prioridade origem aid (Some (isoformat hoje)) in
  r = Some (ultimo_id bd + 1) /\
  (forall t, In t (tarefas bd) -> TarefaDTO.id t <> Some (ultimo_id bd + 1)) /\
  forall dia' t,
    In t (fst (obter_tarefas_do_dia dia' bd1)) <->
    (t = nova /\ dia' = dia) \/
    (In t (tarefas bd) /\ TarefaDTO.dia t = valor_dia dia').
Proof.
  intros Hne Hp Ha Hf1 Hf2 Hv Hmax. rewrite criar_tarefa_eq by exact Hne.
  rewrite Hf1, Hp.
  replace (sqlite_int_opcional aid) with true
    by (destruct aid as [i|]; [symmetry; now apply Ha | reflexivity]).
  replace (ultimo_id bd <? _SQLITE_INT_MAX) with true
    by (symmetry; now apply Z.ltb_lt).
  cbv zeta. cbn [andb]. split; [reflexivity|]. split.
  - intros t Hin Hid. pose proof (id_abaixo bd t _ Hv Hin Hid). lia.
  - intros dia' t. rewrite In_obter_tarefas_do_dia by exact Hf2.
    cbn [tarefas]. rewrite in_app_iff. cbn [In]. split.
    + intros ([Hin|[<-|[]]] & Hd); [right; auto|]. left. split; [reflexivity|].
      cbn [TarefaDTO.dia] in Hd. symmetry. now apply valor_dia_inj.
    + intros [(-> & ->) | (Hin & Hd)]; [|auto]. split; [|reflexivity]. right. now left.
Qed.

(** X20: For an id SQLite can hold, [mover_tarefa] answers [True] whether
    or not a task has the id; the task that has it is then listed under
    the new day with the new status, its other fields as they were, and
    every other task is listed as before. *)
Theorem tarefa_movida_muda_de_lista (i : Z) (novo_dia : DiaDaSemana)
    (novo_status : StatusTarefa) (bd : BD) :
  sqlite_int i = true ->
  falha bd (relogio bd) = false -> falha bd (S (relogio bd)) = false ->
  let '(ok, bd1) := mover_tarefa i novo_dia novo_status bd in
  ok = true /\ ultimo_id bd1 = ultimo_id bd /\ agenda bd1 = agenda bd /\
  forall dia' t',
    In t' (fst (obter_tarefas_do_dia dia' bd1)) <->
    (exists t, In t (tarefas bd) /\ TarefaDTO.id t = Some i /\
               t' = movida t novo_dia novo_status /\ dia' = novo_dia) \/
    (In t' (tarefas bd) /\ TarefaDTO.id t' <> Some i /\
     TarefaDTO.dia t' = valor_dia dia').
Proof.
  intros Hi Hf1 Hf2. rewrite mover_tarefa_eq, Hf1, Hi.
  split; [reflexivity|]. split; [reflexivity|]. split; [reflexivity|].
  intros dia' t'. rewrite In_obter_tarefas_do_dia by exact Hf2.
  cbn [tarefas]. rewrite in_map_iff. split.
  - intros ((t & Ht & Hin) & Hd). destruct (id_igual i t) eqn:Ei.
    + left. exists t. apply id_igual_iff in Ei. subst t'.
      cbn [movida TarefaDTO.dia] in Hd. apply valor_dia_inj in Hd. auto.
    + right. subst t'. split; [exact Hin|]. split; [|exact Hd].
      intros Hid. apply id_igual_iff in Hid. congruence.
  - intros [(t & Hin & Hid & -> & ->) | (Hin & Hid & Hd)].
    + split; [|reflexivity]. exists t. split; [|exact Hin].
      apply id_igual_iff in Hid. now rewrite Hid.
    + split; [|exact Hd]. exists t'. split; [|exact Hin].
      destruct (id_igual i t') eqn:Ei; [|reflexivity].
      apply id_igual_iff in Ei. contradiction.
Qed.


(** When the connection fails, each operation of the board and of the
    grid answers its failure value and no table is changed. *)
Lemma falha_nao_altera_as_tabelas (hoje : date) (bd : BD) :
  falha bd (relogio bd) = true ->
  tarefas (avancar bd) = tarefas bd /\ agenda (avancar bd) = agenda bd /\
  ultimo_id (avancar bd) = ultimo_id bd /\
  (forall titulo dia status prioridade origem aid,
     strip titulo <> [] ->
     criar_tarefa hoje titulo dia status prioridade origem aid bd = (None, avancar bd)) /\
  (forall i dia status, mover_tarefa i dia status bd = (false, avancar bd)) /\
  (forall i, deletar_tarefa i bd = (false, avancar bd)) /\
  (forall dia, obter_tarefas_do_dia dia bd = ([], avancar bd)) /\
  (forall horario dia_indice atividade,
     salvar_atividade horario dia_indice atividade bd = (false, avancar bd)) /\
  obter_dados_grade bd = ([], avancar bd).
Proof.
  intros Hf. repeat split.
  - intros. rewrite criar_tarefa_eq by assumption. now rewrite Hf.
  - intros. now rewrite mover_tarefa_eq, Hf.
  - intros. now rewrite deletar_tarefa_eq, Hf.
  - intros. now rewrite obter_tarefas_do_dia_eq, Hf.
  - intros. unfold salvar_atividade, salvar_celula_horario, com_conexao. now rewrite Hf.
  - unfold obter_dados_grade, carregar_dados_horarios, com_conexao. now rewrite Hf.
Qed.

End Quadro.

Lemma ids_validos_bd_quadro : ids_validos bd_quadro.
Proof.
  split; [vm_compute; discriminate|]. split.
  - cbn. repeat constructor; cbn; intuition discriminate.
  - repeat constructor; eexists; (split; [reflexivity | cbn; lia]).
Qed.

Lemma ids_validos_preservado_witness :
  (forall titulo dia status prioridade origem aid,
     ids_validos (snd (@criar_tarefa latin1 (mkdate 2024 1 1) titulo dia status
                         prioridade origem aid bd_quadro))) /\
  (forall i dia status, ids_validos (snd (mover_tarefa i dia status bd_quadro))) /\
  (forall i, ids_validos (snd (deletar_tarefa i bd_quadro))) /\
  ids_validos (snd (@sincronizar_agenda_para_kanban latin1 (mkdate 2024 1 1) bd_quadro)).
Proof.
  exact (@ids_validos_preservado latin1 (mkdate 2024 1 1) bd_quadro
           ids_validos_bd_quadro).
Defined.

Lemma tarefa_criada_aparece_no_dia_witness :
  let '(r, bd1) :=
    @criar_tarefa latin1 (mkdate 2024 1 1) (lit " Ler ") TERCA FAZER 1 (lit "manual")
      None bd_quadro in
  let nova :=
    TarefaDTO.mk (@strip latin1 (lit " Ler ")) (valor_dia TERCA) (valor_status FAZER)
      (Some (ultimo_id bd_quadro + 1)) [] 1 (lit "manual") None
      (Some (isoformat (mkdate 2024 1 1))) in
  r = Some (ultimo_id bd_quadro + 1) /\
  (forall t, In t (tarefas bd_quadro) -> TarefaDTO.id t <> Some (ultimo_id bd_quadro + 1)) /\
  forall dia' t,
    In t (fst (obter_tarefas_do_dia dia' bd1)) <->
    (t = nova /\ dia' = TERCA) \/
    (In t (tarefas bd_quadro) /\ TarefaDTO.dia t = valor_dia dia').
Proof.
  apply (@tarefa_criada_aparece_no_dia latin1 (mkdate 2024 1 1) (lit " Ler ") TERCA FAZER
           1 (lit "manual") None bd_quadro).
  - vm_compute. discriminate.
  - reflexivity.
  - intros i Hi. discriminate Hi.
  - reflexivity.
  - reflexivity.
  - exact ids_validos_bd_quadro.
  - reflexivity.
Defined.

Lemma tarefa_movida_muda_de_lista_witness :
  let '(ok, bd1) := mover_tarefa 2 QUARTA FEITO bd_quadro in
  ok = true /\ ultimo_id bd1 = ultimo_id bd_quadro /\ agenda bd1 = agenda bd_quadro /\
  forall dia' t',
    In t' (fst (obter_tarefas_do_dia dia' bd1)) <->
    (exists t, In t (tarefas bd_quadro) /\ TarefaDTO.id t = Some 2 /\
               t' = movida t QUARTA FEITO /\ dia' = QUARTA) \/
    (In t' (tarefas bd_quadro) /\ TarefaDTO.id t' <> Some 2 /\
     TarefaDTO.dia t' = valor_dia dia').
Proof.
  apply (tarefa_movida_muda_de_lista 2 QUARTA FEITO bd_quadro); reflexivity.
Defined.



End QuadroFacts.

(* ================================================================== *)
(** * The cells of the grid *)
(* ================================================================== *)

Module GradeFacts.
Import Datetime Str Iso Re Dominio Persistencia Servicos Spec.
Import DatetimeFacts RecurrenceFacts ReFacts CodecFacts SyncFacts SyncInvariants QuadroFacts.

Lemma chave_eqb_eq a b : chave_eqb a b = true <-> a = b.
Proof.
  unfold chave_eqb. destruct a as [h1 c1], b as [h2 c2]. cbn [fst snd].
  rewrite andb_true_iff, str_eqb_eq, Z.eqb_eq. split.
  - intros (-> & ->). reflexivity.
  - intros H. injection H as -> ->. auto.
Qed.

Lemma chave_eqb_refl a : chave_eqb a a = true.
Proof. now apply chave_eqb_eq. Qed.

Lemma chave_eqb_neq a b : a <> b -> chave_eqb a b = false.
Proof.
  intros H. destruct (chave_eqb a b) eqn:E; [|reflexivity].
  apply chave_eqb_eq in E. contradiction.
Qed.

(** Lookup after an assignment. *)
Lemma dict_get_set {V} (k k' : Chave) (v : V) d :
  dict_get k (dict_set k' v d) = if chave_eqb k' k then Some v else dict_get k d.
Proof.
  induction d as [|[k0 v0] d IH]; cbn [dict_set dict_get].
  - destruct (chave_eqb k' k); reflexivity.
  - destruct (chave_eqb k0 k') eqn:E0; cbn [dict_get].
    + apply chave_eqb_eq in E0. subst k0. now destruct (chave_eqb k' k).
    + destruct (chave_eqb k0 k) eqn:E1; [|exact IH].
      apply chave_eqb_eq in E1. subst k0.
      rewrite (chave_eqb_neq k' k); [reflexivity|].
      intros ->. now rewrite chave_eqb_refl in E0.
Qed.

Lemma dict_da_grade_cons c l d :
  dict_da_grade (c :: l) d
  = dict_da_grade l (dict_set (chave_da_celula c) (snd c) d).
Proof. now destruct c as [[h col] a]. Qed.

Lemma dict_da_grade_app l1 l2 d :
  dict_da_grade (l1 ++ l2) d = dict_da_grade l2 (dict_da_grade l1 d).
Proof. unfold dict_da_grade. apply fold_left_app. Qed.

(** What a key is bound to depends on the dict the rows are added to
    through its binding of the key only. *)
Lemma dict_get_grade_ext k : forall l d d',
  dict_get k d = dict_get k d' ->
  dict_get k (dict_da_grade l d) = dict_get k (dict_da_grade l d').
Proof.
  induction l as [|c l IH]; intros d d' H; [exact H|].
  rewrite !dict_da_grade_cons. apply IH. rewrite !dict_get_set. now rewrite H.
Qed.

Lemma dict_get_grade_filter k (p : Celula -> bool) : forall l d,
  (forall c, In c l -> p c = false -> chave_da_celula c <> k) ->
  dict_get k (dict_da_grade (filter p l) d) = dict_get k (dict_da_grade l d).
Proof.
  induction l as [|c l IH]; intros d H; [reflexivity|].
  cbn [filter]. rewrite dict_da_grade_cons. destruct (p c) eqn:E.
  - rewrite dict_da_grade_cons. apply IH. intros c' Hin. apply H. now right.
  - rewrite IH by (intros c' Hin; apply H; now right).
    apply dict_get_grade_ext. rewrite dict_get_set.
    now rewrite chave_eqb_neq by (apply H; [now left | exact E]).
Qed.

Lemma obter_dados_grade_eq bd :
  obter_dados_grade bd
  = (if falha bd (relogio bd) then [] else dict_da_grade (agenda bd) [], avancar bd).
Proof.
  unfold obter_dados_grade, carregar_dados_horarios, com_conexao.
  now destruct (falha bd (relogio bd)).
Qed.

Lemma salvar_atividade_eq h col a bd :
  salvar_atividade h col a bd
  = if falha bd (relogio bd) then (false, avancar bd)
    else if sqlite_int col then
      (true,
       mkBD (tarefas bd)
            (filter (fun c : Celula =>
                       negb (chave_eqb (chave_da_celula c) (h, col)))
                    (agenda bd)
             ++ [(h, col, Some a)])
            (ultimo_id bd) (S (relogio bd)) (falha bd))
    else (false, avancar bd).
Proof.
  unfold salvar_atividade, salvar_celula_horario, com_conexao, vincular_int.
  destruct (falha bd (relogio bd)); [reflexivity|].
  destruct (sqlite_int col); [|reflexivity].
  cbn [bind avancar tarefas agenda ultimo_id relogio falha].
  f_equal. f_equal. f_equal. apply filter_ext. now intros [[h' c'] a'].
Qed.

(** X22: A saved cell is read back, its column being an integer SQLite can
    hold: the dict of the grid binds its key to the saved text and every
    other key to what it was bound to; the key of the table stays a key,
    and the board is not touched. *)
Theorem celula_salva_e_lida (horario : str) (dia_indice : Z) (atividade : str)
    (bd : BD) :
  sqlite_int dia_indice = true ->
  falha bd (relogio bd) = false -> falha bd (S (relogio bd)) = false ->
  let '(ok, bd1) := salvar_atividade horario dia_indice atividade bd in
  ok = true /\ tarefas bd1 = tarefas bd /\ ultimo_id bd1 = ultimo_id bd /\
  (chaves_unicas bd -> chaves_unicas bd1) /\
  dict_get (horario, dia_indice) (fst (obter_dados_grade bd1)) = Some (Some atividade) /\
  forall k, k <> (horario, dia_indice) ->
            dict_get k (fst (obter_dados_grade bd1))
            = dict_get k (fst (obter_dados_grade bd)).
Proof.
  intros Hcol Hf1 Hf2. rewrite salvar_atividade_eq, Hf1, Hcol.
  split; [reflexivity|]. split; [reflexivity|]. split; [reflexivity|].
  rewrite !obter_dados_grade_eq. cbn [relogio falha agenda fst]. rewrite Hf1, Hf2.
  split; [|split].
  - unfold chaves_unicas. cbn [agenda]. intros Hnd. rewrite map_app. cbn [map].
    apply NoDup_app; [now apply NoDup_map_filter | repeat constructor; auto |].
    intros k Hk [<-|[]]. apply in_map_iff in Hk. destruct Hk as (c & Hc & Hin).
    apply filter_In in Hin. destruct Hin as (_ & Hn).
    rewrite Hc, chave_eqb_refl in Hn. discriminate.
  - rewrite dict_da_grade_app. cbn. rewrite dict_get_set.
    now rewrite chave_eqb_refl.
  - intros k Hk. rewrite dict_da_grade_app. cbn. rewrite dict_get_set.
    rewrite chave_eqb_neq by congruence.
    apply dict_get_grade_filter. intros c _ Hc Heq.
    apply negb_false_iff, chave_eqb_eq in Hc. congruence.
Qed.

Lemma celula_salva_e_lida_witness :
  let '(ok, bd1) := salvar_atividade (lit "09:00") 0 (lit "Escrever") bd_limpo in
  ok = true /\ tarefas bd1 = tarefas bd_limpo /\ ultimo_id bd1 = ultimo_id bd_limpo /\
  (chaves_unicas bd_limpo -> chaves_unicas bd1) /\
  dict_get (lit "09:00", 0) (fst (obter_dados_grade bd1)) = Some (Some (lit "Escrever")) /\
  forall k, k <> (lit "09:00", 0) ->
            dict_get k (fst (obter_dados_grade bd1))
            = dict_get k (fst (obter_dados_grade bd_limpo)).
Proof.
  apply (celula_salva_e_lida (lit "09:00") 0 (lit "Escrever") bd_limpo); reflexivity.
Defined.

End GradeFacts.

(* ================================================================== *)
(** * The rows of the grid *)
(* ================================================================== *)

Module HorarioFacts.
Import Datetime Str Iso Re Dominio Persistencia Servicos Spec.
Import DatetimeFacts RecurrenceFacts ReFacts CodecFacts SyncFacts SyncInvariants QuadroFacts
       GradeFacts.

Section Formato.
Context {U : Unicode} {D : Decimal}.

Lemma confere_rotulos :
  forallb (fun h => forallb (confere_rotulo h) (map Z.of_nat (seq 0 100)))
          (map Z.of_nat (seq 0 100)) = true.
Proof. vm_compute. reflexivity. Qed.

Lemma confere_rotulo_ok h m :
  0 <= h <= 99 -> 0 <= m <= 99 -> confere_rotulo h m = true.
Proof.
  intros Hh Hm.
  pose proof (forall_below _ 100 confere_rotulos h ltac:(lia)) as H1. cbv beta in H1.
  exact (forall_below _ 100 H1 m ltac:(lia)).
Qed.

(** [strptime] raises nothing but [ValueError]. *)
Lemma strptime_raises s e : strptime s = Raise e -> e = ValueError.
Proof.
  unfold strptime. destruct (match_at _FORMATO_HORA 0 s) as [mt|] eqn:E.
  - destruct (Nat.eqb (m_end mt) (length s)); [|intros H; now injection H].
    pose proof (match_at_inv _ _ _ _ E) as (_ & _ & _ & Hg).
    unfold group1_or. destruct (group1 mt); [discriminate|].
    exfalso. now apply Hg.
  - intros H. now injection H.
Qed.

Lemma validar_eq s :
  _validar_formato_horario s
  = Ok (match strptime s with Ok _ => true | Raise _ => false end).
Proof.
  unfold _validar_formato_horario. destruct (strptime s) as [hm|e] eqn:E; [reflexivity|].
  now rewrite (strptime_raises s e E).
Qed.

Lemma chave_eq s :
  _chave_ordenacao_horario s = Ok (chave_de s).
Proof.
  unfold chave_de, _chave_ordenacao_horario. cbv zeta.
  destruct (strptime _) as [[h m]|e] eqn:E; [reflexivity|].
  now rewrite (strptime_raises _ e E).
Qed.

(** The end of a match of the expression of ["%H:%M"]. *)
Lemma fim_do_horario s mt :
  match_at _FORMATO_HORA 0 s = Some mt -> (3 <= m_end mt <= 5)%nat.
Proof.
  unfold match_at, _FORMATO_HORA. cbn.
  destruct s as [|x1 [|x2 [|x3 [|x4 [|x5 s']]]]]; cbn;
    repeat match goal with
    | |- context [if ?b then _ else _] => destruct b eqn:?; try discriminate
    end; try discriminate;
    intros H; injection H as <-; cbn; lia.
Qed.

(** X23: The labels of two digits, a colon and two digits: the hours up to
    23 and the minutes up to 59 are the valid ones, and they are read as
    that hour and minute.  The format is not held to two digits: one
    digit passes for the hour and for the minute.  A blank before or
    after the time, or text after it, makes the label invalid; for the
    order of the rows what follows the first blank is dropped. *)
Theorem rotulos_de_horario :
  (forall h m, 0 <= h <= 99 -> 0 <= m <= 99 ->
     _validar_formato_horario (rotulo h m) = Ok ((h <=? 23) && (m <=? 59)) /\
     _chave_ordenacao_horario (rotulo h m)
     = Ok (if (h <=? 23) && (m <=? 59) then Hora h m else Max)) /\
  (forall s, _validar_formato_horario s = Ok true -> (3 <= length s <= 5)%nat) /\
  _validar_formato_horario (lit "7:5") = Ok true /\
  _validar_formato_horario (lit "08:00 horas") = Ok false /\
  _chave_ordenacao_horario (lit "08:00 horas") = Ok (Hora 8 0).
Proof.
  split; [|split; [|repeat split]].
  - intros h m Hh Hm. pose proof (confere_rotulo_ok h m Hh Hm) as H.
    unfold confere_rotulo in H. cbv zeta in H.
    destruct (strptime (rotulo h m)) as [[h' m']|[]];
      destruct (_validar_formato_horario (rotulo h m)) as [[|]|];
      destruct (_chave_ordenacao_horario (rotulo h m)) as [[h'' m''|]|];
      try discriminate H;
      destruct ((h <=? 23) && (m <=? 59)); try discriminate H.
    + cbn [andb] in H.
      repeat (apply andb_true_iff in H; destruct H as (H & ?)).
      repeat match goal with E : (_ =? _) = true |- _ => apply Z.eqb_eq in E end.
      subst. split; reflexivity.
    + split; reflexivity.
  - intros s. rewrite validar_eq. unfold strptime.
    destruct (match_at _FORMATO_HORA 0 s) as [mt|] eqn:E; [|discriminate].
    destruct (Nat.eqb (m_end mt) (length s)) eqn:El; [|discriminate].
    intros _. apply Nat.eqb_eq in El. apply fim_do_horario in E. lia.
Qed.

End Formato.

Lemma chave_lt_le a b c :
  chave_ltb a b = true -> chave_ltb c b = false -> chave_ltb a c = true.
Proof.
  destruct a as [h1 m1|], b as [h2 m2|], c as [h3 m3|]; cbn; try discriminate;
    try reflexivity.
  rewrite !orb_true_iff, !andb_true_iff, !orb_false_iff, !andb_false_iff,
    !Z.ltb_lt, !Z.eqb_eq, !Z.ltb_ge, !Z.eqb_neq. lia.
Qed.

Lemma chave_lt_asym a b : chave_ltb a b = true -> chave_ltb b a = false.
Proof.
  destruct a as [h1 m1|], b as [h2 m2|]; cbn; try discriminate; try reflexivity.
  rewrite !orb_true_iff, !andb_true_iff, !orb_false_iff, !andb_false_iff,
    !Z.ltb_lt, !Z.eqb_eq, !Z.ltb_ge, !Z.eqb_neq. lia.
Qed.

Section Ordem.
Context {U : Unicode} {D : Decimal}.

Lemma inserir_por_chave_perm x l : Permutation (inserir_por_chave x l) (x :: l).
Proof.
  induction l as [|y l IH]; cbn; [reflexivity|].
  destruct (chave_ltb (fst y) (fst x)); [|reflexivity].
  rewrite IH. apply perm_swap.
Qed.

Lemma inserir_por_chave_sorted x l :
  StronglySorted nao_depois l -> StronglySorted nao_depois (inserir_por_chave x l).
Proof.
  induction 1 as [|y l Hs IH Hall]; cbn.
  - repeat constructor.
  - destruct (chave_ltb (fst y) (fst x)) eqn:E.
    + constructor; [exact IH|].
      eapply Permutation_Forall; [symmetry; apply inserir_por_chave_perm|].
      constructor; [now apply chave_lt_asym | exact Hall].
    + constructor; [now constructor|].
      constructor; [exact E|].
      rewrite Forall_forall in *. intros z Hz. unfold nao_depois in *.
      destruct (chave_ltb (fst z) (fst x)) eqn:Ez; [|reflexivity].
      rewrite <- (Hall z Hz). symmetry. now apply (chave_lt_le _ (fst x)).
Qed.

Lemma chaves_eq hs : chaves hs = Ok (map (fun h => (chave_de h, h)) hs).
Proof.
  induction hs as [|h hs IH]; [reflexivity|].
  cbn [chaves map]. rewrite chave_eq, IH. reflexivity.
Qed.

Lemma ordenar_chaves_perm ks :
  Permutation (fold_right inserir_por_chave [] ks) ks.
Proof.
  induction ks as [|k ks IH]; cbn; [reflexivity|].
  rewrite inserir_por_chave_perm. now constructor.
Qed.

Lemma ordenar_chaves_sorted ks :
  StronglySorted nao_depois (fold_right inserir_por_chave [] ks).
Proof.
  induction ks as [|k ks IH]; cbn; [constructor|].
  now apply inserir_por_chave_sorted.
Qed.

Lemma sorted_por_horario_spec hs :
  exists l, sorted_por_horario hs = Ok l /\ Permutation l hs /\
            StronglySorted em_ordem l.
Proof.
  unfold sorted_por_horario. rewrite chaves_eq. cbn [bind].
  set (ks := map (fun h => (chave_de h, h)) hs).
  eexists. split; [reflexivity|]. split.
  - rewrite (ordenar_chaves_perm ks). unfold ks. rewrite map_map. cbn [snd].
    now rewrite map_id.
  - assert (Hk : forall k, In k (fold_right inserir_por_chave [] ks) ->
                           fst k = chave_de (snd k)).
    { intros k Hin. eapply Permutation_in in Hin; [|apply ordenar_chaves_perm].
      unfold ks in Hin. apply in_map_iff in Hin. now destruct Hin as (h & <- & _). }
    pose proof (ordenar_chaves_sorted ks) as Hs.
    induction Hs as [|k l Hs IH Hall]; cbn [map]; [constructor|].
    constructor.
    + apply IH. intros k' Hin. apply Hk. now right.
    + rewrite Forall_map. rewrite Forall_forall in *. intros k' Hin.
      unfold em_ordem. rewrite <- (Hk k) by now left.
      rewrite <- (Hk k') by now right. now apply Hall.
Qed.

(** X24: [obter_horarios_ordenados] answers the labels of the rows, each
    once, none sorting after the next: by hour and minute, the labels
    that are no time last; when the store fails it answers nothing.
    Nothing is written. *)
Theorem horarios_em_ordem (g : BDGrade) :
  let '(l, g') := obter_horarios_ordenados g in
  definicoes_horario g' = definicoes_horario g /\ bd_de g' = avancar (bd_de g) /\
  if falha (bd_de g) (relogio (bd_de g)) then l = []
  else Permutation l (definicoes_horario g) /\
       StronglySorted
         (fun a b => chave_ltb (chave_de b) (chave_de a) = false) l.
Proof.
  unfold obter_horarios_ordenados, obter_horarios_definidos, com_conexao_grade.
  cbv zeta. destruct (falha (bd_de g) (relogio (bd_de g))).
  - repeat split.
  - cbn [definicoes_horario].
    destruct (sorted_por_horario_spec (definicoes_horario g)) as (l & -> & Hp & Hs).
    repeat split; assumption.
Qed.

End Ordem.

Lemma In_inserir_ou_ignorar h l x :
  In x (inserir_ou_ignorar h l) <-> In x l \/ x = h.
Proof.
  unfold inserir_ou_ignorar. destruct (existsb (str_eqb h) l) eqn:E.
  - split; [auto|]. intros [H| ->]; [exact H|].
    apply existsb_exists in E. destruct E as (y & Hy & Hyh).
    apply str_eqb_eq in Hyh. now subst y.
  - rewrite in_app_iff. cbn [In]. intuition congruence.
Qed.

Lemma NoDup_inserir_ou_ignorar h l : NoDup l -> NoDup (inserir_ou_ignorar h l).
Proof.
  intros Hnd. unfold inserir_ou_ignorar. destruct (existsb (str_eqb h) l) eqn:E.
  - exact Hnd.
  - apply NoDup_app; [exact Hnd | repeat constructor; auto |].
    intros x Hx [Hxh|[]]. subst x.
    assert (existsb (str_eqb h) l = true); [|congruence].
    apply existsb_exists. exists h. split; [exact Hx | apply str_eqb_refl].
Qed.

Lemma inserir_ou_ignorar_presente h l : In h l -> inserir_ou_ignorar h l = l.
Proof.
  intros Hin. unfold inserir_ou_ignorar.
  replace (existsb (str_eqb h) l) with true; [reflexivity|].
  symmetry. apply existsb_exists. exists h. split; [exact Hin | apply str_eqb_refl].
Qed.

Section Linhas.
Context {U : Unicode} {D : Decimal}.

Lemma adicionar_horario_eq h g :
  adicionar_horario h g
  = match strptime h with
    | Ok _ =>
        if falha (bd_de g) (relogio (bd_de g))
        then (false, mkBDGrade (avancar (bd_de g)) (definicoes_horario g))
        else (true, mkBDGrade (avancar (bd_de g))
                      (inserir_ou_ignorar h (definicoes_horario g)))
    | Raise _ => (false, g)
    end.
Proof.
  unfold adicionar_horario. rewrite validar_eq.
  destruct (strptime h); [|reflexivity].
  unfold adicionar_horario_definido, com_conexao_grade. cbv zeta.
  now destruct (falha (bd_de g) (relogio (bd_de g))).
Qed.

(** X25: [adicionar_horario] adds a label to the rows only if it is valid
    and the store answers, and then answers [True]; a label that is a row
    already is not added again, so no row is listed twice.  The cells and
    the board are not touched, and an invalid label opens no connection. *)
Theorem linha_adicionada (horario : str) (g : BDGrade) :
  let '(ok, g') := adicionar_horario horario g in
  (ok = true <->
   _validar_formato_horario horario = Ok true /\
   falha (bd_de g) (relogio (bd_de g)) = false) /\
  (forall h, In h (definicoes_horario g') <->
             In h (definicoes_horario g) \/ (ok = true /\ h = horario)) /\
  (NoDup (definicoes_horario g) -> NoDup (definicoes_horario g')) /\
  (In horario (definicoes_horario g) -> definicoes_horario g' = definicoes_horario g) /\
  tarefas (bd_de g') = tarefas (bd_de g) /\ agenda (bd_de g') = agenda (bd_de g) /\
  (_validar_formato_horario horario = Ok false -> g' = g).
Proof.
  rewrite adicionar_horario_eq, validar_eq.
  destruct (strptime horario) as [hm|e].
  - destruct (falha (bd_de g) (relogio (bd_de g))); cbn [definicoes_horario bd_de].
    + split; [split; [discriminate | intros (_ & H); discriminate H]|].
      split; [intros h; split; [auto | intros [H|(H & _)]; [exact H | discriminate H]]|].
      repeat split; auto; discriminate.
    + split; [split; auto|].
      split; [intros h; rewrite In_inserir_ou_ignorar; tauto|].
      split; [apply NoDup_inserir_ou_ignorar|].
      split; [apply inserir_ou_ignorar_presente|].
      repeat split; discriminate.
  - split; [split; [discriminate | intros (H & _); discriminate H]|].
    split; [intros h; split; [auto | intros [H|(H & _)]; [exact H | discriminate H]]|].
    repeat split; auto.
Qed.

End Linhas.

Lemma remover_horario_eq h g :
  remover_horario h g
  = if falha (bd_de g) (relogio (bd_de g))
    then (false, mkBDGrade (avancar (bd_de g)) (definicoes_horario g))
    else (true,
          mkBDGrade
            (mkBD (tarefas (bd_de g))
                  (filter (fun c : Celula => negb (str_eqb (fst (chave_da_celula c)) h))
                          (agenda (bd_de g)))
                  (ultimo_id (bd_de g)) (S (relogio (bd_de g))) (falha (bd_de g)))
            (filter (fun x => negb (str_eqb x h)) (definicoes_horario g))).
Proof.
  unfold remover_horario, remover_horario_definido, com_conexao_grade. cbv zeta.
  destruct (falha (bd_de g) (relogio (bd_de g))); [reflexivity|].
  cbn [bd_de definicoes_horario avancar tarefas agenda ultimo_id relogio falha].
  f_equal. f_equal. f_equal. apply filter_ext. now intros [[h' c'] a'].
Qed.

Lemma negb_str_eqb_true a b : negb (str_eqb a b) = true <-> a <> b.
Proof.
  rewrite negb_true_iff, <- not_true_iff_false, str_eqb_eq. reflexivity.
Qed.

Section Remocao.
Context {U : Unicode}.

(** X26: Removing a row removes its label and the cells of the row, and
    nothing else: the other rows and cells stay, and so do the tasks of
    the board, those made from the row too.  A following run of the
    synchronisation creates no task from a cell of the row. *)
Theorem linha_removida (hoje : date) (horario : str) (g : BDGrade) :
  falha (bd_de g) (relogio (bd_de g)) = false ->
  let '(ok, g') := remover_horario horario g in
  ok = true /\
  (forall h, In h (definicoes_horario g') <->
             In h (definicoes_horario g) /\ h <> horario) /\
  (forall h coluna a, In (h, coluna, a) (agenda (bd_de g')) <->
                      In (h, coluna, a) (agenda (bd_de g)) /\ h <> horario) /\
  tarefas (bd_de g') = tarefas (bd_de g) /\
  exists novas,
    tarefas (snd (sincronizar_agenda_para_kanban hoje (bd_de g')))
    = tarefas (bd_de g) ++ novas /\
    Forall (fun t => exists dia h a,
                h <> horario /\
                In (h, weekday hoje, Some a) (agenda (bd_de g)) /\
                tarefa_da_celula hoje dia h a t) novas.
Proof.
  intros Hf. rewrite remover_horario_eq, Hf.
  cbn [bd_de definicoes_horario tarefas agenda].
  split; [reflexivity|].
  split; [intros h; rewrite filter_In, negb_str_eqb_true; reflexivity|].
  assert (Hcel : forall h coluna a,
    In (h, coluna, a)
       (filter (fun c : Celula => negb (str_eqb (fst (chave_da_celula c)) horario))
               (agenda (bd_de g)))
    <-> In (h, coluna, a) (agenda (bd_de g)) /\ h <> horario).
  { intros h coluna a. rewrite filter_In. cbn [chave_da_celula fst].
    now rewrite negb_str_eqb_true. }
  split; [exact Hcel|]. split; [reflexivity|].
  match goal with |- context [sincronizar_agenda_para_kanban hoje ?b] => set (bd1 := b) end.
  destruct (sincronizacao_so_acrescenta_aux hoje bd1) as (_ & novas & Hn & Hall).
  exists novas. split; [exact Hn|].
  eapply Forall_impl; [|exact Hall].
  intros t (dia & h & a & _ & Hin & _ & Ht).
  apply Hcel in Hin. destruct Hin as (Hin & Hne). exists dia, h, a. auto.
Qed.

End Remocao.

Section Padrao.
Context {U : Unicode} {D : Decimal}.

Lemma horarios_padrao_validos :
  forallb (fun h => match _validar_formato_horario h with
                    | Ok true => true
                    | _ => false
                    end) horarios_padrao = true.
Proof. vm_compute. reflexivity. Qed.

(** X27: Initialising the tables gives an empty table of rows the sixteen
    rows from 07:00 to 22:00, in that order, every one a valid label and
    none twice; a table that has rows is left as it is, so initialising
    again changes nothing. *)
Theorem linhas_padrao (g : BDGrade) :
  falha (bd_de g) (relogio (bd_de g)) = false ->
  let g1 := snd (_inicializar_tabelas g) in
  (definicoes_horario g = [] -> definicoes_horario g1 = horarios_padrao) /\
  (definicoes_horario g <> [] -> definicoes_horario g1 = definicoes_horario g) /\
  (falha (bd_de g) (S (relogio (bd_de g))) = false ->
   definicoes_horario (snd (_inicializar_tabelas g1)) = definicoes_horario g1) /\
  tarefas (bd_de g1) = tarefas (bd_de g) /\ agenda (bd_de g1) = agenda (bd_de g) /\
  NoDup horarios_padrao /\
  forall h, In h horarios_padrao -> _validar_formato_horario h = Ok true.
Proof.
  intros Hf. cbv zeta.
  assert (Hini : forall g0, falha (bd_de g0) (relogio (bd_de g0)) = false ->
    definicoes_horario (snd (_inicializar_tabelas g0))
    = match definicoes_horario g0 with
      | [] => horarios_padrao
      | _ => definicoes_horario g0
      end /\
    bd_de (snd (_inicializar_tabelas g0)) = avancar (bd_de g0)).
  { intros g0 H0. unfold _inicializar_tabelas, com_conexao_grade. cbv zeta.
    rewrite H0. cbn [snd]. unfold _popular_horarios_padrao.
    cbn [definicoes_horario bd_de].
    destruct (definicoes_horario g0) as [|x l]; split; reflexivity. }
  destruct (Hini g Hf) as (Hd & Hb). rewrite Hd, Hb.
  split; [intros ->; reflexivity|].
  split; [intros Hne; destruct (definicoes_horario g); [contradiction | reflexivity]|].
  split.
  { intros Hf2. destruct (Hini (snd (_inicializar_tabelas g))) as (Hd2 & _).
    { rewrite Hb. exact Hf2. }
    rewrite Hd2, Hd. now destruct (definicoes_horario g). }
  split; [reflexivity|]. split; [reflexivity|]. split.
  - unfold horarios_padrao.
    repeat (constructor; [cbn; intuition discriminate|]). constructor.
  - intros h Hin. pose proof horarios_padrao_validos as Hv.
    rewrite forallb_forall in Hv. specialize (Hv h Hin).
    destruct (_validar_formato_horario h) as [[|]|]; [reflexivity | discriminate..].
Qed.

End Padrao.

Lemma linha_removida_witness :
  let '(ok, g') := remover_horario (lit "09:00") grade_exemplo in
  ok = true /\
  (forall h, In h (definicoes_horario g') <->
             In h (definicoes_horario grade_exemplo) /\ h <> lit "09:00") /\
  (forall h coluna a, In (h, coluna, a) (agenda (bd_de g')) <->
                      In (h, coluna, a) (agenda (bd_de grade_exemplo)) /\ h <> lit "09:00") /\
  tarefas (bd_de g') = tarefas (bd_de grade_exemplo) /\
  exists novas,
    tarefas (snd (@sincronizar_agenda_para_kanban latin1 (mkdate 2024 1 1) (bd_de g')))
    = tarefas (bd_de grade_exemplo) ++ novas /\
    Forall (fun t => exists dia h a,
                h <> lit "09:00" /\
                In (h, weekday (mkdate 2024 1 1), Some a) (agenda (bd_de grade_exemplo)) /\
                @tarefa_da_celula latin1 (mkdate 2024 1 1) dia h a t) novas.
Proof.
  apply (@linha_removida latin1 (mkdate 2024 1 1) (lit "09:00") grade_exemplo).
  reflexivity.
Defined.

Lemma linhas_padrao_witness :
  definicoes_horario
    (snd (_inicializar_tabelas (mkBDGrade (mkBD [] [] 0 0 nunca_falha) [])))
  = horarios_padrao.
Proof.
  exact (proj1 (@linhas_padrao latin1 ascii_decimal
                  (mkBDGrade (mkBD [] [] 0 0 nunca_falha) []) eq_refl)
           eq_refl).
Defined.

End HorarioFacts.

(* ================================================================== *)
(** * Enumerations *)
(* ================================================================== *)

Module EnumFacts.
Import Datetime Str Iso Re Dominio Persistencia Servicos Spec.
Import DatetimeFacts RecurrenceFacts ReFacts CodecFacts.

(** X28: The converters invert [.value], [from_nivel] inverts [nivel] and
    [from_codigo] inverts [codigo]; any other string is no day and no
    status, any other level is [P3] and any other code is [SEMANAL]. *)
Theorem conversores_invertem_os_valores :
  (forall s dia, converter_string_para_dia s = Some dia <-> s = valor_dia dia) /\
  (forall s status,
     converter_string_para_status s = Some status <-> s = valor_status status) /\
  (forall p, from_nivel (nivel p) = p) /\
  (forall n, n < 0 \/ 3 < n -> from_nivel n = P3) /\
  (forall per, from_codigo (codigo per) = per) /\
  (forall c, (forall per, c <> codigo per) -> from_codigo c = SEMANAL).
Proof.
  split; [|split; [|split; [|split; [|split]]]].
  - intros s dia. split.
    + unfold converter_string_para_dia. cbn [find].
      repeat match goal with
             | |- context [str_eqb ?a s] =>
                 destruct (str_eqb a s) eqn:E;
                 [apply str_eqb_eq in E; intros H; injection H as <-; now symmetry
                 |clear E]
             end.
      intros H; discriminate H.
    + intros ->. now destruct dia.
  - intros s status. split.
    + unfold converter_string_para_status. cbn [find].
      repeat match goal with
             | |- context [str_eqb ?a s] =>
                 destruct (str_eqb a s) eqn:E;
                 [apply str_eqb_eq in E; intros H; injection H as <-; now symmetry
                 |clear E]
             end.
      intros H; discriminate H.
    + intros ->. now destruct status.
  - now destruct p.
  - intros n Hn. unfold from_nivel. cbn [find nivel].
    repeat match goal with
           | |- context [?a =? n] =>
               destruct (Z.eqb_spec a n); [lia|]
           end.
    reflexivity.
  - now destruct per.
  - intros c Hc. unfold from_codigo. cbn [find].
    repeat match goal with
           | |- context [str_eqb ?a c] =>
               destruct (str_eqb a c) eqn:E;
               [apply str_eqb_eq in E; exfalso; symmetry in E; revert E|clear E]
           end;
      try reflexivity; apply Hc.
Qed.

End EnumFacts.

(* ================================================================== *)
(** * The week and the calendar *)
(* ================================================================== *)

Module CalendarioFacts.
Import Datetime Str Iso Re Dominio Persistencia Servicos ComponentesUI Spec.
Import DatetimeFacts RecurrenceFacts ReFacts CodecFacts SyncFacts SyncInvariants
       EvaluatorFacts TituloFacts PeriodicidadeFacts QuadroFacts GradeFacts.
#[local] Arguments Z.mul : simpl never.
#[local] Arguments Z.add : simpl never.
#[local] Arguments Z.sub : simpl never.

(** ** The week of the grid *)

Lemma weekday_de_ordinal d : weekday d = (toordinal d - 1) mod 7.
Proof. unfold weekday. Z.div_mod_to_equations. lia. Qed.

Lemma date_add_raise d k :
  ~ (1 <= toordinal d + k <= _MAXORDINAL) -> date_add d k = Raise OverflowError.
Proof.
  intros H. unfold date_add. cbv zeta.
  destruct ((0 <? toordinal d + k) && (toordinal d + k <=? _MAXORDINAL)) eqn:E;
    [|reflexivity].
  apply andb_true_iff in E. destruct E as (E1 & E2).
  apply Z.ltb_lt in E1. apply Z.leb_le in E2. lia.
Qed.

(** X29: [_obter_datas_semana] answers the five days from Monday to Friday
    of one week, the week of today when the offset is 0; it raises
    OverflowError when one of them falls outside of the calendar, and
    only then. *)
Theorem datas_da_semana (hoje : date) (semana_offset : Z) :
  date_ok hoje = true ->
  let segunda := toordinal hoje - weekday hoje + 7 * semana_offset in
  if (1 <=? segunda) && (segunda + 4 <=? _MAXORDINAL) then
    exists l,
      _obter_datas_semana hoje semana_offset = Ok l /\
      map toordinal l = [segunda; segunda + 1; segunda + 2; segunda + 3; segunda + 4] /\
      map weekday l = [0; 1; 2; 3; 4] /\
      Forall (fun d => date_ok d = true) l /\
      (semana_offset = 0 -> weekday hoje < 5 -> In hoje l)
  else _obter_datas_semana hoje semana_offset = Raise OverflowError.
Proof.
  intros Hh. cbv zeta.
  pose proof (toordinal_bounds hoje Hh) as Hb.
  pose proof (weekday_range hoje) as Hw.
  pose proof (weekday_de_ordinal hoje) as Hwd.
  assert (H1 : 1 <= toordinal hoje + - weekday hoje <= _MAXORDINAL).
  { rewrite Hwd. unfold _MAXORDINAL in *. Z.div_mod_to_equations. lia. }
  destruct (date_add_ok hoje (- weekday hoje) Hh H1) as (s0 & Es0 & Hs0 & Os0).
  unfold _obter_datas_semana. cbv zeta. rewrite Es0. cbn [bind].
  set (seg := toordinal hoje - weekday hoje + 7 * semana_offset).
  assert (Hseg : toordinal s0 + 7 * semana_offset = seg) by (unfold seg; lia).
  destruct ((1 <=? seg) && (seg + 4 <=? _MAXORDINAL)) eqn:E.
  - apply andb_true_iff in E. destruct E as (E1 & E2).
    apply Z.leb_le in E1, E2.
    destruct (date_add_ok s0 (7 * semana_offset) Hs0 ltac:(lia)) as (s1 & Es1 & Hs1 & Os1).
    rewrite Es1. cbn [bind]. rewrite Hseg in Os1.
    change (range 0 5) with [0; 1; 2; 3; 4]. cbn [mapM].
    destruct (date_add_ok s1 0 Hs1 ltac:(lia)) as (d0 & -> & K0 & O0).
    destruct (date_add_ok s1 1 Hs1 ltac:(lia)) as (d1 & -> & K1 & O1).
    destruct (date_add_ok s1 2 Hs1 ltac:(lia)) as (d2 & -> & K2 & O2).
    destruct (date_add_ok s1 3 Hs1 ltac:(lia)) as (d3 & -> & K3 & O3).
    destruct (date_add_ok s1 4 Hs1 ltac:(lia)) as (d4 & -> & K4 & O4).
    cbn [bind]. exists [d0; d1; d2; d3; d4]. split; [reflexivity|].
    rewrite Os1 in O0, O1, O2, O3, O4.
    split; [cbn [map]; rewrite O0, O1, O2, O3, O4; repeat f_equal; lia|].
    split.
    { cbn [map]. rewrite !weekday_de_ordinal, O0, O1, O2, O3, O4.
      unfold seg. rewrite Hwd.
      repeat f_equal; Z.div_mod_to_equations; lia. }
    split; [repeat constructor; assumption|].
    intros -> Hlt.
    assert (Hin : exists d, In d [d0; d1; d2; d3; d4] /\ toordinal d = toordinal hoje).
    { unfold seg in *.
      assert (weekday hoje = 0 \/ weekday hoje = 1 \/ weekday hoje = 2 \/
              weekday hoje = 3 \/ weekday hoje = 4) as [W|[W|[W|[W|W]]]] by lia.
      - exists d0. split; [now left | lia].
      - exists d1. split; [right; now left | lia].
      - exists d2. split; [right; right; now left | lia].
      - exists d3. split; [right; right; right; now left | lia].
      - exists d4. split; [right; right; right; right; now left | lia]. }
    destruct Hin as (d & Hin & Hd).
    assert (Hok : date_ok d = true).
    { cbn [In] in Hin. destruct Hin as [<-|[<-|[<-|[<-|[<-|[]]]]]]; assumption. }
    now rewrite <- (toordinal_inj d hoje Hok Hh Hd).
  - apply andb_false_iff in E.
    destruct (Z_le_dec 1 seg) as [L1|L1];
      [destruct (Z_le_dec seg _MAXORDINAL) as [L2|L2]|].
    + destruct (date_add_ok s0 (7 * semana_offset) Hs0 ltac:(lia)) as (s1 & Es1 & Hs1 & Os1).
      rewrite Es1. cbn [bind]. rewrite Hseg in Os1.
      assert (E2 : _MAXORDINAL < seg + 4).
      { destruct E as [E|E]; [apply Z.leb_gt in E | apply Z.leb_gt in E]; lia. }
      change (range 0 5) with [0; 1; 2; 3; 4]. cbn [mapM].
      destruct (Z_le_dec (seg + 1) _MAXORDINAL) as [A1|A1];
        [|destruct (date_add_ok s1 0 Hs1 ltac:(lia)) as (d0 & -> & _); cbn [bind];
          rewrite (date_add_raise s1 1) by lia; reflexivity].
      destruct (Z_le_dec (seg + 2) _MAXORDINAL) as [A2|A2];
        [|destruct (date_add_ok s1 0 Hs1 ltac:(lia)) as (d0 & -> & _); cbn [bind];
          destruct (date_add_ok s1 1 Hs1 ltac:(lia)) as (d1 & -> & _); cbn [bind];
          rewrite (date_add_raise s1 2) by lia; reflexivity].
      destruct (Z_le_dec (seg + 3) _MAXORDINAL) as [A3|A3];
        [|destruct (date_add_ok s1 0 Hs1 ltac:(lia)) as (d0 & -> & _); cbn [bind];
          destruct (date_add_ok s1 1 Hs1 ltac:(lia)) as (d1 & -> & _); cbn [bind];
          destruct (date_add_ok s1 2 Hs1 ltac:(lia)) as (d2 & -> & _); cbn [bind];
          rewrite (date_add_raise s1 3) by lia; reflexivity].
      destruct (date_add_ok s1 0 Hs1 ltac:(lia)) as (d0 & -> & _); cbn [bind].
      destruct (date_add_ok s1 1 Hs1 ltac:(lia)) as (d1 & -> & _); cbn [bind].
      destruct (date_add_ok s1 2 Hs1 ltac:(lia)) as (d2 & -> & _); cbn [bind].
      destruct (date_add_ok s1 3 Hs1 ltac:(lia)) as (d3 & -> & _); cbn [bind].
      rewrite (date_add_raise s1 4) by lia. reflexivity.
    + rewrite (date_add_raise s0 (7 * semana_offset)) by lia. reflexivity.
    + rewrite (date_add_raise s0 (7 * semana_offset)) by lia. reflexivity.
Qed.

Lemma datas_da_semana_witness :
  exists l,
    _obter_datas_semana (mkdate 2024 1 3) 1 = Ok l /\
    map weekday l = [0; 1; 2; 3; 4].
Proof.
  pose proof (datas_da_semana (mkdate 2024 1 3) 1 eq_refl) as H.
  cbv zeta in H.
  change ((1 <=? toordinal (mkdate 2024 1 3) - weekday (mkdate 2024 1 3) + 7 * 1)
          && (toordinal (mkdate 2024 1 3) - weekday (mkdate 2024 1 3) + 7 * 1 + 4
              <=? _MAXORDINAL)) with true in H.
  cbv iota in H. destruct H as (l & H1 & _ & H2 & _). exists l. split; assumption.
Defined.

(** ** The calendar *)

Lemma por_dia_append_spec c x c' x' : forall d,
  em_por_dia c x (por_dia_append c' x' d) <->
  em_por_dia c x d \/ (c = c' /\ x = x').
Proof.
  unfold em_por_dia. induction d as [|[c0 l0] d IH]; cbn [por_dia_append].
  - split.
    + intros (l & [H|[]] & Hx). injection H as <- <-.
      destruct Hx as [<-|[]]. now right.
    + intros [(l & [] & _) | (-> & ->)]. exists [x']. split; now left.
  - destruct (Z.eqb_spec c0 c') as [->|Hne].
    + split.
      * intros (l & [H|H] & Hx).
        -- injection H as <- <-. apply in_app_iff in Hx.
           destruct Hx as [Hx|[<-|[]]]; [|now right].
           left. exists l0. split; [now left | exact Hx].
        -- left. exists l. split; [now right | exact Hx].
      * intros [(l & [H|H] & Hx) | (-> & ->)].
        -- injection H as <- <-. exists (l0 ++ [x']).
           split; [now left | apply in_app_iff; now left].
        -- exists l. split; [now right | exact Hx].
        -- exists (l0 ++ [x']). split; [now left|].
           apply in_app_iff. right. now left.
    + split.
      * intros (l & [H|H] & Hx).
        -- left. exists l. split; [now left | exact Hx].
        -- destruct (proj1 IH (ex_intro _ l (conj H Hx))) as [(l' & Hl' & Hx')|Hr].
           ++ left. exists l'. split; [now right | exact Hx'].
           ++ now right.
      * intros [(l & [H|H] & Hx) | Hr].
        -- exists l. split; [now left | exact Hx].
        -- destruct (proj2 IH (or_introl (ex_intro _ l (conj H Hx)))) as (l' & Hl' & Hx').
           exists l'. split; [now right | exact Hx'].
        -- destruct (proj2 IH (or_intror Hr)) as (l' & Hl' & Hx').
           exists l'. split; [now right | exact Hx'].
Qed.

Lemma inserir_por_horario_perm {A} (x : str * A) l :
  Permutation (inserir_por_horario x l) (x :: l).
Proof.
  induction l as [|y l IH]; cbn; [reflexivity|].
  destruct (str_ltb (fst y) (fst x)); [|reflexivity].
  rewrite IH. apply perm_swap.
Qed.

Lemma sort_por_horario_perm {A} (l : list (str * A)) :
  Permutation (sort_por_horario l) l.
Proof.
  induction l as [|x l IH]; cbn; [reflexivity|].
  unfold sort_por_horario in *. cbn [fold_right].
  rewrite inserir_por_horario_perm. now constructor.
Qed.

Lemma In_sort_por_horario {A} (x : str * A) l : In x (sort_por_horario l) <-> In x l.
Proof.
  split; apply Permutation_in;
    [apply sort_por_horario_perm | symmetry; apply sort_por_horario_perm].
Qed.

Lemma em_por_dia_sort c x d :
  em_por_dia c x
    (map (fun cl : Z * list (str * MetadadosAtividade) =>
            (fst cl, sort_por_horario (snd cl))) d)
  <-> em_por_dia c x d.
Proof.
  unfold em_por_dia. split.
  - intros (l & Hl & Hx). apply in_map_iff in Hl.
    destruct Hl as ([c0 l0] & E & Hin). cbn [fst snd] in E. injection E as -> <-.
    exists l0. split; [exact Hin | now apply In_sort_por_horario].
  - intros (l & Hl & Hx). exists (sort_por_horario l).
    split; [|now apply In_sort_por_horario].
    apply in_map_iff. exists (c, l). split; [reflexivity | exact Hl].
Qed.

Section Calendario.
Context {U : Unicode}.

Lemma extrair_metadados_ok t :
  exists md, extrair_metadados t = Ok md /\ data_ok md.
Proof.
  destruct (extrair_prioridade_total t) as (p & Hp & _).
  destruct (extrair_periodicidade_total t) as (c & Hc & _).
  pose proof (extrair_data_criacao_total t) as Hd.
  eexists. split.
  - unfold extrair_metadados. cbv zeta. rewrite Hp, Hc, Hd. reflexivity.
  - unfold data_ok. cbn [data_criacao]. unfold data_do_texto.
    destruct (search _PADRAO_DATA t) as [mt|]; [|exact I].
    destruct (group1 mt) as [g|]; [|exact I].
    destruct (fromisoformat g) as [d|] eqn:E; [|exact I].
    now apply fromisoformat_ok in E.
Qed.

Lemma verdadeiro_strip t :
  verdadeiro t && verdadeiro (strip t) = true <-> strip t <> [].
Proof.
  destruct t as [|x xs]; [cbn; split; [discriminate | now intros []]|].
  cbn [verdadeiro andb]. destruct (strip (x :: xs)); cbn; split;
    congruence || discriminate || auto.
Qed.

Lemma guardar_atividades : forall dados d0,
  exists d,
    fold_left guardar_atividade dados (Ok d0) = Ok d /\
    forall c x, em_por_dia c x d <-> em_por_dia c x d0 \/ da_celula dados c x.
Proof.
  induction dados as [|[[h col] texto] dados IH]; intros d0.
  - exists d0. split; [reflexivity|]. intros c x. split; [auto|].
    intros [H|(t & [] & _)]. exact H.
  - cbn [fold_left]. unfold guardar_atividade at 2. cbn [bind].
    assert (Hskip : forall d1,
      (forall c x, em_por_dia c x d1 <->
                   em_por_dia c x d0 \/
                   (exists t, texto = Some t /\ fst x = h /\ c = col /\
                              strip t <> [] /\ extrair_metadados t = Ok (snd x))) ->
      exists d,
        fold_left guardar_atividade dados (Ok d1) = Ok d /\
        forall c x, em_por_dia c x d <->
                    em_por_dia c x d0 \/ da_celula ((h, col, texto) :: dados) c x).
    { intros d1 H1. destruct (IH d1) as (d & Hd & Hm). exists d. split; [exact Hd|].
      intros c x. rewrite Hm, H1. unfold da_celula. cbn [In]. split.
      - intros [[H|(t & -> & <- & -> & Hs & He)] | (t & Hin & Hs & He)].
        + now left.
        + right. exists t. split; [now left | auto].
        + right. exists t. split; [now right | auto].
      - intros [H | (t & [E|Hin] & Hs & He)].
        + left. now left.
        + injection E as E1 E2 E3. subst h col texto. left. right. exists t. auto.
        + right. exists t. auto. }
    destruct texto as [t|].
    + destruct (verdadeiro t && verdadeiro (strip t)) eqn:Ev.
      * apply verdadeiro_strip in Ev.
        destruct (extrair_metadados_ok t) as (md & Hmd & _). rewrite Hmd. cbn [bind].
        apply Hskip. intros c x. rewrite por_dia_append_spec. split.
        -- intros [H|(-> & ->)]; [now left|]. right. exists t. cbn [fst snd]. auto.
        -- intros [H|(t' & E & Hh & -> & _ & He)]; [now left|].
           injection E as <-. right. split; [reflexivity|].
           destruct x as [h' md']. cbn [fst snd] in *. subst h'. congruence.
      * apply Hskip. intros c x. split; [auto|].
        intros [H|(t' & E & _ & _ & Hs & _)]; [exact H|].
        injection E as <-. apply verdadeiro_strip in Hs. congruence.
    + apply Hskip. intros c x. split; [auto|].
      intros [H|(t' & E & _)]; [exact H | discriminate E].
Qed.

Lemma coletar_validas hoje data c :
  date_ok hoje = true -> date_ok data = true ->
  forall atividades l0,
    (forall x, In x atividades -> data_ok (snd x)) ->
    exists l,
      fold_left (coletar_valida hoje data c) atividades (Ok l0) = Ok l /\
      forall x, In x l <-> In x l0 \/ (In x atividades /\ valida_em hoje data c x).
Proof.
  intros Hh Hd. induction atividades as [|[h md] atividades IH]; intros l0 Hok.
  - exists l0. split; [reflexivity|]. intros x. split; [auto | intros [H|([] & _)]; exact H].
  - cbn [fold_left]. unfold coletar_valida at 2. cbn [bind].
    assert (Hdt : date_ok (match data_criacao md with Some d => d | None => hoje end) = true).
    { specialize (Hok (h, md) (or_introl eq_refl)). unfold data_ok in Hok. cbn [snd] in Hok.
      destruct (data_criacao md); assumption. }
    destruct (atividade_valida_total hoje data (periodicidade md) (data_criacao md) Hd Hdt)
      as (v & Hv).
    assert (Hnext : forall l1,
      (forall x, In x l1 <-> In x l0 \/ (x = (h, md) /\ valida_em hoje data c x)) ->
      exists l,
        fold_left (coletar_valida hoje data c) atividades (Ok l1) = Ok l /\
        forall x, In x l <->
                  In x l0 \/ (In x ((h, md) :: atividades) /\ valida_em hoje data c x)).
    { intros l1 H1. destruct (IH l1) as (l & Hl & Hm).
      { intros x Hx. apply Hok. now right. }
      exists l. split; [exact Hl|]. intros x. rewrite Hm, H1. cbn [In]. split.
      - intros [[H|(-> & Hx)] | (Hin & Hx)]; auto.
      - intros [H | ([<-|Hin] & Hx)]; auto. }
    assert (Hval : forall l0' : list (str * MetadadosAtividade),
      l0' = (if v then l0 ++ [(h, md)] else l0) ->
      (periodicidade md = lit "diaria" \/ c = weekday data) ->
      forall x, In x l0' <-> In x l0 \/ (x = (h, md) /\ valida_em hoje data c x)).
    { intros l0' -> Hc x. unfold valida_em. destruct v.
      - rewrite in_app_iff. cbn [In]. split.
        + intros [H|[<-|[]]]; [now left|]. right. cbn [snd]. auto.
        + intros [H|(-> & _)]; [now left | right; now left].
      - split; [auto|]. intros [H|(-> & Hx & _)]; [exact H|].
        cbn [snd] in Hx. congruence. }
    destruct (str_eqb (periodicidade md) (lit "diaria")) eqn:Ed.
    + rewrite Hv. cbn [bind]. apply Hnext. apply Hval; [reflexivity|].
      left. now apply str_eqb_eq.
    + destruct (Z.eqb_spec c (weekday data)) as [Hc|Hc].
      * rewrite Hv. cbn [bind]. apply Hnext. apply Hval; [reflexivity | now right].
      * apply Hnext. intros x. split; [auto|].
        intros [H|(-> & _ & [Hx|Hx])]; [exact H | | contradiction].
        cbn [snd] in Hx. apply str_eqb_eq in Hx. congruence.
Qed.

Lemma coletar_todas hoje data :
  date_ok hoje = true -> date_ok data = true ->
  forall (d : PorDia) l0,
    (forall c x, em_por_dia c x d -> data_ok (snd x)) ->
    exists l,
      fold_left (fun acc (cl : Z * list (str * MetadadosAtividade)) =>
                   fold_left (coletar_valida hoje data (fst cl)) (snd cl) acc)
                d (Ok l0) = Ok l /\
      forall x, In x l <->
                In x l0 \/ exists c, em_por_dia c x d /\ valida_em hoje data c x.
Proof.
  intros Hh Hd. induction d as [|[c atividades] d IH]; intros l0 Hok.
  - exists l0. split; [reflexivity|]. intros x. split; [auto|].
    intros [H|(c & (l & [] & _) & _)]. exact H.
  - cbn [fold_left fst snd].
    destruct (coletar_validas hoje data c Hh Hd atividades l0) as (l1 & -> & H1).
    { intros x Hx. apply (Hok c x). exists atividades. split; [now left | exact Hx]. }
    destruct (IH l1) as (l & Hl & Hm).
    { intros c' x (l' & Hin & Hx). apply (Hok c' x). exists l'. split; [now right | exact Hx]. }
    exists l. split; [exact Hl|]. intros x. rewrite Hm, H1. unfold em_por_dia. cbn [In].
    split.
    + intros [[H|(Hin & Hv)] | (c' & (l' & Hin & Hx) & Hv)].
      * now left.
      * right. exists c. split; [|exact Hv]. exists atividades. split; [now left | exact Hin].
      * right. exists c'. split; [|exact Hv]. exists l'. split; [now right | exact Hx].
    + intros [H | (c' & (l' & [E|Hin] & Hx) & Hv)].
      * left. now left.
      * injection E as <- <-. left. right. auto.
      * right. exists c'. split; [|exact Hv]. exists l'. auto.
Qed.

(** X30: What the calendar lists for a day from Monday to Friday: the
    activities of the non-blank cells of the grid that the evaluator
    holds valid for the date, those of the column of the day and, from
    every column, the daily ones.  Neither the loading of the grid nor
    the listing raises. *)
Theorem calendario_lista_as_atividades_validas (hoje data : date) (bd : BD) :
  date_ok hoje = true -> date_ok data = true -> weekday data < 5 ->
  exists por_dia lista,
    fst (_carregar_atividades bd) = Ok por_dia /\
    _ao_clicar_data hoje data por_dia = Ok lista /\
    forall horario md,
      In (horario, md) lista <->
      exists coluna texto,
        In ((horario, coluna), Some texto) (fst (obter_dados_grade bd)) /\
        strip texto <> [] /\
        extrair_metadados texto = Ok md /\
        atividade_valida_para_data hoje data (periodicidade md) (data_criacao md)
        = Ok true /\
        (periodicidade md = lit "diaria" \/ coluna = weekday data).
Proof.
  intros Hh Hd Hw. unfold _carregar_atividades.
  destruct (obter_dados_grade bd) as [dados bd'] eqn:Eg. cbn [fst].
  destruct (guardar_atividades dados []) as (d & Hfold & Hmem).
  set (por_dia := map (fun cl : Z * list (str * MetadadosAtividade) =>
                         (fst cl, sort_por_horario (snd cl))) d).
  assert (Hpd : forall c x, em_por_dia c x por_dia <-> da_celula dados c x).
  { intros c x. unfold por_dia. rewrite em_por_dia_sort, Hmem. split; [|auto].
    intros [(l & [] & _)|H]. exact H. }
  assert (Hok : forall c x, em_por_dia c x por_dia -> data_ok (snd x)).
  { intros c x Hx. apply Hpd in Hx. destruct Hx as (t & _ & _ & He).
    destruct (extrair_metadados_ok t) as (md & Hmd & Hdt). congruence. }
  destruct (coletar_todas hoje data Hh Hd por_dia [] Hok) as (l & Hl & Hm).
  exists por_dia, (sort_por_horario l). split.
  { assert (Hg : forall r : result PorDia, r = Ok d ->
              (d' <- r ;;
               Ok (map (fun cl : Z * list (str * MetadadosAtividade) =>
                          (fst cl, sort_por_horario (snd cl))) d')) = Ok por_dia)
      by (intros r ->; reflexivity).
    apply Hg. exact Hfold. }
  split.
  - unfold _ao_clicar_data. cbv zeta.
    replace (5 <=? weekday data) with false by (symmetry; apply Z.leb_gt; lia).
    rewrite Hl. reflexivity.
  - intros horario md. rewrite In_sort_por_horario, Hm. split.
    + intros [[]|(c & Hc & Hv & Hcol)]. apply Hpd in Hc.
      destruct Hc as (t & Hin & Hs & He). cbn [fst snd] in *.
      exists c, t. auto.
    + intros (c & t & Hin & Hs & He & Hv & Hcol). right. exists c. split.
      * apply Hpd. exists t. cbn [fst snd]. auto.
      * split; assumption.
Qed.

End Calendario.

Lemma calendario_lista_as_atividades_validas_witness :
  exists por_dia lista,
    fst (@_carregar_atividades latin1 bd_calendario) = Ok por_dia /\
    _ao_clicar_data (mkdate 2024 1 8) (mkdate 2024 1 8) por_dia = Ok lista /\
    forall horario md,
      In (horario, md) lista <->
      exists coluna texto,
        In ((horario, coluna), Some texto) (fst (obter_dados_grade bd_calendario)) /\
        @strip latin1 texto <> [] /\
        @extrair_metadados latin1 texto = Ok md /\
        atividade_valida_para_data (mkdate 2024 1 8) (mkdate 2024 1 8) (periodicidade md)
          (data_criacao md) = Ok true /\
        (periodicidade md = lit "diaria" \/ coluna = weekday (mkdate 2024 1 8)).
Proof.
  apply (@calendario_lista_as_atividades_validas latin1 (mkdate 2024 1 8) (mkdate 2024 1 8)
           bd_calendario); [reflexivity | reflexivity | vm_compute; reflexivity].
Defined.

End CalendarioFacts.
